(** * Cortex Analyst chat application: conversation state and orchestration

    A shallow embedding of [cortex_analyst_sis_demo_app.py].  The script is a
    Streamlit program: every interaction re-executes [main] against a session
    state that survives between executions.  The embedding keeps that shape:

    - Python values that travel through the program (transcript turns,
      response envelopes, content blocks, warnings) are JSON values;
    - the script is written in a state-and-exception monad whose state is the
      session state together with the log of remote requests, the query memo
      table and the list of widgets drawn so far;
    - the remote API, the JSON decoder, the warehouse, Streamlit's tables of
      icons, the iteration order of sets and the widget inputs of one
      execution are parameters;
    - of Streamlit and pandas the embedding keeps what the script can observe:
      the widgets drawn, the values they return, and the calls they refuse
      (an icon that is no emoji, a second form with the same key, an index
      label shared by two columns). *)

From Stdlib Require Import String Ascii List ZArith Lia Bool DecimalString.
From Stdlib Require Import Permutation.
Import ListNotations.

Local Open Scope Z_scope.
Local Open Scope string_scope.
Local Open Scope list_scope.

Local Infix "^^" := String.append (at level 60, right associativity).

Set Warnings "-register-all".

(** ** Python values *)

(** The values produced by [json.loads] and by the dict and list displays of
    the script.  A dict is an association list read from the left; numbers are
    restricted to integers. *)
Inductive json : Type :=
| JNull
| JBool (b : bool)
| JNum (n : Z)
| JStr (s : string)
| JArr (items : list json)
| JObj (fields : list (string * json)).

Inductive exn : Type :=
| KeyError (key : string)
| TypeError
| ValueError
| AttributeError (name : string)
| JSONDecodeError
| StreamlitAPIException.

Fixpoint json_eqb (a b : json) {struct a} : bool :=
  match a, b with
  | JNull, JNull => true
  | JBool x, JBool y => Bool.eqb x y
  | JNum x, JNum y => Z.eqb x y
  | JStr x, JStr y => String.eqb x y
  | JArr xs, JArr ys =>
      (fix go (l1 l2 : list json) {struct l1} : bool :=
         match l1, l2 with
         | [], [] => true
         | x :: l1', y :: l2' => json_eqb x y && go l1' l2'
         | _, _ => false
         end) xs ys
  | JObj xs, JObj ys =>
      (fix go (l1 l2 : list (string * json)) {struct l1} : bool :=
         match l1, l2 with
         | [], [] => true
         | (k1, x) :: l1', (k2, y) :: l2' =>
             String.eqb k1 k2 && json_eqb x y && go l1' l2'
         | _, _ => false
         end) xs ys
  | _, _ => false
  end.

(** The double-quote character, for string constants that contain it. *)
Definition dq : string := String (ascii_of_nat 34) EmptyString.

(** [str(n)] for an integer. *)
Definition str_of_Z (n : Z) : string := NilZero.string_of_int (Z.to_int n).

Section PythonValues.

(** [repr] of a list or dict, used by [str] on containers; the text Python
    prints for them is not fixed by the script. *)
Variable py_repr : json -> string.

(** [str(v)], as an f-string placeholder formats [v]. *)
Definition py_str (v : json) : string :=
  match v with
  | JNull => "None"
  | JBool true => "True"
  | JBool false => "False"
  | JNum n => str_of_Z n
  | JStr s => s
  | JArr _ | JObj _ => py_repr v
  end.

End PythonValues.

(** Truth value of [v] in an [if]. *)
Definition py_truthy (v : json) : bool :=
  match v with
  | JNull => false
  | JBool b => b
  | JNum n => negb (n =? 0)%Z
  | JStr s => negb (String.eqb s "")
  | JArr l => match l with [] => false | _ => true end
  | JObj d => match d with [] => false | _ => true end
  end.

(** [v == s] for a string literal [s]. *)
Definition py_eq_str (v : json) (s : string) : bool :=
  match v with
  | JStr s' => String.eqb s' s
  | _ => false
  end.

(** [v is None]. *)
Definition is_None (v : json) : bool :=
  match v with JNull => true | _ => false end.

Fixpoint dict_get (k : string) (d : list (string * json)) : option json :=
  match d with
  | [] => None
  | (k', v) :: d' => if String.eqb k' k then Some v else dict_get k d'
  end.

Definition dict_has (k : string) (d : list (string * json)) : bool :=
  match dict_get k d with Some _ => true | None => false end.

(** [sub in s] on strings. *)
Fixpoint str_contains (sub s : string) : bool :=
  String.prefix sub s ||
  match s with
  | EmptyString => false
  | String _ s' => str_contains sub s'
  end.

(** The one-character strings of [s], as iterating a [str] yields them.
    Strings are byte strings here; on ASCII text bytes and characters
    agree. *)
Fixpoint str_chars (s : string) : list json :=
  match s with
  | EmptyString => []
  | String c s' => JStr (String c EmptyString) :: str_chars s'
  end.

(** [v[k]] for a string key [k]. *)
Definition py_getitem (v : json) (k : string) : exn + json :=
  match v with
  | JObj d => match dict_get k d with
              | Some x => inr x
              | None => inl (KeyError k)
              end
  | _ => inl TypeError
  end.

(** [k in v] for a string [k]. *)
Definition py_contains (k : string) (v : json) : exn + bool :=
  match v with
  | JObj d => inr (dict_has k d)
  | JArr l => inr (existsb (fun x => py_eq_str x k) l)
  | JStr s => inr (str_contains k s)
  | _ => inl TypeError
  end.

(** The elements a [for] loop (or [list.extend], or [enumerate]) draws from
    [v]. *)
Definition py_iter (v : json) : exn + list json :=
  match v with
  | JArr l => inr l
  | JStr s => inr (str_chars s)
  | JObj d => inr (map (fun kv => JStr (fst kv)) d)
  | _ => inl TypeError
  end.

(** Dict keys: lists and dicts are unhashable; [True == 1] and [False == 0]
    name the same key. *)
Definition hashable (v : json) : bool :=
  match v with
  | JArr _ | JObj _ => false
  | _ => true
  end.

Definition key_norm (v : json) : json :=
  match v with
  | JBool b => JNum (if b then 1 else 0)
  | _ => v
  end.

Definition key_eqb (a b : json) : bool := json_eqb (key_norm a) (key_norm b).

(** ** Constants of the script *)

Definition AVAILABLE_SEMANTIC_MODELS_PATHS : list string :=
  [ "STEPHANE_SANDBOX.PUBLIC.RAW_DATA/semantic_model_automated.yaml";
    "STEPHANE_SANDBOX.PUBLIC.RAW_DATA/semantic_model.yml" ].
Definition API_ENDPOINT : string := "/api/v2/cortex/analyst/message".
Definition FEEDBACK_API_ENDPOINT : string := "/api/v2/cortex/analyst/feedback".
Definition API_COMPLETE_ENDPOINT : string := "/api/v2/cortex/inference:complete".
Definition API_TIMEOUT : Z := 50000.

Definition setup_message : string :=
  "
    You are an expert Neo4j Graph Analytics for Snowflake SQL generator. Your task is to interpret user requests for graph analysis and generate a single, complete SQL query.

    **Key Guidelines and Constraints:**

    1.  **Output Format:** Your response MUST be a valid SQL query for Neo4j Graph Analytics for Snowflake. Do not include any conversational text, explanations, or code blocks other than the SQL query itself.
    2.  **Algorithm Selection:**
        * Choose the most appropriate graph algorithm from the available list: `BETWEENNESS_CENTRALITY`, `DEGREE_CENTRALITY`, `DIJKSTRA_SINGLE_SOURCE_SHORTEST_PATH`, `DIJKSTRA_SOURCE_TARGET_SHORTEST_PATH`, `FASTRP`, `FASTPATH`, `GRAPHSAGE`, `K_NEAREST_NEIGHBORS`, `LOUVAIN`, `NODE_CLASSIFICATION_TRAINING`, `NODE_CLASSIFICATION_PREDICTION`, `NODE_EMBEDDINGS_TRAINING`, `NODE_EMBEDDINGS_PREDICTION`, `NODE_SIMILARITY`, `PAGERANK`, `TRIANGLE_COUNT`, `WEAKLY_CONNECTED_COMPONENTS`.
        * Prioritize algorithms that directly address community detection, centrality, pathfinding, or embeddings based on the user's intent.
    3.  **SQL Structure:** The SQL query will adhere to the following pattern for calling Neo4j Graph Analytics:

        ```sql
        CALL NEO4J_GRAPH_ANALYTICS.ADMIN.RUN_JOB(
            'YOUR_APP_NAME',
            '<ALGORITHM_NAME>',
            OBJECT_CONSTRUCT(
                'node_table', 'YOUR_NODES_TABLE',
                'relationship_table', 'YOUR_RELATIONSHIPS_TABLE',
                'output_table', 'YOUR_OUTPUT_TABLE'
                -- Add algorithm-specific parameters here, e.g., 'source_node_id', 'target_node_id', 'weight_property', 'iterations', 'embedding_size', etc.
            )
        );
        ```
        * `YOUR_APP_NAME` should always be `NEO4J_GRAPH_ANALYTICS`.
        * `<ALGORITHM_NAME>` must be one of the exact algorithm names listed in guideline 2, enclosed in single quotes.
        * `YOUR_NODES_TABLE` and `YOUR_RELATIONSHIPS_TABLE` will be identified from the provided semantic context. These should be fully qualified (e.g., `DATABASE.SCHEMA.TABLE_NAME`).
        * `YOUR_OUTPUT_TABLE` should be a new, descriptive table name in the format `APP_SCHEMA.ALGORITHM_OUTPUT_<TIMESTAMP_OR_DESCRIPTIVE_SUFFIX>`. For example, `GRAPH_APP_RESULTS.LOUVAIN_COMMUNITIES_202506041621`. Ensure the output table name is distinct and descriptive.
        * You MUST infer and include any necessary algorithm-specific parameters within the `OBJECT_CONSTRUCT` based on the user's request and the semantic context. Common parameters include:
            * `source_node_id` (for shortest path, typically a column from the nodes table)
            * `target_node_id` (for shortest path, typically a column from the nodes table)
            * `weight_property` (for weighted algorithms, typically a numeric column from the relationships table)
            * `iterations` (for iterative algorithms like PageRank)
            * `embedding_size` (for embedding algorithms)
            * `label_property` (for node classification)
            * `relationship_type_property` (if relationships have types)
            * `node_id_property` (if node IDs are not the primary key)
            * `source_node_property` (for relationship table mapping, e.g., 'FROM_NODE_ID')
            * `target_node_property` (for relationship table mapping, e.g., 'TO_NODE_ID')
    4.  **Semantic Context Usage:** The user will provide a " ^^ dq ^^ "semantic file" ^^ dq ^^ " containing metadata about available tables and their relationships. You MUST parse this context to:
        * Identify appropriate node and relationship tables for the requested analysis.
        * Infer column names for node IDs, relationship source/target, and any properties (like weights) needed by the chosen algorithm.
        * **Crucially, only use tables and columns explicitly defined in the semantic context.** If a suitable table or column is not found for a requested analysis, indicate that the request cannot be fulfilled with the current data schema.
    5.  **Error Handling (Implicit):** If a user's request cannot be translated into a valid Neo4j Graph Analytics SQL query given the available algorithms and semantic context, output a clear message indicating why the query cannot be generated and what information is missing. For example: " ^^ dq ^^ "Error: Cannot generate SQL. The request for [ALGORITHM] requires a [PROPERTY/TABLE] that is not defined in the provided semantic context." ^^ dq ^^ "

    **Semantic File Format Expectation (for LLM to parse):**

    The semantic file will be provided in a JSON-like format within the user's prompt. It will describe databases, schemas, tables, columns, and their inferred roles (e.g., `node_table`, `relationship_table`, `node_id`, `relationship_source_id`, `relationship_target_id`, `properties`).
".
Definition graph_error_part0 : string :=
  "
ðŸš¨ A model creation error has occurred ðŸš¨

* response code: `".
Definition graph_error_part1 : string :=
  "`
* request-id: `".
Definition graph_error_part2 : string :=
  "`
* error code: `".
Definition graph_error_part3 : string :=
  "`

Message:
```
".
Definition graph_error_part4 : string :=
  "
```
        ".
Definition analyst_error_part0 : string :=
  "
ðŸš¨ An Analyst API error has occurred ðŸš¨

* response code: `".
Definition analyst_error_part1 : string :=
  "`
* request-id: `".
Definition analyst_error_part2 : string :=
  "`
* error code: `".
Definition analyst_error_part3 : string :=
  "`

Message:
```
".
Definition analyst_error_part4 : string :=
  "
```
        ".
Definition feedback_error_part0 : string :=
  "
        ðŸš¨ An Analyst API error has occurred ðŸš¨
        
        * response code: `".
Definition feedback_error_part1 : string :=
  "`
        * request-id: `".
Definition feedback_error_part2 : string :=
  "`
        * error code: `".
Definition feedback_error_part3 : string :=
  "`
        
        Message:
        ```
        ".
Definition feedback_error_part4 : string :=
  "
        ```
        ".
(** Labels and icons that are not plain ASCII, byte for byte as the script
    spells them. *)
Definition toast_icon : string := "ðŸš¨".
Definition warning_icon : string := "âš ï¸".
Definition data_tab_label : string := "Data ðŸ“„".
Definition chart_tab_label : string := "Chart ðŸ“‰".
Definition line_chart_label : string := "Line Chart ðŸ“ˆ".
Definition bar_chart_label : string := "Bar Chart ðŸ“Š".
Definition feedback_popover_label : string := "ðŸ“ Query Feedback".
Definition thumbs_up : string := "ðŸ‘".
Definition thumbs_down : string := "ðŸ‘Ž".
Definition success_icon : string := "âœ…".

(** ** Session state, environment and widget inputs *)

(** The value stored per request id in [form_submitted]: the dict
    [{"error": err_msg}]. *)
Record feedback_record : Type := mk_feedback { fb_error : option string }.

(** [st.session_state].  A field is [None] while the attribute has never been
    assigned; reading it then raises [AttributeError].  Python's [None] in
    [active_suggestion] is [JNull]. *)
Record session_state : Type := mk_session {
  messages : option (list json);
  active_suggestion : option json;
  warnings : option (list json);
  form_submitted : option (list (json * feedback_record));
  fire_API_error_notify : option bool;
  popover_open : option bool;
  selected_semantic_model_path : option string
}.

(** The arguments of [_snowflake.send_snow_api_request] and the two fields of
    its result the script reads. *)
Record request : Type := mk_request {
  req_method : string;
  req_path : string;
  req_headers : json;
  req_params : json;
  req_body : json;
  req_guid : json;
  req_timeout : Z
}.

Record response : Type := mk_response {
  status : Z;
  content : string
}.

(** What the script reads of a pandas data frame. *)
Record dataframe : Type := mk_dataframe {
  df_columns : list string;
  df_empty : bool
}.

Definition query_result : Type := (option dataframe * option string)%type.

(** Streamlit calls that draw something. *)
Inductive widget : Type :=
| St_title | St_markdown | St_selectbox | St_divider | St_columns | St_button
| St_chat_input | St_toast | St_chat_message | St_spinner | St_warning
| St_expander | St_code | St_popover | St_container | St_text | St_error
| St_write | St_tabs | St_dataframe | St_line_chart | St_bar_chart | St_form
| St_radio | St_text_input | St_form_submit_button | St_success.

Definition ui_event : Type := (widget * list json)%type.

(** Everything one execution of the script can change: the session state, the
    requests sent so far (oldest first), the memo table of
    [get_query_exec_result], and the widgets drawn (oldest first). *)
Record world : Type := mk_world {
  ss : session_state;
  api_log : list request;
  query_cache : list (json * query_result);
  ui : list ui_event
}.

(** The collaborators of the script.  [send_snow_api_request n r] is the
    answer to request [r] when [n] requests were sent before it.
    [icon_known s] says whether Streamlit's tables of emoji and Material
    symbols hold the text [s].  [set_before l a b] says whether [a] comes
    before [b] when the interpreter iterates over [set(l)]: the order of a
    set is the order of its hash table, which the script does not fix. *)
Record environment : Type := mk_environment {
  json_loads : string -> option json;
  send_snow_api_request : nat -> request -> response;
  session_sql : json -> dataframe + string;
  py_repr : json -> string;
  datetime_fromtimestamp : json -> option string;
  icon_known : string -> bool;
  set_before : list string -> string -> string -> bool
}.

(** What the user did since the previous execution: the widget values this
    execution reads. *)
Record inputs : Type := mk_inputs {
  in_model_change : option string;
  in_clear : bool;
  in_chat : option string;
  in_button : string -> bool;
  in_select : string -> list string -> option string;
  in_radio : string -> option string;
  in_text : string -> string;
  in_form_submit : string -> bool
}.

(** ** The script monad *)

(** A computation ends normally, or stops the execution by [st.rerun()], or
    raises.  The state reached is kept in all three cases. *)
Inductive outcome (A : Type) : Type :=
| Ok (a : A)
| Rerun
| Raise (e : exn).
Arguments Ok {A} a.
Arguments Rerun {A}.
Arguments Raise {A} e.

Definition M (A : Type) : Type := world -> outcome A * world.

Definition ret {A} (a : A) : M A := fun w => (Ok a, w).

Definition bind {A B} (m : M A) (f : A -> M B) : M B :=
  fun w =>
    match m w with
    | (Ok a, w') => f a w'
    | (Rerun, w') => (Rerun, w')
    | (Raise e, w') => (Raise e, w')
    end.

Declare Scope script_scope.
Delimit Scope script_scope with script.
Notation "x <- m ;; k" := (bind m (fun x => k))
  (at level 61, m at next level, right associativity) : script_scope.
Notation "m ;; k" := (bind m (fun _ => k))
  (at level 61, right associativity) : script_scope.
Local Open Scope script_scope.

Definition raise {A} (e : exn) : M A := fun w => (Raise e, w).

(** [st.rerun()]. *)
Definition rerun {A} : M A := fun w => (Rerun, w).

Definition lift {A} (r : exn + A) : M A :=
  match r with
  | inl e => raise e
  | inr a => ret a
  end.

Definition get_ss : M session_state := fun w => (Ok (ss w), w).

Definition modify_ss (f : session_state -> session_state) : M unit :=
  fun w => (Ok tt, mk_world (f (ss w)) (api_log w) (query_cache w) (ui w)).

(** Draw a widget. *)
Definition emit (wd : widget) (args : list json) : M unit :=
  fun w => (Ok tt, mk_world (ss w) (api_log w) (query_cache w) (ui w ++ [(wd, args)])).

(** Attribute read on [st.session_state]. *)
Definition attr {A} (name : string) (proj : session_state -> option A) : M A :=
  s <- get_ss ;;
  match proj s with
  | Some a => ret a
  | None => raise (AttributeError name)
  end.

Definition set_messages (v : list json) (s : session_state) : session_state :=
  mk_session (Some v) (active_suggestion s) (warnings s) (form_submitted s)
    (fire_API_error_notify s) (popover_open s) (selected_semantic_model_path s).
Definition set_active_suggestion (v : json) (s : session_state) : session_state :=
  mk_session (messages s) (Some v) (warnings s) (form_submitted s)
    (fire_API_error_notify s) (popover_open s) (selected_semantic_model_path s).
Definition set_warnings (v : list json) (s : session_state) : session_state :=
  mk_session (messages s) (active_suggestion s) (Some v) (form_submitted s)
    (fire_API_error_notify s) (popover_open s) (selected_semantic_model_path s).
Definition set_form_submitted (v : list (json * feedback_record))
    (s : session_state) : session_state :=
  mk_session (messages s) (active_suggestion s) (warnings s) (Some v)
    (fire_API_error_notify s) (popover_open s) (selected_semantic_model_path s).
Definition set_fire_API_error_notify (v : bool) (s : session_state) : session_state :=
  mk_session (messages s) (active_suggestion s) (warnings s) (form_submitted s)
    (Some v) (popover_open s) (selected_semantic_model_path s).
Definition set_popover_open (v : bool) (s : session_state) : session_state :=
  mk_session (messages s) (active_suggestion s) (warnings s) (form_submitted s)
    (fire_API_error_notify s) (Some v) (selected_semantic_model_path s).
Definition set_selected_semantic_model_path (v : string)
    (s : session_state) : session_state :=
  mk_session (messages s) (active_suggestion s) (warnings s) (form_submitted s)
    (fire_API_error_notify s) (popover_open s) (Some v).

(** [for x in l: body(x)]. *)
Fixpoint for_each {A} (body : A -> M unit) (l : list A) : M unit :=
  match l with
  | [] => ret tt
  | x :: l' => body x ;; for_each body l'
  end.

(** [enumerate(l)]. *)
Fixpoint enumerate_from {A} (i : Z) (l : list A) : list (Z * A) :=
  match l with
  | [] => []
  | x :: l' => (i, x) :: enumerate_from (i + 1) l'
  end.
Definition enumerate {A} (l : list A) : list (Z * A) := enumerate_from 0 l.

(** Dicts keyed by an arbitrary hashable value ([form_submitted]). *)
Fixpoint key_lookup {V} (k : json) (d : list (json * V)) : option V :=
  match d with
  | [] => None
  | (k', v) :: d' => if key_eqb k' k then Some v else key_lookup k d'
  end.

(** [d[k] = v]: overwrite in place, or add at the end. *)
Fixpoint key_store {V} (k : json) (v : V) (d : list (json * V)) : list (json * V) :=
  match d with
  | [] => [(k, v)]
  | (k', v') :: d' =>
      if key_eqb k' k then (k', v) :: d' else (k', v') :: key_store k v d'
  end.

(** [k in d]; an unhashable [k] raises. *)
Definition key_in {V} (k : json) (d : list (json * V)) : M bool :=
  if hashable k
  then ret (match key_lookup k d with Some _ => true | None => false end)
  else raise TypeError.

(** ** The script *)

Definition opt_str (o : option string) : string :=
  match o with Some s => s | None => "None" end.

Definition opt_json (o : option string) : json :=
  match o with Some s => JStr s | None => JNull end.

(** [s.split("/")[-1]], the label the sidebar shows for a model path. *)
Fixpoint last_segment (acc s : string) : string :=
  match s with
  | EmptyString => acc
  | String c s' =>
      if Ascii.eqb c "/"%char then last_segment EmptyString s'
      else last_segment (acc ^^ String c EmptyString) s'
  end.

(** The five literal pieces of an error f-string around its four
    placeholders. *)
Definition format_error (p0 p1 p2 p3 p4 : string)
    (code rid ecode msg : string) : string :=
  p0 ^^ code ^^ p1 ^^ rid ^^ p2 ^^ ecode ^^ p3 ^^ msg ^^ p4.

Fixpoint cache_lookup (q : json) (c : list (json * query_result)) : option query_result :=
  match c with
  | [] => None
  | (q', r) :: c' => if json_eqb q' q then Some r else cache_lookup q c'
  end.

(** The dict displays of the script. *)
Definition text_block (text : json) : json :=
  JObj [("type", JStr "text"); ("text", text)].

Definition user_turn (prompt : json) : json :=
  JObj [("role", JStr "user"); ("content", JArr [text_block prompt])].

Definition analyst_turn (content request_id : json) : json :=
  JObj [("role", JStr "analyst");
        ("content", content);
        ("request_id", request_id)].

Definition system_turn : json :=
  JObj [("role", JStr "system"); ("content", JArr [text_block (JStr setup_message)])].

(** [_snowflake.send_snow_api_request("POST", path, {}, {}, body, None,
    API_TIMEOUT)]. *)
Definition post (path : string) (body : json) : request :=
  mk_request "POST" path (JObj []) (JObj []) body JNull API_TIMEOUT.

(** The three requests of the script. *)
Definition graph_request (messages : list json) : request :=
  post API_COMPLETE_ENDPOINT
    (JObj [("messages", JArr messages); ("model", JStr "mistral-large2")]).

Definition analyst_request (messages : list json) (model_path : string) : request :=
  post API_ENDPOINT
    (JObj [("messages", JArr messages);
           ("semantic_model_file", JStr ("@" ^^ model_path))]).

Definition feedback_request (request_id : json) (positive : bool)
    (feedback_message : string) : request :=
  post FEEDBACK_API_ENDPOINT
    (JObj [("request_id", request_id);
           ("positive", JBool positive);
           ("feedback_message", JStr feedback_message)]).

(** The world once request [r] has gone out. *)
Definition sent (r : request) (w : world) : world :=
  mk_world (ss w) (api_log w ++ [r]) (query_cache w) (ui w).

(** Whether a form with this key was drawn earlier in the execution. *)
Definition is_form (key : string) (ev : ui_event) : bool :=
  match ev with
  | (St_form, [JStr k]) => String.eqb k key
  | _ => false
  end.

Definition form_drawn (key : string) (w : world) : bool :=
  existsb (is_form key) (ui w).

(** Put [x] in front of the first element it comes before. *)
Fixpoint place (before : string -> string -> bool) (x : string)
    (l : list string) : list string :=
  match l with
  | [] => [x]
  | y :: l' => if before x y then x :: y :: l' else y :: place before x l'
  end.

Section Script.

Variable E : environment.
Variable inp : inputs.

Definition str (v : json) : string := py_str (py_repr E) v.

(** The check Streamlit makes of an [icon] argument before it draws
    anything: the text must be in its tables of emoji and Material symbols.
    Every entry of those tables starts with a colon, a digit, [#], [*] or a
    symbol from U+00A9 on that is no letter; none starts with the byte 195,
    the UTF-8 lead byte of the letters U+00C0 to U+00FF. *)
Definition icon_accepted (icon : string) : bool :=
  match icon with
  | EmptyString => false
  | String c _ => negb (Ascii.eqb c (ascii_of_nat 195)) && icon_known E icon
  end.

Definition check_icon (icon : string) : M unit :=
  if icon_accepted icon then ret tt else raise StreamlitAPIException.

(** [st.form(key)]: a second form with the same key in one execution is
    refused. *)
Definition st_form (key : string) : M unit :=
  fun w =>
    if form_drawn key w then (Raise StreamlitAPIException, w)
    else emit St_form [JStr key] w.

(** The elements of [set(l)] in the order a loop meets them. *)
Definition set_iter (l : list string) : list string :=
  fold_right (place (set_before E l)) [] (nodup string_dec l).

(** [st.selectbox(label, options, key=key)]: the option the user selected,
    the first one while the user selected none that is on offer, [None] when
    there is no option. *)
Definition chosen (key : string) (options : list string) : option string :=
  match in_select inp key options with
  | Some x => if existsb (String.eqb x) options then Some x else hd_error options
  | None => hd_error options
  end.

Definition selectbox (label : string) (options : list string) (key : string)
    : M (option string) :=
  emit St_selectbox [JStr label; JArr (map JStr options); JStr key] ;;
  ret (chosen key options).

(** [df.set_index(x_col)[y_col]], of which only the failures are kept: a
    label that is no column raises [KeyError], and pandas refuses to index by
    a label that two columns share. *)
Definition set_index_column (df : dataframe) (x_col y_col : option string)
    : M unit :=
  match x_col with
  | None => raise (KeyError "None")
  | Some x =>
      match count_occ string_dec (df_columns df) x with
      | O => raise (KeyError x)
      | S O =>
          match y_col with
          | None => raise (KeyError "None")
          | Some y =>
              if negb (String.eqb y x) && existsb (String.eqb y) (df_columns df)
              then ret tt
              else raise (KeyError y)
          end
      | S (S _) => raise ValueError
      end
  end.

Definition api_call (r : request) : M response :=
  fun w => (Ok (send_snow_api_request E (length (api_log w)) r), sent r w).

(** [json.loads(s)]. *)
Definition loads (s : string) : M json :=
  match json_loads E s with
  | Some v => ret v
  | None => raise JSONDecodeError
  end.

Definition getitem (v : json) (k : string) : M json := lift (py_getitem v k).

Definition reset_session_state : M unit :=
  modify_ss (set_messages []) ;;
  modify_ss (set_active_suggestion JNull) ;;
  modify_ss (set_warnings []) ;;
  modify_ss (set_form_submitted []).

(** [st.session_state.messages.append(turn)]. *)
Definition messages_append (turn : json) : M unit :=
  ms <- attr "messages" messages ;;
  modify_ss (set_messages (ms ++ [turn])).

Definition submit_feedback (request_id : json) (positive : bool)
    (feedback_message : string) : M (option string) :=
  resp <- api_call (feedback_request request_id positive feedback_message) ;;
  if (status resp =? 200)%Z then ret None
  else
    parsed_content <- loads (content resp) ;;
    rid <- getitem parsed_content "request_id" ;;
    ecode <- getitem parsed_content "error_code" ;;
    msg <- getitem parsed_content "message" ;;
    ret (Some (format_error feedback_error_part0 feedback_error_part1
                 feedback_error_part2 feedback_error_part3 feedback_error_part4
                 (str_of_Z (status resp)) (str rid) (str ecode) (str msg))).

Definition display_feedback_section (request_id : json) : M unit :=
  emit St_popover [JStr feedback_popover_label] ;;
  fs <- attr "form_submitted" form_submitted ;;
  absent <- (b <- key_in request_id fs ;; ret (negb b)) ;;
  if absent then
    let form_key := "feedback_form_" ^^ str request_id in
    st_form form_key ;;
    emit St_radio [JStr "Rate the generated SQL";
                   JArr [JStr thumbs_up; JStr thumbs_down]] ;;
    let positive :=
      match in_radio inp form_key with
      | Some choice => String.eqb choice thumbs_up
      | None => false
      end in
    (* [request_id in form_submitted and form_submitted[request_id]]: the
       stored record is a one-entry dict, hence true in a condition *)
    submit_disabled <- (fs1 <- attr "form_submitted" form_submitted ;;
                        key_in request_id fs1) ;;
    emit St_text_input [JStr "Optional feedback message"] ;;
    let feedback_message := in_text inp form_key in
    emit St_form_submit_button [JStr "Submit"; JBool submit_disabled] ;;
    let submitted := negb submit_disabled && in_form_submit inp form_key in
    if submitted then
      err_msg <- submit_feedback request_id positive feedback_message ;;
      fs2 <- attr "form_submitted" form_submitted ;;
      modify_ss (set_form_submitted
                   (key_store request_id (mk_feedback err_msg) fs2)) ;;
      modify_ss (set_popover_open false) ;;
      rerun
    else ret tt
  else
    fs1 <- attr "form_submitted" form_submitted ;;
    present <- key_in request_id fs1 ;;
    match (if present then key_lookup request_id fs1 else None) with
    | Some (mk_feedback None) =>
        check_icon success_icon ;;
        emit St_success [JStr "Feedback submitted"; JStr success_icon]
    | Some (mk_feedback (Some e)) => emit St_error [JStr e]
    | None => raise (KeyError (str request_id))
    end.

Definition display_charts_tab (df : dataframe) (message_index : Z) : M unit :=
  if (2 <=? Z.of_nat (length (df_columns df)))%Z then
    let all_cols_set := set_iter (df_columns df) in
    emit St_columns [JNum 2] ;;
    x_col <- selectbox "X axis" all_cols_set
               ("x_col_select_" ^^ str_of_Z message_index) ;;
    (* [all_cols_set.difference({x_col})] *)
    let others :=
      match x_col with
      | Some x => remove string_dec x all_cols_set
      | None => all_cols_set
      end in
    y_col <- selectbox "Y axis" (set_iter others)
               ("y_col_select_" ^^ str_of_Z message_index) ;;
    chart_type <- selectbox "Select chart type"
                    [line_chart_label; bar_chart_label]
                    ("chart_type_" ^^ str_of_Z message_index) ;;
    if py_eq_str (opt_json chart_type) line_chart_label then
      set_index_column df x_col y_col ;;
      emit St_line_chart [opt_json x_col; opt_json y_col]
    else if py_eq_str (opt_json chart_type) bar_chart_label then
      set_index_column df x_col y_col ;;
      emit St_bar_chart [opt_json x_col; opt_json y_col]
    else ret tt
  else emit St_write [JStr "At least 2 columns are required"].

(** [@st.cache_data]: the warehouse is asked once per distinct query. *)
Definition get_query_exec_result (query : json) : M query_result :=
  fun w =>
    match cache_lookup query (query_cache w) with
    | Some r => (Ok r, w)
    | None =>
        let r := match session_sql E query with
                 | inl df => (Some df, None)
                 | inr e => (None, Some e)
                 end in
        (Ok r, mk_world (ss w) (api_log w) ((query, r) :: query_cache w) (ui w))
    end.

Definition display_sql_confidence (confidence : json) : M unit :=
  if is_None confidence then ret tt
  else
    verified_query_used <- getitem confidence "verified_query_used" ;;
    emit St_popover [JStr "Verified Query Used"] ;;
    emit St_container [] ;;
    if is_None verified_query_used then
      emit St_text [JStr "There is no query from the Verified Query Repository used to generate this SQL answer"]
    else
      name <- getitem verified_query_used "name" ;;
      emit St_text [JStr ("Name: " ^^ str name)] ;;
      question <- getitem verified_query_used "question" ;;
      emit St_text [JStr ("Question: " ^^ str question)] ;;
      verified_by <- getitem verified_query_used "verified_by" ;;
      emit St_text [JStr ("Verified by: " ^^ str verified_by)] ;;
      verified_at <- getitem verified_query_used "verified_at" ;;
      stamp <- match datetime_fromtimestamp E verified_at with
               | Some s => ret s
               | None => raise TypeError
               end ;;
      emit St_text [JStr ("Verified at: " ^^ stamp)] ;;
      emit St_text [JStr "SQL query:"] ;;
      sql <- getitem verified_query_used "sql" ;;
      emit St_code [sql].

Definition display_sql_query (sql : json) (message_index : Z)
    (confidence : json) (request_id : json) : M unit :=
  emit St_expander [JStr "SQL Query"] ;;
  emit St_code [sql] ;;
  display_sql_confidence confidence ;;
  emit St_expander [JStr "Results"] ;;
  emit St_spinner [JStr "Running SQL..."] ;;
  r <- get_query_exec_result sql ;;
  match fst r with
  | None =>
      emit St_error [JStr ("Could not execute generated SQL query. Error: "
                           ^^ opt_str (snd r))]
  | Some df =>
      if df_empty df then emit St_write [JStr "Query returned no data"]
      else
        emit St_tabs [JStr data_tab_label; JStr chart_tab_label] ;;
        emit St_dataframe [] ;;
        display_charts_tab df message_index
  end ;;
  if py_truthy request_id then display_feedback_section request_id
  else ret tt.

(** One turn of the loop of [display_message].  [item["type"]] is read once:
    reading it again in each [elif] gives the same value. *)
Definition display_item (message_index : Z) (request_id : json)
    (item : json) : M unit :=
  ty <- getitem item "type" ;;
  if py_eq_str ty "text" then
    text <- getitem item "text" ;;
    emit St_markdown [text]
  else if py_eq_str ty "suggestions" then
    suggestions <- getitem item "suggestions" ;;
    l <- lift (py_iter suggestions) ;;
    for_each
      (fun entry : Z * json =>
         let suggestion_index := fst entry in
         let suggestion := snd entry in
         let key := "suggestion_" ^^ str_of_Z message_index ^^ "_"
                    ^^ str_of_Z suggestion_index in
         emit St_button [suggestion; JStr key] ;;
         if in_button inp key
         then modify_ss (set_active_suggestion suggestion)
         else ret tt)
      (enumerate l)
  else if py_eq_str ty "sql" then
    statement <- getitem item "statement" ;;
    confidence <- getitem item "confidence" ;;
    display_sql_query statement message_index confidence request_id
  else ret tt.

Definition display_message (content : json) (message_index : Z)
    (request_id : json) : M unit :=
  items <- lift (py_iter content) ;;
  for_each (display_item message_index request_id) items.

Definition create_relevant_graph_tables (messages : list json)
    : M (json * option string) :=
  resp <- api_call (graph_request messages) ;;
  parsed_content <- loads (content resp) ;;
  if (status resp <? 400)%Z then ret (parsed_content, None)
  else
    rid <- getitem parsed_content "request_id" ;;
    ecode <- getitem parsed_content "error_code" ;;
    msg <- getitem parsed_content "message" ;;
    ret (parsed_content,
         Some (format_error graph_error_part0 graph_error_part1
                 graph_error_part2 graph_error_part3 graph_error_part4
                 (str_of_Z (status resp)) (str rid) (str ecode) (str msg))).

Definition get_analyst_response (messages : list json)
    : M (json * option string) :=
  model_path <- attr "selected_semantic_model_path" selected_semantic_model_path ;;
  resp <- api_call (analyst_request messages model_path) ;;
  parsed_content <- loads (content resp) ;;
  if (status resp <? 400)%Z then ret (parsed_content, None)
  else
    rid <- getitem parsed_content "request_id" ;;
    ecode <- getitem parsed_content "error_code" ;;
    msg <- getitem parsed_content "message" ;;
    ret (parsed_content,
         Some (format_error analyst_error_part0 analyst_error_part1
                 analyst_error_part2 analyst_error_part3 analyst_error_part4
                 (str_of_Z (status resp)) (str rid) (str ecode) (str msg))).

(** Lines 195 to 198: [if "warnings" in response: warnings.extend(...)]. *)
Definition merge_warnings (response : json) : M unit :=
  carried <- lift (py_contains "warnings" response) ;;
  if carried then
    ws <- attr "warnings" warnings ;;
    extra <- getitem response "warnings" ;;
    items <- lift (py_iter extra) ;;
    modify_ss (set_warnings (ws ++ items))
  else ret tt.

Definition process_user_input (prompt : json) : M unit :=
  modify_ss (set_warnings []) ;;
  let new_user_message := user_turn prompt in
  messages_append new_user_message ;;
  emit St_chat_message [JStr "user"] ;;
  ms <- attr "messages" messages ;;
  let user_msg_index := (Z.of_nat (length ms) - 1)%Z in
  user_content <- getitem new_user_message "content" ;;
  display_message user_content user_msg_index JNull ;;
  emit St_chat_message [JStr "analyst"] ;;
  emit St_spinner [JStr "Waiting for Graph Analyst's response (Query 1/2)..."] ;;
  history <- attr "messages" messages ;;
  called <- create_relevant_graph_tables history ;;
  let response1 := fst called in
  let error_msg1 := snd called in
  analyst_content <-
    match error_msg1 with
    | None =>
        message <- getitem response1 "message" ;;
        getitem message "content"
    | Some e => ret (JArr [text_block (JStr e)])
    end ;;
  request_id <- getitem response1 "request_id" ;;
  let analyst_message1 := analyst_turn analyst_content request_id in
  match error_msg1 with
  | Some _ => modify_ss (set_fire_API_error_notify true)
  | None => ret tt
  end ;;
  merge_warnings response1 ;;
  messages_append analyst_message1 ;;
  rerun.

Definition display_warnings : M unit :=
  ws <- attr "warnings" warnings ;;
  for_each
    (fun warning =>
       message <- getitem warning "message" ;;
       check_icon warning_icon ;;
       emit St_warning [message; JStr warning_icon])
    ws.

Definition display_conversation : M unit :=
  ms <- attr "messages" messages ;;
  for_each
    (fun entry : Z * json =>
       let idx := fst entry in
       let message := snd entry in
       role <- getitem message "role" ;;
       content <- getitem message "content" ;;
       emit St_chat_message [role] ;;
       if py_eq_str role "analyst" then
         request_id <- getitem message "request_id" ;;
         display_message content idx request_id
       else display_message content idx JNull)
    (enumerate ms).

Definition handle_user_inputs : M unit :=
  emit St_chat_input [JStr "What is your question?"] ;;
  if py_truthy (opt_json (in_chat inp)) then
    process_user_input (opt_json (in_chat inp))
  else
    pending <- attr "active_suggestion" active_suggestion ;;
    if negb (is_None pending) then
      modify_ss (set_active_suggestion JNull) ;;
      process_user_input pending
    else ret tt.

Definition handle_error_notifications : M unit :=
  s <- get_ss ;;
  match fire_API_error_notify s with
  | Some true =>
      check_icon toast_icon ;;
      emit St_toast [JStr "An API error has occured!"; JStr toast_icon] ;;
      modify_ss (set_fire_API_error_notify false)
  | _ => ret tt
  end.

Definition show_header_and_sidebar : M unit :=
  emit St_title [JStr "Cortex Analyst"] ;;
  emit St_markdown [JStr "Welcome to Cortex Analyst! Type your questions below to interact with your data. "] ;;
  emit St_selectbox
    [JStr "Selected semantic model:";
     JArr (map (fun s => JStr (last_segment EmptyString s))
             AVAILABLE_SEMANTIC_MODELS_PATHS);
     JStr "selected_semantic_model_path"] ;;
  (* a keyed widget owns its session entry: first drawn, it holds the first
     option *)
  s <- get_ss ;;
  match selected_semantic_model_path s with
  | Some _ => ret tt
  | None =>
      modify_ss (set_selected_semantic_model_path
                   (hd EmptyString AVAILABLE_SEMANTIC_MODELS_PATHS))
  end ;;
  emit St_divider [] ;;
  emit St_columns [JNum 2; JNum 6; JNum 2] ;;
  emit St_button [JStr "Clear Chat History"] ;;
  if in_clear inp then reset_session_state else ret tt.

(** Lines 85 to 95 of [main]: initialise, draw the page frame, and open an
    empty transcript with the system turn and the opening question. *)
Definition main_open : M unit :=
  s <- get_ss ;;
  match messages s with
  | None => reset_session_state
  | Some _ => ret tt
  end ;;
  show_header_and_sidebar ;;
  ms <- attr "messages" messages ;;
  if (Z.of_nat (length ms) =? 0)%Z then
    messages_append system_turn ;;
    process_user_input (JStr "What questions can I ask?")
  else ret tt.

Definition main : M unit :=
  main_open ;;
  display_conversation ;;
  handle_user_inputs ;;
  handle_error_notifications ;;
  display_warnings.

(** One execution as Streamlit performs it: the page is blank, a change of
    the sidebar selection has stored the new path and called the
    [on_change] callback, then the script body runs. *)
Definition before_script : M unit :=
  (fun w => (Ok tt, mk_world (ss w) (api_log w) (query_cache w) [])) ;;
  match in_model_change inp with
  | Some p =>
      modify_ss (set_selected_semantic_model_path p) ;;
      reset_session_state
  | None => ret tt
  end.

Definition script_run : M unit := before_script ;; main.

(** Whether [handle_user_inputs] finds an input in the state it starts
    from: a typed question, or a suggestion that was clicked. *)
Definition input_waiting (w : world) : bool :=
  py_truthy (opt_json (in_chat inp)) ||
  match active_suggestion (ss w) with
  | Some pending => negb (is_None pending)
  | None => false
  end.

(** Whether this execution hands an input of the user to
    [process_user_input]: the script must reach [handle_user_inputs] and
    find one. *)
Definition accepts_input (w : world) : bool :=
  match (before_script ;; main_open ;; display_conversation) w with
  | (Ok _, w1) => input_waiting w1
  | _ => false
  end.

End Script.

(** A brand-new session: nothing assigned, nothing sent, nothing drawn. *)
Definition fresh_session : session_state :=
  mk_session None None None None None None None.
Definition fresh_world : world := mk_world fresh_session [] [] [].

(** The world after a series of executions, one per element of [runs]. *)
Fixpoint run_session (E : environment) (runs : list inputs) (w : world) : world :=
  match runs with
  | [] => w
  | i :: runs' => run_session E runs' (snd (script_run E i w))
  end.

(** How many of those executions accepted an input of the user. *)
Fixpoint accepted_inputs (E : environment) (runs : list inputs) (w : world) : nat :=
  match runs with
  | [] => 0
  | i :: runs' =>
      ((if accepts_input E i w then 1 else 0)
       + accepted_inputs E runs' (snd (script_run E i w)))%nat
  end.

(** An execution in which the user neither cleared the chat nor switched the
    semantic model. *)
Definition no_reset (i : inputs) : Prop :=
  in_clear i = false /\ in_model_change i = None.

(** ** Vocabulary of the statements *)

(** [sub] occurs in [s]. *)
Definition occurs_in (sub s : string) : Prop :=
  exists pre post, s = pre ^^ sub ^^ post.

(** The body of [resp] decodes to the dict [d], which holds the three fields
    of an error envelope. *)
Definition error_envelope (E : environment) (resp : response)
    (d : list (string * json)) (rid ecode msg : json) : Prop :=
  json_loads E (content resp) = Some (JObj d) /\
  dict_get "request_id" d = Some rid /\
  dict_get "error_code" d = Some ecode /\
  dict_get "message" d = Some msg.

(** The warnings an envelope carries, as [list.extend] would add them: none
    without a [warnings] entry, and no answer when the entry cannot be
    iterated. *)
Definition carried_warnings (d : list (string * json)) : option (list json) :=
  match dict_get "warnings" d with
  | None => Some []
  | Some ws =>
      match py_iter ws with
      | inr l => Some l
      | inl _ => None
      end
  end.

(** Every call of the graph-plan endpoint succeeds: status below 400, and a
    body that decodes to a dict with [message.content], a [request_id] and,
    if any, iterable warnings. *)
Definition graph_calls_succeed (E : environment) : Prop :=
  forall (n : nat) (ms : list json),
    let resp := send_snow_api_request E n (graph_request ms) in
    status resp < 400 /\
    exists d m c rid wl,
      json_loads E (content resp) = Some (JObj d) /\
      dict_get "message" d = Some m /\
      py_getitem m "content" = inr c /\
      dict_get "request_id" d = Some rid /\
      carried_warnings d = Some wl.

(** The session state after one completed cycle of [process_user_input]. *)
Definition cycle_state (ms : list json) (prompt turn : json) (failed : bool)
    (wl : list json) (s : session_state) : session_state :=
  mk_session (Some (ms ++ [user_turn prompt; turn])) (active_suggestion s)
    (Some wl) (form_submitted s)
    (if failed then Some true else fire_API_error_notify s)
    (popover_open s) (selected_semantic_model_path s).

(** What [process_user_input] draws. *)
Definition cycle_ui (prompt : json) : list ui_event :=
  [ (St_chat_message, [JStr "user"]);
    (St_markdown, [prompt]);
    (St_chat_message, [JStr "analyst"]);
    (St_spinner, [JStr "Waiting for Graph Analyst's response (Query 1/2)..."]) ].

(** How many records of [d] answer to the key [k]. *)
Definition records_for {V} (k : json) (d : list (json * V)) : nat :=
  length (filter (fun kv => key_eqb (fst kv) k) d).

(** No request id has more than one feedback record. *)
Definition one_record_each (w : world) : Prop :=
  forall fs, form_submitted (ss w) = Some fs ->
  forall k, hashable k = true -> (records_for k fs <= 1)%nat.

(** The feedback record of [k], if any. *)
Definition feedback_of (k : json) (w : world) : option feedback_record :=
  match form_submitted (ss w) with
  | Some fs => key_lookup k fs
  | None => None
  end.

(** A [sql] content block, with and without its [confidence] entry. *)
Definition sql_block (statement confidence : json) : json :=
  JObj [("type", JStr "sql"); ("statement", statement); ("confidence", confidence)].

Definition sql_block_bare (statement : json) : json :=
  JObj [("type", JStr "sql"); ("statement", statement)].

(** The result [get_query_exec_result] gives for [q] in [w]: the memoised
    one, or else the warehouse's. *)
Definition query_answer (E : environment) (q : json) (w : world) : query_result :=
  match cache_lookup q (query_cache w) with
  | Some r => r
  | None =>
      match session_sql E q with
      | inl df => (Some df, None)
      | inr e => (None, Some e)
      end
  end.

(** No two columns of a result share a name. *)
Definition distinct_columns (r : query_result) : Prop :=
  forall df, fst r = Some df -> NoDup (df_columns df).

Definition drawn (events : list ui_event) (w : world) : world :=
  mk_world (ss w) (api_log w) (query_cache w) (ui w ++ events).

(** [m] maintains [I], however it ends. *)
Definition keeps {A} (I : world -> Prop) (m : M A) : Prop :=
  forall w, I w -> I (snd (m w)).

(** [m] maintains [I] and does not raise. *)
Definition safe {A} (I : world -> Prop) (m : M A) : Prop :=
  forall w, I w -> I (snd (m w)) /\ forall e, fst (m w) <> Raise e.

(** A property of the world that only looks at the transcript. *)
Definition on_messages (P : option (list json) -> Prop) (w : world) : Prop :=
  P (messages (ss w)).

(** [m] ends normally and leaves the session state and the memo table as
    they were, and draws no form. *)
Definition quiet {A} (m : M A) : Prop :=
  forall w, exists a w',
    m w = (Ok a, w') /\ ss w' = ss w /\ query_cache w' = query_cache w /\
    forall key, form_drawn key w' = form_drawn key w.

(** The transcript is [ms] followed by what was appended since. *)
Definition grown_from (ms : list json) (w : world) : Prop :=
  exists ext, messages (ss w) = Some (ms ++ ext).

Definition opening_question : json := JStr "What questions can I ask?".

(** The transcript opens with the system turn and the pair the opening
    question produced. *)
Definition opened (w : world) : Prop :=
  exists c rid rest,
    messages (ss w)
    = Some (system_turn :: user_turn opening_question :: analyst_turn c rid :: rest).

(** What a session can hold between executions: nothing yet, an emptied
    transcript, or an opened one. *)
Definition between_runs (w : world) : Prop :=
  messages (ss w) = None \/ messages (ss w) = Some [] \/ opened w.

(** What makes an execution start over: the user switched the model or
    cleared the chat, or the transcript is absent or empty. *)
Definition starts_over (i : inputs) (w : world) : Prop :=
  in_model_change i <> None \/ in_clear i = true \/
  messages (ss w) = None \/ messages (ss w) = Some [].

(** ** Sample collaborators *)

Definition quoted (s : string) : string := dq ^^ s ^^ dq.

(** [{"request_id":"r1","error_code":"E1","message":"bad"}] *)
Definition body_error : string :=
  "{" ^^ quoted "request_id" ^^ ":" ^^ quoted "r1" ^^ ","
      ^^ quoted "error_code" ^^ ":" ^^ quoted "E1" ^^ ","
      ^^ quoted "message" ^^ ":" ^^ quoted "bad" ^^ "}".
Definition parsed_error : json :=
  JObj [("request_id", JStr "r1"); ("error_code", JStr "E1"); ("message", JStr "bad")].

(** [{"error_code":"E1","message":"bad"}] *)
Definition body_error_no_id : string :=
  "{" ^^ quoted "error_code" ^^ ":" ^^ quoted "E1" ^^ ","
      ^^ quoted "message" ^^ ":" ^^ quoted "bad" ^^ "}".
Definition parsed_error_no_id : json :=
  JObj [("error_code", JStr "E1"); ("message", JStr "bad")].

(** [{"message":{"content":[{"type":"text","text":"hi"}]},"request_id":"r2"}] *)
Definition body_hi : string :=
  "{" ^^ quoted "message" ^^ ":{" ^^ quoted "content" ^^ ":[{"
      ^^ quoted "type" ^^ ":" ^^ quoted "text" ^^ ","
      ^^ quoted "text" ^^ ":" ^^ quoted "hi" ^^ "}]},"
      ^^ quoted "request_id" ^^ ":" ^^ quoted "r2" ^^ "}".
Definition parsed_hi : json :=
  JObj [("message", JObj [("content", JArr [JObj [("type", JStr "text"); ("text", JStr "hi")]])]);
        ("request_id", JStr "r2")].

(** [{"message":{"content":[]},"request_id":"r3","warnings":[{"message":"a"}]}] *)
Definition body_warn_a : string :=
  "{" ^^ quoted "message" ^^ ":{" ^^ quoted "content" ^^ ":[]},"
      ^^ quoted "request_id" ^^ ":" ^^ quoted "r3" ^^ ","
      ^^ quoted "warnings" ^^ ":[{" ^^ quoted "message" ^^ ":" ^^ quoted "a" ^^ "}]}".
Definition parsed_warn_a : json :=
  JObj [("message", JObj [("content", JArr [])]);
        ("request_id", JStr "r3");
        ("warnings", JArr [JObj [("message", JStr "a")]])].

(** [{"message":{"content":[]},"request_id":"r4","warnings":[{"message":"b"}]}] *)
Definition body_warn_b : string :=
  "{" ^^ quoted "message" ^^ ":{" ^^ quoted "content" ^^ ":[]},"
      ^^ quoted "request_id" ^^ ":" ^^ quoted "r4" ^^ ","
      ^^ quoted "warnings" ^^ ":[{" ^^ quoted "message" ^^ ":" ^^ quoted "b" ^^ "}]}".
Definition parsed_warn_b : json :=
  JObj [("message", JObj [("content", JArr [])]);
        ("request_id", JStr "r4");
        ("warnings", JArr [JObj [("message", JStr "b")]])].

(** The decoder on the sample bodies. *)
Definition sample_loads (s : string) : option json :=
  if String.eqb s body_error then Some parsed_error
  else if String.eqb s body_error_no_id then Some parsed_error_no_id
  else if String.eqb s body_hi then Some parsed_hi
  else if String.eqb s body_warn_a then Some parsed_warn_a
  else if String.eqb s body_warn_b then Some parsed_warn_b
  else None.

(** A remote side that gives the same answer to every request, with no
    warehouse behind it.  No sample formats a list or a dict, nor a time
    stamp; every text that starts like an emoji is taken for one, and a set
    is met from its last element to its first. *)
Definition sample_env (answer : response) : environment :=
  mk_environment sample_loads (fun _ _ => answer)
    (fun _ => inr "no warehouse") (fun _ => EmptyString) (fun _ => None)
    (fun _ => true) (fun _ _ _ => false).

(** A remote side whose warehouse answers every query with [df]. *)
Definition sample_warehouse (df : dataframe) : environment :=
  mk_environment sample_loads (fun _ _ => mk_response 200 body_hi)
    (fun _ => inl df) (fun _ => EmptyString) (fun _ => None)
    (fun _ => true) (fun _ _ _ => false).

(** An execution in which the user does nothing, and one in which a question
    is typed. *)
Definition idle : inputs :=
  mk_inputs None false None (fun _ => false) (fun _ _ => None)
    (fun _ => None) (fun _ => EmptyString) (fun _ => false).

Definition typing (question : string) : inputs :=
  mk_inputs None false (Some question) (fun _ => false) (fun _ _ => None)
    (fun _ => None) (fun _ => EmptyString) (fun _ => false).

(** An execution in which every feedback form reports a thumbs-up and a
    click on Submit. *)
Definition submitting : inputs :=
  mk_inputs None false None (fun _ => false) (fun _ _ => None)
    (fun _ => Some thumbs_up) (fun _ => EmptyString) (fun _ => true).

(** A session in which the answer [r2] already has its feedback record. *)
Definition session_rated : world :=
  mk_world
    (mk_session (Some []) (Some JNull) (Some [])
       (Some [(JStr "r2", mk_feedback None)]) None None None)
    [] [] [].

(** A session that was reset and holds the transcript [ms], the sidebar on its
    first model. *)
Definition session_with (ms : list json) : world :=
  mk_world
    (mk_session (Some ms) (Some JNull) (Some []) (Some []) None None
       (Some (hd EmptyString AVAILABLE_SEMANTIC_MODELS_PATHS)))
    [] [] [].

(** ** Vocabulary of the further properties *)

(** The error-notification flag is set. *)
Definition notified (w : world) : Prop :=
  fire_API_error_notify (ss w) = Some true.

(** A turn whose content is one text block. *)
Definition plain_turn (role : string) (text : json) : json :=
  JObj [("role", JStr role); ("content", JArr [text_block text])].

(** What [display_conversation] draws for a plain turn. *)
Definition plain_turn_ui (entry : string * json) : list ui_event :=
  [(St_chat_message, [JStr (fst entry)]); (St_markdown, [snd entry])].

(** The key of the button of suggestion [i] in turn [idx]. *)
Definition suggestion_key (idx i : Z) : string :=
  "suggestion_" ^^ str_of_Z idx ^^ "_" ^^ str_of_Z i.

(** The turns the script itself builds. *)
Definition script_turn (t : json) : Prop :=
  t = system_turn \/ (exists p, t = user_turn p) \/
  (exists c rid, t = analyst_turn c rid).

(** What [display_conversation] reads of a turn is there. *)
Definition renderable_turn (t : json) : Prop :=
  exists role content,
    py_getitem t "role" = inr role /\
    py_getitem t "content" = inr content /\
    (py_eq_str role "analyst" = true ->
     exists rid, py_getitem t "request_id" = inr rid).

(** The character [/] does not occur in [s]. *)
Definition slash_free (s : string) : Prop :=
  forall c, In c (list_ascii_of_string s) -> c <> "/"%char.

(** The choices the feedback form reports for request id [rid]. *)
Definition form_key (E : environment) (rid : json) : string :=
  "feedback_form_" ^^ str E rid.

Definition form_positive (E : environment) (inp : inputs) (rid : json) : bool :=
  match in_radio inp (form_key E rid) with
  | Some choice => String.eqb choice thumbs_up
  | None => false
  end.

Definition form_request (E : environment) (inp : inputs) (rid : json) : request :=
  feedback_request rid (form_positive E inp rid) (in_text inp (form_key E rid)).

(** The buttons drawn for the suggestions [l] of turn [idx], numbered from
    [i]. *)
Definition suggestion_buttons (idx i : Z) (l : list json) : list ui_event :=
  map (fun entry => (St_button, [snd entry; JStr (suggestion_key idx (fst entry))]))
    (enumerate_from i l).

(** The session with [x] as its pending suggestion. *)
Definition with_suggestion (x : json) (w : world) : world :=
  mk_world (set_active_suggestion x (ss w)) (api_log w) (query_cache w) (ui w).

(** One turn of the loop over the suggestions of turn [idx]: draw the button,
    and on a click make its suggestion the pending one. *)
Definition suggestion_step (inp : inputs) (idx : Z) (entry : Z * json) : M unit :=
  (emit St_button [snd entry; JStr (suggestion_key idx (fst entry))] ;;
   if in_button inp (suggestion_key idx (fst entry))
   then modify_ss (set_active_suggestion (snd entry))
   else ret tt)%script.

(** One turn of the loop of [display_conversation]. *)
Definition conversation_step (E : environment) (inp : inputs) (entry : Z * json)
    : M unit :=
  (role <- getitem (snd entry) "role" ;;
   content <- getitem (snd entry) "content" ;;
   emit St_chat_message [role] ;;
   if py_eq_str role "analyst" then
     request_id <- getitem (snd entry) "request_id" ;;
     display_message E inp content (fst entry) request_id
   else display_message E inp content (fst entry) JNull)%script.

(** The transcript, if there is one, holds only turns the script built. *)
Definition script_built (m : option (list json)) : Prop :=
  match m with
  | Some ms => Forall script_turn ms
  | None => True
  end.

(** The feedback section of request id [rid] has nothing to refuse: the
    turn has no request id; or the session holds the record of a refused
    feedback for it; or it holds none, and the form of [rid] is neither
    drawn already nor submitted in this execution. *)
Definition feedback_at_rest (E : environment) (inp : inputs) (rid : json)
    (w : world) : Prop :=
  py_truthy rid = false \/
  (hashable rid = true /\
   exists fs,
     form_submitted (ss w) = Some fs /\
     ((exists e, key_lookup rid fs = Some (mk_feedback (Some e))) \/
      (key_lookup rid fs = None /\
       form_drawn (form_key E rid) w = false /\
       in_form_submit inp (form_key E rid) = false))).

(** The three select boxes of the chart tab of turn [idx], offering [xs] for
    the X axis and [ys] for the Y axis. *)
Definition chart_boxes (idx : Z) (xs ys : list string) : list ui_event :=
  [ (St_columns, [JNum 2]);
    (St_selectbox, [JStr "X axis"; JArr (map JStr xs);
                    JStr ("x_col_select_" ^^ str_of_Z idx)]);
    (St_selectbox, [JStr "Y axis"; JArr (map JStr ys);
                    JStr ("y_col_select_" ^^ str_of_Z idx)]);
    (St_selectbox, [JStr "Select chart type";
                    JArr [JStr line_chart_label; JStr bar_chart_label];
                    JStr ("chart_type_" ^^ str_of_Z idx)]) ].

(** Every call of the graph-plan endpoint is answered with an envelope the
    cycle can use: below 400 a dict with [message.content], from 400 on a
    dict with [error_code] and [message]; in both cases with a [request_id]
    and, if any, iterable warnings. *)
Definition graph_calls_answer (E : environment) : Prop :=
  forall (n : nat) (ms : list json),
    let resp := send_snow_api_request E n (graph_request ms) in
    exists d rid wl,
      json_loads E (content resp) = Some (JObj d) /\
      dict_get "request_id" d = Some rid /\
      carried_warnings d = Some wl /\
      ((status resp < 400 /\
        exists m c, dict_get "message" d = Some m /\ py_getitem m "content" = inr c) \/
       (400 <= status resp /\
        exists ecode msg,
          dict_get "error_code" d = Some ecode /\ dict_get "message" d = Some msg)).

(** The transcript opens with the system turn and the opening question. *)
Definition begun (w : world) : Prop :=
  exists rest,
    messages (ss w) = Some (system_turn :: user_turn opening_question :: rest).

(** ** Strings *)

Arguments format_error : simpl never.
Arguments str_of_Z : simpl never.

Lemma string_app_assoc (a b c : string) : (a ^^ b) ^^ c = a ^^ b ^^ c.
Proof. induction a as [|x a IH]; simpl; [reflexivity | now rewrite IH]. Qed.

Lemma format_error_occurs (p0 p1 p2 p3 p4 a b c d : string) :
  occurs_in a (format_error p0 p1 p2 p3 p4 a b c d) /\
  occurs_in b (format_error p0 p1 p2 p3 p4 a b c d) /\
  occurs_in c (format_error p0 p1 p2 p3 p4 a b c d) /\
  occurs_in d (format_error p0 p1 p2 p3 p4 a b c d).
Proof.
  unfold format_error, occurs_in. repeat split.
  - exists p0, (p1 ^^ b ^^ p2 ^^ c ^^ p3 ^^ d ^^ p4). reflexivity.
  - exists (p0 ^^ a ^^ p1), (p2 ^^ c ^^ p3 ^^ d ^^ p4).
    now rewrite !string_app_assoc.
  - exists (p0 ^^ a ^^ p1 ^^ b ^^ p2), (p3 ^^ d ^^ p4).
    now rewrite !string_app_assoc.
  - exists (p0 ^^ a ^^ p1 ^^ b ^^ p2 ^^ c ^^ p3), p4.
    now rewrite !string_app_assoc.
Qed.

(** ** Running the monad *)

(** Unfold the plumbing of the monad and reduce what is then decided. *)
Ltac run :=
  repeat (progress (
    unfold bind, attr, get_ss, modify_ss, emit, ret, raise, rerun, lift,
      api_call, loads, messages_append;
    unfold set_messages, set_active_suggestion, set_warnings,
      set_form_submitted, set_fire_API_error_notify, set_popover_open,
      set_selected_semantic_model_path;
    cbn [ss api_log query_cache ui fst snd negb andb orb
         messages active_suggestion warnings form_submitted
         fire_API_error_notify popover_open selected_semantic_model_path])).

Lemma bind_ok {A B} (m : M A) (f : A -> M B) (w w' : world) (a : A) :
  m w = (Ok a, w') -> bind m f w = f a w'.
Proof. intros H. unfold bind. now rewrite H. Qed.

Lemma bind_rerun {A B} (m : M A) (f : A -> M B) (w w' : world) :
  m w = (Rerun, w') -> bind m f w = (Rerun, w').
Proof. intros H. unfold bind. now rewrite H. Qed.

Lemma bind_raise {A B} (m : M A) (f : A -> M B) (w w' : world) (e : exn) :
  m w = (Raise e, w') -> bind m f w = (Raise e, w').
Proof. intros H. unfold bind. now rewrite H. Qed.

(** ** The remote client *)

Section Client.

Variable E : environment.

Lemma getitem_found (d : list (string * json)) (k : string) (v : json) (w : world) :
  dict_get k d = Some v -> getitem (JObj d) k w = (Ok v, w).
Proof. intros H. unfold getitem, py_getitem. now rewrite H. Qed.

Lemma getitem_missing (d : list (string * json)) (k : string) (w : world) :
  dict_get k d = None -> getitem (JObj d) k w = (Raise (KeyError k), w).
Proof. intros H. unfold getitem, py_getitem. now rewrite H. Qed.

Lemma graph_call_below_400 (ms : list json) (w : world) (v : json) :
  let resp := send_snow_api_request E (length (api_log w)) (graph_request ms) in
  json_loads E (content resp) = Some v ->
  status resp < 400 ->
  create_relevant_graph_tables E ms w = (Ok (v, None), sent (graph_request ms) w).
Proof.
  intros resp Hl Hs. unfold create_relevant_graph_tables, bind, api_call, loads.
  fold resp. rewrite Hl. cbn.
  apply Z.ltb_lt in Hs. now rewrite Hs.
Qed.

Lemma graph_call_from_400 (ms : list json) (w : world)
    (d : list (string * json)) (rid ecode msg : json) :
  let resp := send_snow_api_request E (length (api_log w)) (graph_request ms) in
  error_envelope E resp d rid ecode msg ->
  400 <= status resp ->
  create_relevant_graph_tables E ms w =
    (Ok (JObj d,
         Some (format_error graph_error_part0 graph_error_part1 graph_error_part2
                 graph_error_part3 graph_error_part4
                 (str_of_Z (status resp)) (str E rid) (str E ecode) (str E msg))),
     sent (graph_request ms) w).
Proof.
  intros resp (Hl & Hr & He & Hm) Hs.
  unfold create_relevant_graph_tables. run. fold resp. rewrite Hl.
  apply Z.ltb_ge in Hs. rewrite Hs.
  now rewrite (getitem_found _ _ _ _ Hr), (getitem_found _ _ _ _ He),
    (getitem_found _ _ _ _ Hm).
Qed.

Lemma graph_call_no_id (ms : list json) (w : world) (d : list (string * json)) :
  let resp := send_snow_api_request E (length (api_log w)) (graph_request ms) in
  json_loads E (content resp) = Some (JObj d) ->
  dict_get "request_id" d = None ->
  400 <= status resp ->
  create_relevant_graph_tables E ms w
  = (Raise (KeyError "request_id"), sent (graph_request ms) w).
Proof.
  intros resp Hl Hr Hs. unfold create_relevant_graph_tables. run. fold resp.
  rewrite Hl. apply Z.ltb_ge in Hs. rewrite Hs.
  now rewrite (getitem_missing _ _ _ Hr).
Qed.

Lemma graph_call_no_code (ms : list json) (w : world) (d : list (string * json))
    (rid : json) :
  let resp := send_snow_api_request E (length (api_log w)) (graph_request ms) in
  json_loads E (content resp) = Some (JObj d) ->
  dict_get "request_id" d = Some rid ->
  dict_get "error_code" d = None ->
  400 <= status resp ->
  create_relevant_graph_tables E ms w
  = (Raise (KeyError "error_code"), sent (graph_request ms) w).
Proof.
  intros resp Hl Hr He Hs. unfold create_relevant_graph_tables. run. fold resp.
  rewrite Hl. apply Z.ltb_ge in Hs. rewrite Hs.
  now rewrite (getitem_found _ _ _ _ Hr), (getitem_missing _ _ _ He).
Qed.

Lemma graph_call_no_message (ms : list json) (w : world)
    (d : list (string * json)) (rid ecode : json) :
  let resp := send_snow_api_request E (length (api_log w)) (graph_request ms) in
  json_loads E (content resp) = Some (JObj d) ->
  dict_get "request_id" d = Some rid ->
  dict_get "error_code" d = Some ecode ->
  dict_get "message" d = None ->
  400 <= status resp ->
  create_relevant_graph_tables E ms w
  = (Raise (KeyError "message"), sent (graph_request ms) w).
Proof.
  intros resp Hl Hr He Hm Hs. unfold create_relevant_graph_tables. run. fold resp.
  rewrite Hl. apply Z.ltb_ge in Hs. rewrite Hs.
  now rewrite (getitem_found _ _ _ _ Hr), (getitem_found _ _ _ _ He),
    (getitem_missing _ _ _ Hm).
Qed.

Lemma analyst_call_below_400 (ms : list json) (w : world) (model_path : string)
    (v : json) :
  selected_semantic_model_path (ss w) = Some model_path ->
  let resp := send_snow_api_request E (length (api_log w))
                (analyst_request ms model_path) in
  json_loads E (content resp) = Some v ->
  status resp < 400 ->
  get_analyst_response E ms w = (Ok (v, None), sent (analyst_request ms model_path) w).
Proof.
  intros Hp resp Hl Hs.
  unfold get_analyst_response. run. rewrite Hp. run. fold resp. rewrite Hl.
  apply Z.ltb_lt in Hs. now rewrite Hs.
Qed.

Lemma analyst_call_from_400 (ms : list json) (w : world) (model_path : string)
    (d : list (string * json)) (rid ecode msg : json) :
  selected_semantic_model_path (ss w) = Some model_path ->
  let resp := send_snow_api_request E (length (api_log w))
                (analyst_request ms model_path) in
  error_envelope E resp d rid ecode msg ->
  400 <= status resp ->
  get_analyst_response E ms w =
    (Ok (JObj d,
         Some (format_error analyst_error_part0 analyst_error_part1
                 analyst_error_part2 analyst_error_part3 analyst_error_part4
                 (str_of_Z (status resp)) (str E rid) (str E ecode) (str E msg))),
     sent (analyst_request ms model_path) w).
Proof.
  intros Hp resp (Hl & Hr & He & Hm) Hs.
  unfold get_analyst_response. run. rewrite Hp. run. fold resp. rewrite Hl.
  apply Z.ltb_ge in Hs. rewrite Hs.
  now rewrite (getitem_found _ _ _ _ Hr), (getitem_found _ _ _ _ He),
    (getitem_found _ _ _ _ Hm).
Qed.

Lemma feedback_call_200 (rid : json) (positive : bool) (fm : string) (w : world) :
  status (send_snow_api_request E (length (api_log w))
            (feedback_request rid positive fm)) = 200 ->
  submit_feedback E rid positive fm w
  = (Ok None, sent (feedback_request rid positive fm) w).
Proof.
  intros Hs. unfold submit_feedback. run. now rewrite Hs.
Qed.

Lemma feedback_call_other (rid : json) (positive : bool) (fm : string) (w : world)
    (d : list (string * json)) (r e m : json) :
  let resp := send_snow_api_request E (length (api_log w))
                (feedback_request rid positive fm) in
  status resp <> 200 ->
  error_envelope E resp d r e m ->
  submit_feedback E rid positive fm w
  = (Ok (Some (format_error feedback_error_part0 feedback_error_part1
                 feedback_error_part2 feedback_error_part3 feedback_error_part4
                 (str_of_Z (status resp)) (str E r) (str E e) (str E m))),
     sent (feedback_request rid positive fm) w).
Proof.
  intros resp Hs (Hl & Hr & He & Hm).
  unfold submit_feedback. run. fold resp.
  apply Z.eqb_neq in Hs. rewrite Hs, Hl.
  now rewrite (getitem_found _ _ _ _ Hr), (getitem_found _ _ _ _ He),
    (getitem_found _ _ _ _ Hm).
Qed.

(** Whatever the body, a status other than 200 never yields [None]. *)
Lemma feedback_call_undecodable (rid : json) (positive : bool) (fm : string)
    (w : world) :
  let resp := send_snow_api_request E (length (api_log w))
                (feedback_request rid positive fm) in
  status resp <> 200 ->
  json_loads E (content resp) = None ->
  submit_feedback E rid positive fm w
  = (Raise JSONDecodeError, sent (feedback_request rid positive fm) w).
Proof.
  intros resp Hs Hl. unfold submit_feedback. run. fold resp.
  apply Z.eqb_neq in Hs. now rewrite Hs, Hl.
Qed.

Lemma feedback_call_not_accepted (rid : json) (positive : bool) (fm : string)
    (w : world) :
  status (send_snow_api_request E (length (api_log w))
            (feedback_request rid positive fm)) <> 200 ->
  fst (submit_feedback E rid positive fm w) <> Ok None.
Proof.
  intros Hs. unfold submit_feedback, getitem. run.
  apply Z.eqb_neq in Hs. rewrite Hs.
  destruct (json_loads E _) as [v|]; run; [|discriminate].
  destruct (py_getitem v "request_id"); run; [discriminate|].
  destruct (py_getitem v "error_code"); run; [discriminate|].
  destruct (py_getitem v "message"); run; discriminate.
Qed.

End Client.

(** ** One orchestration cycle *)

Section Cycle.

Variable E : environment.
Variable inp : inputs.

(** Drawing the user's own turn: one markdown block. *)
Lemma display_user_content (prompt : json) (idx : Z) (w : world) :
  display_message E inp (JArr [text_block prompt]) idx JNull w
  = (Ok tt, drawn [(St_markdown, [prompt])] w).
Proof. reflexivity. Qed.

Lemma user_turn_content (prompt : json) (w : world) :
  getitem (user_turn prompt) "content" w = (Ok (JArr [text_block prompt]), w).
Proof. reflexivity. Qed.

Lemma merge_warnings_carried (d : list (string * json)) (wl ws : list json)
    (w : world) :
  carried_warnings d = Some wl ->
  warnings (ss w) = Some ws ->
  merge_warnings (JObj d) w
  = (Ok tt, mk_world (set_warnings (ws ++ wl) (ss w)) (api_log w)
              (query_cache w) (ui w)).
Proof.
  unfold carried_warnings, merge_warnings, getitem, py_contains, py_getitem, dict_has.
  intros Hc Hw. run.
  destruct (dict_get "warnings" d) as [x|]; run.
  - rewrite Hw. destruct (py_iter x); [discriminate|]. injection Hc as <-. run. reflexivity.
  - injection Hc as <-.
    destruct w as [[m a wa f fi po sel] lg qc u]. cbn in *. subst.
    now rewrite app_nil_r.
Qed.

Lemma process_user_input_cycle (prompt : json) (w : world) (ms : list json)
    (d : list (string * json)) (err : option string) (c rid : json)
    (wl : list json) :
  messages (ss w) = Some ms ->
  (forall w1, api_log w1 = api_log w ->
     create_relevant_graph_tables E (ms ++ [user_turn prompt]) w1
     = (Ok (JObj d, err), sent (graph_request (ms ++ [user_turn prompt])) w1)) ->
  match err with
  | None => exists m, dict_get "message" d = Some m /\ py_getitem m "content" = inr c
  | Some e => c = JArr [text_block (JStr e)]
  end ->
  dict_get "request_id" d = Some rid ->
  carried_warnings d = Some wl ->
  process_user_input E inp prompt w
  = (Rerun,
     mk_world
       (cycle_state ms prompt (analyst_turn c rid)
          (match err with Some _ => true | None => false end) wl (ss w))
       (api_log w ++ [graph_request (ms ++ [user_turn prompt])])
       (query_cache w) (ui w ++ cycle_ui prompt)).
Proof.
  intros Hm Hcall Hc Hr Hw.
  destruct w as [[m a wa f fi po sel] lg qc u]. cbn [ss messages api_log] in Hm, Hcall.
  subst m.
  unfold process_user_input. run.
  rewrite user_turn_content. run.
  rewrite display_user_content. unfold drawn. run.
  rewrite Hcall by reflexivity. unfold sent. run.
  destruct err as [e|].
  - subst c. rewrite (getitem_found _ _ _ _ Hr). run.
    erewrite merge_warnings_carried by (eassumption || reflexivity). run.
    unfold cycle_state, cycle_ui. cbn [messages active_suggestion warnings
      form_submitted fire_API_error_notify popover_open
      selected_semantic_model_path].
    now rewrite <- !app_assoc.
  - destruct Hc as (m & Hm1 & Hm2).
    rewrite (getitem_found _ _ _ _ Hm1). unfold getitem at 1. rewrite Hm2. run.
    rewrite (getitem_found _ _ _ _ Hr). run.
    erewrite merge_warnings_carried by (eassumption || reflexivity). run.
    unfold cycle_state, cycle_ui. cbn [messages active_suggestion warnings
      form_submitted fire_API_error_notify popover_open
      selected_semantic_model_path].
    now rewrite <- !app_assoc.
Qed.

Lemma cycle_on_success (prompt : json) (w : world) (ms : list json)
    (d : list (string * json)) (m c rid : json) (wl : list json) :
  let resp := send_snow_api_request E (length (api_log w))
                (graph_request (ms ++ [user_turn prompt])) in
  messages (ss w) = Some ms ->
  json_loads E (content resp) = Some (JObj d) ->
  status resp < 400 ->
  dict_get "message" d = Some m -> py_getitem m "content" = inr c ->
  dict_get "request_id" d = Some rid ->
  carried_warnings d = Some wl ->
  process_user_input E inp prompt w
  = (Rerun,
     mk_world (cycle_state ms prompt (analyst_turn c rid) false wl (ss w))
       (api_log w ++ [graph_request (ms ++ [user_turn prompt])])
       (query_cache w) (ui w ++ cycle_ui prompt)).
Proof.
  intros resp Hm Hl Hs Hd Hc Hr Hw.
  apply (process_user_input_cycle prompt w ms d None c rid wl); auto.
  - intros w1 Hlog. apply graph_call_below_400; now rewrite Hlog.
  - now exists m.
Qed.

Lemma cycle_on_error (prompt : json) (w : world) (ms : list json)
    (d : list (string * json)) (rid ecode msg : json) (wl : list json) :
  let resp := send_snow_api_request E (length (api_log w))
                (graph_request (ms ++ [user_turn prompt])) in
  messages (ss w) = Some ms ->
  error_envelope E resp d rid ecode msg ->
  400 <= status resp ->
  carried_warnings d = Some wl ->
  process_user_input E inp prompt w
  = (Rerun,
     mk_world
       (cycle_state ms prompt
          (analyst_turn
             (JArr [text_block
                      (JStr (format_error graph_error_part0 graph_error_part1
                               graph_error_part2 graph_error_part3
                               graph_error_part4
                               (str_of_Z (status resp)) (str E rid)
                               (str E ecode) (str E msg)))])
             rid)
          true wl (ss w))
       (api_log w ++ [graph_request (ms ++ [user_turn prompt])])
       (query_cache w) (ui w ++ cycle_ui prompt)).
Proof.
  intros resp Hm Henv Hs Hw.
  apply (process_user_input_cycle prompt w ms d
           (Some (format_error graph_error_part0 graph_error_part1
                    graph_error_part2 graph_error_part3 graph_error_part4
                    (str_of_Z (status resp)) (str E rid) (str E ecode)
                    (str E msg)))
           _ rid wl); auto.
  - intros w1 Hlog. rewrite (graph_call_from_400 E _ w1 d rid ecode msg);
      rewrite Hlog; auto.
  - apply Henv.
Qed.

(** A call that raises stops the cycle after the user's turn. *)
Lemma cycle_stops_at_call (prompt : json) (w : world) (ms : list json) (e : exn) :
  messages (ss w) = Some ms ->
  (forall w1, api_log w1 = api_log w ->
     create_relevant_graph_tables E (ms ++ [user_turn prompt]) w1
     = (Raise e, sent (graph_request (ms ++ [user_turn prompt])) w1)) ->
  fst (process_user_input E inp prompt w) = Raise e /\
  messages (ss (snd (process_user_input E inp prompt w)))
  = Some (ms ++ [user_turn prompt]).
Proof.
  intros Hm Hcall.
  destruct w as [[m a wa f fi po sel] lg qc u]. cbn [ss messages api_log] in *.
  subst m.
  unfold process_user_input. run.
  rewrite user_turn_content. run.
  rewrite display_user_content. unfold drawn. run.
  rewrite Hcall by reflexivity. unfold sent. run. now split.
Qed.

(** A failed call whose envelope has no [request_id]: the error text cannot
    be formatted, and the cycle stops after the user's turn. *)
Lemma process_user_input_no_id (prompt : json) (w : world) (ms : list json)
    (d : list (string * json)) :
  messages (ss w) = Some ms ->
  let resp := send_snow_api_request E (length (api_log w))
                (graph_request (ms ++ [user_turn prompt])) in
  json_loads E (content resp) = Some (JObj d) ->
  dict_get "request_id" d = None ->
  400 <= status resp ->
  fst (process_user_input E inp prompt w) = Raise (KeyError "request_id") /\
  messages (ss (snd (process_user_input E inp prompt w)))
  = Some (ms ++ [user_turn prompt]).
Proof.
  intros Hm resp Hl Hr Hs. apply cycle_stops_at_call; [exact Hm|].
  intros w1 Hlog.
  pose proof (graph_call_no_id E (ms ++ [user_turn prompt]) w1 d) as H.
  cbv zeta in H. rewrite Hlog in H. now apply H.
Qed.

(** Warnings that cannot be iterated stop the cycle at the merge step, before
    the analyst's turn is appended. *)
Lemma cycle_stops_at_warnings (prompt : json) (w : world) (ms : list json)
    (d : list (string * json)) (err : option string) (rid : json) :
  messages (ss w) = Some ms ->
  (forall w1, api_log w1 = api_log w ->
     create_relevant_graph_tables E (ms ++ [user_turn prompt]) w1
     = (Ok (JObj d, err), sent (graph_request (ms ++ [user_turn prompt])) w1)) ->
  (err = None ->
   exists m c, dict_get "message" d = Some m /\ py_getitem m "content" = inr c) ->
  dict_get "request_id" d = Some rid ->
  carried_warnings d = None ->
  fst (process_user_input E inp prompt w) = Raise TypeError /\
  messages (ss (snd (process_user_input E inp prompt w)))
  = Some (ms ++ [user_turn prompt]).
Proof.
  intros Hm Hcall Hc Hr Hw.
  destruct w as [[m a wa f fi po sel] lg qc u]. cbn [ss messages api_log] in *.
  subst m.
  assert (Hmerge : forall w1,
             warnings (ss w1) <> None ->
             merge_warnings (JObj d) w1 = (Raise TypeError, w1)).
  { intros w1 Hws. unfold carried_warnings in Hw.
    unfold merge_warnings, getitem, py_contains, py_getitem, dict_has. run.
    destruct (dict_get "warnings" d) as [x|]; [|discriminate]. run.
    destruct (warnings (ss w1)); [|congruence]. run.
    destruct x; cbn in Hw |- *; try discriminate; reflexivity. }
  unfold process_user_input. run.
  rewrite user_turn_content. run.
  rewrite display_user_content. unfold drawn. run.
  rewrite Hcall by reflexivity. unfold sent. run.
  destruct err as [e|].
  - rewrite (getitem_found _ _ _ _ Hr). run.
    rewrite Hmerge by (cbn; discriminate). run. cbn. now split.
  - destruct (Hc eq_refl) as (m & c & Hm1 & Hm2).
    assert (Hgc : forall w0, getitem m "content" w0 = (Ok c, w0))
      by (intros; unfold getitem; now rewrite Hm2).
    rewrite (getitem_found _ _ _ _ Hm1). rewrite !Hgc. run.
    rewrite (getitem_found _ _ _ _ Hr). run.
    rewrite Hmerge by (cbn; discriminate). run. cbn. now split.
Qed.

End Cycle.

(** ** What leaves the transcript alone *)

Create HintDb frame.

Section Frame.

Variable P : option (list json) -> Prop.

Lemma keeps_bind {A B} (m : M A) (f : A -> M B) :
  keeps (on_messages P) m -> (forall a, keeps (on_messages P) (f a)) -> keeps (on_messages P) (bind m f).
Proof.
  intros Hm Hf w Hw. unfold bind. specialize (Hm w Hw).
  destruct (m w) as [[a| |e] w']; cbn in *; auto. now apply Hf.
Qed.

Lemma keeps_same_session {A} (m : M A) :
  (forall w, ss (snd (m w)) = ss w) -> keeps (on_messages P) m.
Proof. intros H w Hw. unfold on_messages in *. now rewrite H. Qed.

Lemma keeps_ret {A} (a : A) : keeps (on_messages P) (ret a).
Proof. now apply keeps_same_session. Qed.

Lemma keeps_raise {A} (e : exn) : keeps (on_messages P) (@raise A e).
Proof. now apply keeps_same_session. Qed.

Lemma keeps_rerun {A} : keeps (on_messages P) (@rerun A).
Proof. now apply keeps_same_session. Qed.

Lemma keeps_lift {A} (r : exn + A) : keeps (on_messages P) (lift r).
Proof. apply keeps_same_session. now destruct r. Qed.

Lemma keeps_get_ss : keeps (on_messages P) get_ss.
Proof. now apply keeps_same_session. Qed.

Lemma keeps_emit (wd : widget) (args : list json) : keeps (on_messages P) (emit wd args).
Proof. now apply keeps_same_session. Qed.

Lemma keeps_attr {A} (name : string) (proj : session_state -> option A) :
  keeps (on_messages P) (attr name proj).
Proof.
  apply keeps_same_session. intros w. unfold attr. run. now destruct (proj (ss w)).
Qed.

Lemma keeps_modify (f : session_state -> session_state) :
  (forall s, messages (f s) = messages s) -> keeps (on_messages P) (modify_ss f).
Proof. intros H w Hw. unfold on_messages in *. cbn. now rewrite H. Qed.

Lemma keeps_key_in {V} (k : json) (d : list (json * V)) : keeps (on_messages P) (key_in k d).
Proof. apply keeps_same_session. intros w. unfold key_in. now destruct (hashable k). Qed.

Lemma keeps_for_each {A} (body : A -> M unit) (l : list A) :
  (forall x, keeps (on_messages P) (body x)) -> keeps (on_messages P) (for_each body l).
Proof.
  intros H. induction l as [|x l IH]; cbn [for_each].
  - apply keeps_ret.
  - apply keeps_bind; auto.
Qed.

End Frame.

#[export] Hint Resolve keeps_ret keeps_raise keeps_rerun keeps_lift keeps_get_ss
  keeps_emit keeps_attr keeps_key_in : frame.

(** Walk through a script: binds, loops and branches, then the leaves. *)
Ltac frame :=
  repeat first
    [ solve [ auto with frame ]
    | apply keeps_bind; [ | intro ]
    | apply keeps_for_each; intro
    | apply keeps_modify; intros []; reflexivity
    | match goal with
      | |- keeps _ (if ?c then _ else _) => destruct c
      | |- keeps _ (match ?x with _ => _ end) => destruct x
      end
    | progress cbv zeta ].

Section FrameScript.

Variable E : environment.
Variable inp : inputs.
Variable P : option (list json) -> Prop.

Lemma keeps_api_call (r : request) : keeps (on_messages P) (api_call E r).
Proof. now apply keeps_same_session. Qed.

Lemma keeps_loads (s : string) : keeps (on_messages P) (loads E s).
Proof. unfold loads. frame. Qed.

Lemma keeps_getitem (v : json) (k : string) : keeps (on_messages P) (getitem v k).
Proof. unfold getitem. frame. Qed.

Lemma keeps_check_icon (icon : string) : keeps (on_messages P) (check_icon E icon).
Proof. unfold check_icon. frame. Qed.

Lemma keeps_st_form (key : string) : keeps (on_messages P) (st_form key).
Proof.
  apply keeps_same_session. intros w. unfold st_form.
  now destruct (form_drawn key w).
Qed.

Lemma keeps_selectbox (label : string) (options : list string) (key : string) :
  keeps (on_messages P) (selectbox inp label options key).
Proof. unfold selectbox. frame. Qed.

Lemma keeps_set_index_column (df : dataframe) (x y : option string) :
  keeps (on_messages P) (set_index_column df x y).
Proof. unfold set_index_column. frame. Qed.

Hint Resolve keeps_api_call keeps_loads keeps_getitem keeps_check_icon
  keeps_st_form keeps_selectbox keeps_set_index_column : frame.

Lemma keeps_submit_feedback (rid : json) (positive : bool) (fm : string) :
  keeps (on_messages P) (submit_feedback E rid positive fm).
Proof. unfold submit_feedback. frame. Qed.

Hint Resolve keeps_submit_feedback : frame.

Lemma keeps_display_feedback_section (rid : json) :
  keeps (on_messages P) (display_feedback_section E inp rid).
Proof. unfold display_feedback_section. frame. Qed.

Lemma keeps_display_charts_tab (df : dataframe) (idx : Z) :
  keeps (on_messages P) (display_charts_tab E inp df idx).
Proof. unfold display_charts_tab. frame. Qed.

Lemma keeps_get_query_exec_result (q : json) :
  keeps (on_messages P) (get_query_exec_result E q).
Proof.
  apply keeps_same_session. intros w. unfold get_query_exec_result.
  now destruct (cache_lookup q (query_cache w)).
Qed.

Lemma keeps_display_sql_confidence (c : json) :
  keeps (on_messages P) (display_sql_confidence E c).
Proof. unfold display_sql_confidence. frame. Qed.

Hint Resolve keeps_display_feedback_section keeps_display_charts_tab
  keeps_get_query_exec_result keeps_display_sql_confidence : frame.

Lemma keeps_display_sql_query (sql : json) (idx : Z) (c rid : json) :
  keeps (on_messages P) (display_sql_query E inp sql idx c rid).
Proof. unfold display_sql_query. frame. Qed.

Hint Resolve keeps_display_sql_query : frame.

Lemma keeps_display_item (idx : Z) (rid item : json) :
  keeps (on_messages P) (display_item E inp idx rid item).
Proof. unfold display_item. frame. Qed.

Hint Resolve keeps_display_item : frame.

Lemma keeps_display_message (content : json) (idx : Z) (rid : json) :
  keeps (on_messages P) (display_message E inp content idx rid).
Proof. unfold display_message. frame. Qed.

Hint Resolve keeps_display_message : frame.

Lemma keeps_display_conversation : keeps (on_messages P) (display_conversation E inp).
Proof. unfold display_conversation. frame. Qed.

Lemma keeps_display_warnings : keeps (on_messages P) (display_warnings E).
Proof. unfold display_warnings. frame. Qed.

Lemma keeps_handle_error_notifications : keeps (on_messages P) (handle_error_notifications E).
Proof. unfold handle_error_notifications. frame. Qed.

Lemma keeps_create_relevant_graph_tables (ms : list json) :
  keeps (on_messages P) (create_relevant_graph_tables E ms).
Proof. unfold create_relevant_graph_tables. frame. Qed.

Lemma keeps_merge_warnings (response : json) : keeps (on_messages P) (merge_warnings response).
Proof. unfold merge_warnings. frame. Qed.

Hint Resolve keeps_create_relevant_graph_tables keeps_merge_warnings : frame.

(** Appending is the one change of the transcript the cycle makes. *)
Hypothesis P_append :
  forall ms turn, P (Some ms) -> P (Some (ms ++ [turn])).

Lemma keeps_messages_append (turn : json) : keeps (on_messages P) (messages_append turn).
Proof.
  intros w Hw. unfold on_messages, messages_append in *. run.
  destruct (messages (ss w)) eqn:Hm; run; rewrite ?Hm; auto.
Qed.

Hint Resolve keeps_messages_append : frame.

Lemma keeps_process_user_input (prompt : json) :
  keeps (on_messages P) (process_user_input E inp prompt).
Proof. unfold process_user_input. frame. Qed.

Hint Resolve keeps_process_user_input : frame.

Lemma keeps_handle_user_inputs : keeps (on_messages P) (handle_user_inputs E inp).
Proof. unfold handle_user_inputs. frame. Qed.

End FrameScript.

(** ** One execution of the script *)

Section Execution.

Variable E : environment.
Variable inp : inputs.

(** With a remote side that succeeds, a cycle appends the user's turn and
    the analyst's answer, and stops the execution. *)
Lemma cycle_succeeds (prompt : json) (w : world) (ms : list json) :
  graph_calls_succeed E ->
  messages (ss w) = Some ms ->
  exists c rid wl,
    process_user_input E inp prompt w
    = (Rerun,
       mk_world (cycle_state ms prompt (analyst_turn c rid) false wl (ss w))
         (api_log w ++ [graph_request (ms ++ [user_turn prompt])])
         (query_cache w) (ui w ++ cycle_ui prompt)).
Proof.
  intros HE Hm.
  destruct (HE (length (api_log w)) (ms ++ [user_turn prompt]))
    as (Hs & d & m & c & rid & wl & Hl & Hd & Hc & Hr & Hw).
  exists c, rid, wl.
  apply (process_user_input_cycle E inp prompt w ms d None c rid wl); auto.
  - intros w1 Hlog. apply graph_call_below_400; now rewrite Hlog.
  - now exists m.
Qed.

Lemma succeed_answer : graph_calls_succeed E -> graph_calls_answer E.
Proof.
  intros HE n ms resp.
  destruct (HE n ms) as (Hs & d & m & c & rid & wl & Hl & Hd & Hc & Hr & Hw).
  exists d, rid, wl. repeat (split; [assumption|]). left.
  split; [exact Hs|]. now exists m, c.
Qed.

(** With a remote side that answers, a cycle appends the user's turn and an
    analyst turn, the answer or the error text, and stops the execution. *)
Lemma cycle_answers (prompt : json) (w : world) (ms : list json) :
  graph_calls_answer E ->
  messages (ss w) = Some ms ->
  exists c rid w',
    process_user_input E inp prompt w = (Rerun, w') /\
    messages (ss w') = Some (ms ++ [user_turn prompt; analyst_turn c rid]) /\
    api_log w' = api_log w ++ [graph_request (ms ++ [user_turn prompt])].
Proof.
  intros HE Hm.
  destruct (HE (length (api_log w)) (ms ++ [user_turn prompt]))
    as (d & rid & wl & Hl & Hr & Hw & [(Hs & m & c & Hd & Hc)|(Hs & ecode & msg & He & Hg)]).
  - exists c, rid. eexists.
    rewrite (cycle_on_success E inp prompt w ms d m c rid wl) by assumption.
    repeat split.
  - eexists _, rid, _.
    rewrite (cycle_on_error E inp prompt w ms d rid ecode msg wl);
      [repeat split| assumption | repeat split; assumption | assumption | assumption].
Qed.

Hint Resolve keeps_getitem keeps_display_message
  keeps_create_relevant_graph_tables keeps_merge_warnings
  keeps_messages_append : frame.

(** Whatever the remote side answers, a cycle does not return: it reruns or
    raises, and the user's turn was appended before either. *)
Lemma cycle_outcomes (prompt : json) (w : world) (ms : list json) :
  messages (ss w) = Some ms ->
  (forall a, fst (process_user_input E inp prompt w) <> Ok a) /\
  exists ext,
    messages (ss (snd (process_user_input E inp prompt w)))
    = Some (ms ++ user_turn prompt :: ext).
Proof.
  intros Hm. split.
  - intros a. unfold process_user_input.
    repeat match goal with
           | |- fst (bind ?m ?f ?w0) <> Ok _ =>
               unfold bind at 1; destruct (m w0) as [[?| |?] ?];
               [|discriminate|discriminate]
           | |- fst (rerun _) <> Ok _ => discriminate
           end.
  - destruct w as [[m a wa f fi po sel] lg qc u]. cbn [ss messages] in Hm. subst m.
    set (P := fun m : option (list json) =>
                exists ext, m = Some (ms ++ user_turn prompt :: ext)).
    assert (Pa : forall ms0 turn, P (Some ms0) -> P (Some (ms0 ++ [turn]))).
    { intros ms0 turn (ext & He). injection He as ->.
      exists (ext ++ [turn]). now rewrite <- app_assoc. }
    unfold process_user_input.
    rewrite (bind_ok (modify_ss (set_warnings [])) _
               (mk_world (mk_session (Some ms) a wa f fi po sel) lg qc u)
               (mk_world (mk_session (Some ms) a (Some []) f fi po sel) lg qc u)
               tt eq_refl).
    rewrite (bind_ok (messages_append (user_turn prompt)) _
               (mk_world (mk_session (Some ms) a (Some []) f fi po sel) lg qc u)
               (mk_world (mk_session (Some (ms ++ [user_turn prompt])) a (Some [])
                            f fi po sel) lg qc u) tt eq_refl).
    match goal with
    | |- exists _, messages (ss (snd (?m ?w2))) = _ =>
        assert (Hrest : keeps (on_messages P) m) by frame;
        apply (Hrest w2)
    end.
    now exists [].
Qed.

(** The script before [main]: always normal; it resets on a model change. *)
Lemma before_script_quiet (w : world) :
  in_model_change inp = None ->
  before_script inp w = (Ok tt, mk_world (ss w) (api_log w) (query_cache w) []).
Proof. intros H. unfold before_script. run. now rewrite H. Qed.

Lemma before_script_normal (w : world) :
  exists w0, before_script inp w = (Ok tt, w0) /\
             api_log w0 = api_log w /\
             (in_model_change inp <> None -> messages (ss w0) = Some []) /\
             (in_model_change inp = None -> messages (ss w0) = messages (ss w)).
Proof.
  unfold before_script, reset_session_state. run.
  destruct (in_model_change inp); run; eexists; repeat split; try reflexivity;
    intros; congruence.
Qed.

(** [main_open] on a transcript that is absent, empty or just cleared runs the
    opening cycle on the system turn alone. *)
Lemma main_open_seeds (w : world) :
  in_clear inp = true \/ messages (ss w) = None \/ messages (ss w) = Some [] ->
  exists w2,
    main_open E inp w = process_user_input E inp opening_question w2 /\
    messages (ss w2) = Some [system_turn] /\
    api_log w2 = api_log w.
Proof.
  intros H. destruct w as [[m a wa f fi po sel] lg qc u]. cbn [ss messages] in H.
  unfold main_open, show_header_and_sidebar, reset_session_state. run.
  destruct (in_clear inp) eqn:Hc.
  - destruct m as [ms|]; destruct sel; run; eexists; repeat split.
  - destruct H as [H|[H|H]]; [discriminate| |]; subst m;
      destruct sel; run; eexists; repeat split.
Qed.

(** On a transcript that holds something, and without a click on the clear
    button, [main_open] draws the page frame and changes nothing else. *)
Lemma main_open_passes (w : world) (ms : list json) :
  in_clear inp = false ->
  messages (ss w) = Some ms -> ms <> [] ->
  exists w1, main_open E inp w = (Ok tt, w1) /\
             messages (ss w1) = Some ms /\
             api_log w1 = api_log w.
Proof.
  intros Hc Hm Hne. destruct w as [[m a wa f fi po sel] lg qc u].
  cbn [ss messages] in Hm. subst m.
  unfold main_open, show_header_and_sidebar. run. rewrite Hc.
  destruct ms as [|t ms]; [congruence|].
  destruct sel; run; cbn [length Z.of_nat Z.eqb]; eexists; repeat split.
Qed.

Lemma handle_user_inputs_accepts (w : world) (ms : list json) :
  graph_calls_succeed E ->
  messages (ss w) = Some ms ->
  input_waiting inp w = true ->
  exists prompt c rid w',
    handle_user_inputs E inp w = (Rerun, w') /\
    messages (ss w') = Some (ms ++ [user_turn prompt; analyst_turn c rid]).
Proof.
  intros HE Hm Hin. unfold input_waiting in Hin. unfold handle_user_inputs. run.
  destruct (py_truthy (opt_json (in_chat inp))).
  - edestruct (cycle_succeeds (opt_json (in_chat inp))) as (c & rid & wl & Hp);
      [exact HE | | rewrite Hp; now eexists _, _, _, _]. exact Hm.
  - cbn [orb] in Hin. destruct (active_suggestion (ss w)) as [pending|] eqn:Ha;
      [|discriminate]. run. rewrite Ha. run. rewrite Hin. run.
    edestruct (cycle_succeeds pending) as (c & rid & wl & Hp);
      [exact HE | | rewrite Hp; now eexists _, _, _, _]. exact Hm.
Qed.

Lemma handle_user_inputs_idle (w : world) :
  input_waiting inp w = false ->
  messages (ss (snd (handle_user_inputs E inp w))) = messages (ss w).
Proof.
  intros Hin. unfold input_waiting in Hin. unfold handle_user_inputs. run.
  apply orb_false_elim in Hin as [H1 H2]. rewrite H1.
  destruct (active_suggestion (ss w)) as [pending|] eqn:Ha; run; rewrite Ha;
    run; [|reflexivity].
  apply negb_false_iff in H2. now rewrite H2.
Qed.

Lemma script_run_seeds (w : world) :
  graph_calls_answer E ->
  starts_over inp w ->
  exists c rid w',
    script_run E inp w = (Rerun, w') /\
    messages (ss w')
    = Some [system_turn; user_turn opening_question; analyst_turn c rid] /\
    api_log w'
    = api_log w ++ [graph_request [system_turn; user_turn opening_question]] /\
    accepts_input E inp w = false.
Proof.
  intros HE H. unfold starts_over in H.
  destruct (before_script_normal w) as (w0 & H0 & Hlog & Hchg & Hsame).
  destruct (main_open_seeds w0) as (w2 & H2 & Hm2 & Hlog2).
  { destruct (in_model_change inp) eqn:Hi.
    - right; right. apply Hchg. discriminate.
    - rewrite (Hsame eq_refl). destruct H as [H|[H|[H|H]]]; auto; congruence. }
  destruct (cycle_answers opening_question w2 [system_turn] HE Hm2)
    as (c & rid & w' & Hp & Hm' & Hl').
  rewrite Hp in H2.
  exists c, rid, w'. unfold script_run, accepts_input, main.
  rewrite !(bind_ok _ _ _ _ _ H0), !(bind_rerun _ _ _ _ H2).
  repeat split; [exact Hm'|]. now rewrite Hl', Hlog2, Hlog.
Qed.

(** Whatever the remote side answers, an execution that starts over does not
    get past the opening cycle, and leaves the system turn and the opening
    question at the head of the transcript. *)
Lemma script_run_begins (w : world) :
  starts_over inp w ->
  (forall a, fst (script_run E inp w) <> Ok a) /\
  begun (snd (script_run E inp w)) /\
  accepts_input E inp w = false.
Proof.
  intros H. unfold starts_over in H.
  destruct (before_script_normal w) as (w0 & H0 & Hlog & Hchg & Hsame).
  destruct (main_open_seeds w0) as (w2 & H2 & Hm2 & Hlog2).
  { destruct (in_model_change inp) eqn:Hi.
    - right; right. apply Hchg. discriminate.
    - rewrite (Hsame eq_refl). destruct H as [H|[H|[H|H]]]; auto; congruence. }
  destruct (cycle_outcomes opening_question w2 [system_turn] Hm2) as (Hnever & ext & Hext).
  unfold script_run, accepts_input, main.
  rewrite !(bind_ok _ _ _ _ _ H0).
  destruct (main_open E inp w0) as [[[]| |e] w1] eqn:Hopen;
    rewrite <- H2 in Hnever, Hext; cbn [fst snd] in Hnever, Hext.
  - now destruct (Hnever tt).
  - rewrite !(bind_rerun _ _ _ _ Hopen). cbn [fst snd].
    split; [discriminate|]. split; [now exists ext|reflexivity].
  - rewrite !(bind_raise _ _ _ _ _ Hopen). cbn [fst snd].
    split; [discriminate|]. split; [now exists ext|reflexivity].
Qed.

Lemma script_run_continues (w : world) (ms : list json) :
  graph_calls_succeed E ->
  no_reset inp ->
  messages (ss w) = Some ms -> ms <> [] ->
  exists ext,
    messages (ss (snd (script_run E inp w))) = Some (ms ++ ext) /\
    length ext = if accepts_input E inp w then 2%nat else 0%nat.
Proof.
  intros HE [Hc Hmc] Hm Hne.
  pose proof (before_script_quiet w Hmc) as H0.
  destruct (main_open_passes (mk_world (ss w) (api_log w) (query_cache w) []) ms
              Hc Hm Hne) as (w1 & H1 & Hm1 & _).
  pose proof (keeps_display_conversation E inp (eq (Some ms)) w1) as Hk.
  unfold on_messages in Hk. specialize (Hk (eq_sym Hm1)).
  unfold script_run, accepts_input, main.
  rewrite !(bind_ok _ _ _ _ _ H0), !(bind_ok _ _ _ _ _ H1).
  destruct (display_conversation E inp w1) as [[[]| |e] w2] eqn:Hd;
    cbn [snd] in Hk; symmetry in Hk.
  - rewrite (bind_ok _ _ _ _ _ Hd).
    destruct (input_waiting inp w2) eqn:Hin.
    + destruct (handle_user_inputs_accepts w2 ms HE Hk Hin)
        as (prompt & c & rid & w' & Hh & Hm').
      rewrite (bind_rerun _ _ _ _ Hh). cbn [snd].
      exists [user_turn prompt; analyst_turn c rid]. now split.
    + exists []. rewrite app_nil_r. split; [|reflexivity].
      pose proof (handle_user_inputs_idle w2 Hin) as Hi.
      destruct (handle_user_inputs E inp w2) as [[[]| |e] w3] eqn:Hh;
        cbn [snd] in Hi.
      * rewrite (bind_ok _ _ _ _ _ Hh).
        assert (Hrest : keeps (on_messages (eq (Some ms)))
                          (bind (handle_error_notifications E)
                             (fun _ => display_warnings E))).
        { apply keeps_bind; [apply keeps_handle_error_notifications|].
          intro. apply keeps_display_warnings. }
        symmetry. apply Hrest. unfold on_messages. congruence.
      * rewrite (bind_rerun _ _ _ _ Hh). cbn [snd]. congruence.
      * rewrite (bind_raise _ _ _ _ _ Hh). cbn [snd]. congruence.
  - rewrite (bind_rerun _ _ _ _ Hd). exists []. now rewrite app_nil_r.
  - rewrite (bind_raise _ _ _ _ _ Hd). exists []. now rewrite app_nil_r.
Qed.

Lemma main_seeds (w : world) :
  graph_calls_answer E ->
  messages (ss w) = None \/ messages (ss w) = Some [] ->
  exists c rid w',
    main E inp w = (Rerun, w') /\
    messages (ss w')
    = Some [system_turn; user_turn opening_question; analyst_turn c rid] /\
    api_log w'
    = api_log w ++ [graph_request [system_turn; user_turn opening_question]].
Proof.
  intros HE H.
  destruct (main_open_seeds w) as (w2 & H2 & Hm2 & Hlog2); [now right|].
  destruct (cycle_answers opening_question w2 [system_turn] HE Hm2)
    as (c & rid & w' & Hp & Hm' & Hl').
  rewrite Hp in H2. exists c, rid, w'. unfold main.
  rewrite (bind_rerun _ _ _ _ H2). repeat split; [exact Hm'|]. now rewrite Hl', Hlog2.
Qed.

(** An execution gets as far as rendering only on a transcript that holds
    something and was neither cleared nor switched; it is rendered as it
    is. *)
Lemma render_passes (w w1 : world) :
  (before_script inp ;; main_open E inp)%script w = (Ok tt, w1) ->
  no_reset inp /\
  exists ms, ms <> [] /\ messages (ss w) = Some ms /\ messages (ss w1) = Some ms.
Proof.
  intros Hrun.
  destruct (before_script_normal w) as (w0 & H0 & Hlog & Hchg & Hsame).
  rewrite (bind_ok _ _ _ _ _ H0) in Hrun.
  assert (Hseed : in_clear inp = true \/ messages (ss w0) = None \/
                  messages (ss w0) = Some [] -> False).
  { intros Hs. destruct (main_open_seeds w0 Hs) as (w2 & H2 & Hm2 & _).
    destruct (cycle_outcomes opening_question w2 [system_turn] Hm2) as (Hnever & _).
    rewrite <- H2, Hrun in Hnever. now destruct (Hnever tt). }
  destruct (in_model_change inp) eqn:Hi.
  { exfalso. apply Hseed. right; right. apply Hchg. discriminate. }
  specialize (Hsame eq_refl).
  destruct (in_clear inp) eqn:Hc; [exfalso; auto|].
  split; [now split|].
  destruct (messages (ss w0)) as [[|t ms]|] eqn:Hm0; [exfalso; auto| |exfalso; auto].
  destruct (main_open_passes w0 (t :: ms) Hc Hm0) as (w1' & H1 & Hm1 & _);
    [discriminate|].
  rewrite H1 in Hrun. injection Hrun as <-.
  exists (t :: ms). split; [discriminate|]. split; congruence.
Qed.

(** The transcript that [display_conversation] receives is an opened one. *)
Lemma render_sees_opened (w w1 : world) :
  between_runs w ->
  (before_script inp ;; main_open E inp)%script w = (Ok tt, w1) ->
  opened w1.
Proof.
  intros Hb Hrun.
  destruct (render_passes w w1 Hrun) as (_ & ms & Hne & Hm & Hm1).
  destruct Hb as [Hb|[Hb|(c & rid & rest & Hb)]]; [congruence|congruence|].
  exists c, rid, rest. congruence.
Qed.

Lemma render_sees_begun (w w1 : world) :
  messages (ss w) = None \/ messages (ss w) = Some [] \/ begun w ->
  (before_script inp ;; main_open E inp)%script w = (Ok tt, w1) ->
  begun w1.
Proof.
  intros Hb Hrun.
  destruct (render_passes w w1 Hrun) as (_ & ms & Hne & Hm & Hm1).
  destruct Hb as [Hb|[Hb|(rest & Hb)]]; [congruence|congruence|].
  exists rest. congruence.
Qed.

(** Without a reset, an execution only ever appends to the transcript. *)
Lemma script_run_appends (P : option (list json) -> Prop) (w : world) :
  (forall ms turn, P (Some ms) -> P (Some (ms ++ [turn]))) ->
  ~ P None ->
  no_reset inp ->
  on_messages P w -> on_messages P (snd (script_run E inp w)).
Proof.
  intros Pa Pn [Hc Hmc] Hw.
  unfold script_run. rewrite (bind_ok _ _ _ _ _ (before_script_quiet w Hmc)).
  set (w0 := mk_world (ss w) (api_log w) (query_cache w) []).
  assert (Hw0 : on_messages P w0) by exact Hw. clearbody w0.
  assert (Hhead : keeps (on_messages P) (show_header_and_sidebar inp)).
  { unfold show_header_and_sidebar. rewrite Hc. frame. }
  assert (Hopen : on_messages P (snd (main_open E inp w0))).
  { unfold main_open. rewrite (bind_ok get_ss _ w0 w0 (ss w0) eq_refl).
    unfold on_messages in Hw0.
    destruct (messages (ss w0)) eqn:Hm; [|contradiction].
    rewrite (bind_ok (ret tt) _ w0 w0 tt eq_refl).
    match goal with
    | |- on_messages _ (snd (?m _)) => assert (Hrest : keeps (on_messages P) m)
    end.
    { apply keeps_bind; [exact Hhead|intros _].
      apply keeps_bind; [apply keeps_attr|intros ms0].
      destruct (Z.of_nat (length ms0) =? 0)%Z; [|apply keeps_ret].
      apply keeps_bind; [now apply keeps_messages_append|intro].
      now apply keeps_process_user_input. }
    apply Hrest. unfold on_messages. now rewrite Hm. }
  unfold main, bind at 1.
  destruct (main_open E inp w0) as [[[]| |e] w1]; cbn [snd] in *; auto.
  match goal with
  | |- on_messages _ (snd (?m _)) => assert (Hrest : keeps (on_messages P) m)
  end.
  { apply keeps_bind; [apply keeps_display_conversation|intro].
    apply keeps_bind; [now apply keeps_handle_user_inputs|intro].
    apply keeps_bind; [apply keeps_handle_error_notifications|intro].
    apply keeps_display_warnings. }
  now apply Hrest.
Qed.

(** The session stays in one of its three resting states. *)
Lemma script_run_between_runs (w : world) :
  graph_calls_answer E ->
  between_runs w -> opened (snd (script_run E inp w)).
Proof.
  intros HE Hb.
  assert (Hcases : starts_over inp w \/
                   (no_reset inp /\ opened w)).
  { unfold starts_over, no_reset.
    destruct (in_model_change inp); [left; left; discriminate|].
    destruct (in_clear inp); [left; auto|].
    destruct Hb as [Hb|[Hb|Hb]]; auto. }
  destruct Hcases as [Hs|[Hn Ho]].
  - destruct (script_run_seeds w HE Hs) as (c & rid & w' & Hr & Hm & _).
    rewrite Hr. now exists c, rid, [].
  - destruct Ho as (c & rid & rest & Hm).
    pose proof (script_run_appends
                  (fun m => exists ext, m = Some ((system_turn :: user_turn opening_question :: analyst_turn c rid :: rest) ++ ext)) w) as Ha.
    destruct Ha as (ext & He); auto.
    + intros ms turn (ext & He). injection He as ->.
      exists (ext ++ [turn]). cbn. now rewrite <- app_assoc.
    + intros (ext & He). discriminate.
    + unfold on_messages. rewrite Hm. exists []. now rewrite app_nil_r.
    + exists c, rid, (rest ++ ext). exact He.
Qed.

(** Whatever the remote side answers, the system turn and the opening
    question stay at the head of the transcript. *)
Lemma script_run_begun (w : world) :
  messages (ss w) = None \/ messages (ss w) = Some [] \/ begun w ->
  begun (snd (script_run E inp w)).
Proof.
  intros Hb.
  assert (Hcases : starts_over inp w \/ (no_reset inp /\ begun w)).
  { unfold starts_over, no_reset.
    destruct (in_model_change inp); [left; left; discriminate|].
    destruct (in_clear inp); [left; auto|].
    destruct Hb as [Hb|[Hb|Hb]]; auto. }
  destruct Hcases as [Hs|[Hn (rest & Hm)]].
  - apply (script_run_begins w Hs).
  - pose proof (script_run_appends
                  (fun m => exists ext, m = Some ((system_turn :: user_turn opening_question :: rest) ++ ext)) w) as Ha.
    destruct Ha as (ext & He); auto.
    + intros ms turn (ext & He). injection He as ->.
      exists (ext ++ [turn]). cbn. now rewrite <- app_assoc.
    + intros (ext & He). discriminate.
    + unfold on_messages. rewrite Hm. exists []. now rewrite app_nil_r.
    + exists (rest ++ ext). exact He.
Qed.

End Execution.

(** ** A session: a series of executions *)

Lemma run_session_between_runs (E : environment) (runs : list inputs) (w : world) :
  graph_calls_answer E ->
  between_runs w -> between_runs (run_session E runs w).
Proof.
  intros HE. revert w.
  induction runs as [|i runs IH]; intros w Hw; cbn [run_session]; auto.
  apply IH. right; right. now apply script_run_between_runs.
Qed.

Lemma run_session_begun (E : environment) (runs : list inputs) (w : world) :
  messages (ss w) = None \/ messages (ss w) = Some [] \/ begun w ->
  messages (ss (run_session E runs w)) = None \/
  messages (ss (run_session E runs w)) = Some [] \/
  begun (run_session E runs w).
Proof.
  revert w. induction runs as [|i runs IH]; intros w Hw; cbn [run_session]; auto.
  apply IH. right; right. now apply script_run_begun.
Qed.

Section Session.

Variable E : environment.
Hypothesis remote_ok : graph_calls_succeed E.

(** From a transcript that holds something, every accepted input adds two
    turns and nothing else adds any. *)
Lemma run_session_length (runs : list inputs) (w : world) (ms : list json) :
  Forall no_reset runs ->
  messages (ss w) = Some ms -> ms <> [] ->
  exists ext,
    messages (ss (run_session E runs w)) = Some (ms ++ ext) /\
    length ext = (2 * accepted_inputs E runs w)%nat.
Proof.
  revert w ms. induction runs as [|i runs IH]; intros w ms Hf Hm Hne.
  - exists []. cbn. now rewrite app_nil_r.
  - inversion Hf as [|? ? Hi Hf']; subst.
    destruct (script_run_continues E i w ms remote_ok Hi Hm Hne) as (e1 & H1 & L1).
    destruct (IH (snd (script_run E i w)) (ms ++ e1) Hf' H1) as (e2 & H2 & L2).
    { destruct ms; [congruence|discriminate]. }
    exists (e1 ++ e2). cbn [run_session accepted_inputs].
    rewrite H2, <- app_assoc. split; [reflexivity|].
    rewrite length_app, L1, L2. destruct (accepts_input E i w); lia.
Qed.

End Session.

(** ** Feedback records *)

Lemma scalar_eqb_refl (k : json) : hashable k = true -> key_eqb k k = true.
Proof.
  unfold key_eqb. destruct k as [|b|n|s|l|d]; cbn; intros H; try discriminate.
  - reflexivity.
  - destruct b; reflexivity.
  - apply Z.eqb_refl.
  - apply String.eqb_refl.
Qed.

Lemma scalar_eqb_eq (a b : json) :
  hashable b = true -> key_eqb a b = true -> key_norm a = key_norm b.
Proof.
  unfold key_eqb. intros Hb H.
  destruct b as [|y|y|y|y|y]; try discriminate;
    destruct a as [|x|x|x|x|x]; cbn in *; try discriminate; try reflexivity;
    try (apply Z.eqb_eq in H); try (apply String.eqb_eq in H); congruence.
Qed.

(** Two keys equal to a third hashable one are equal to each other. *)
Lemma key_eqb_meet (a b k : json) :
  hashable b = true -> hashable k = true ->
  key_eqb a k = true -> key_eqb b k = true -> key_eqb a b = true.
Proof.
  intros Hb Hk Ha Hbk.
  apply scalar_eqb_eq in Ha; auto. apply scalar_eqb_eq in Hbk; auto.
  unfold key_eqb. rewrite Ha, <- Hbk.
  change (key_eqb b b = true). now apply scalar_eqb_refl.
Qed.

Section KeyedMaps.

Context {V : Type}.

Lemma key_store_absent (k : json) (v : V) (d : list (json * V)) :
  key_lookup k d = None -> key_store k v d = d ++ [(k, v)].
Proof.
  induction d as [|[k' v'] d IH]; cbn; [reflexivity|].
  destruct (key_eqb k' k); [discriminate|]. intros H. now rewrite IH.
Qed.

Lemma key_lookup_app (k : json) (v : V) (d d' : list (json * V)) :
  key_lookup k d = Some v -> key_lookup k (d ++ d') = Some v.
Proof.
  induction d as [|[k' v'] d IH]; cbn; [discriminate|].
  now destruct (key_eqb k' k).
Qed.

Lemma records_for_absent (b k : json) (d : list (json * V)) :
  hashable b = true -> hashable k = true ->
  key_lookup b d = None -> key_eqb b k = true -> records_for k d = 0%nat.
Proof.
  intros Hb Hk. unfold records_for.
  induction d as [|[k' v'] d IH]; cbn; [reflexivity|].
  destruct (key_eqb k' b) eqn:Hkb; [discriminate|]. intros Hl Hbk.
  destruct (key_eqb k' k) eqn:Hkk; [|now apply IH].
  rewrite (key_eqb_meet k' b k Hb Hk Hkk Hbk) in Hkb. discriminate.
Qed.

Lemma records_for_store (b k : json) (v : V) (d : list (json * V)) :
  hashable b = true -> hashable k = true ->
  key_lookup b d = None ->
  (records_for k d <= 1)%nat -> (records_for k (key_store b v d) <= 1)%nat.
Proof.
  intros Hb Hk Hl Hd. rewrite (key_store_absent _ _ _ Hl).
  unfold records_for in *. rewrite filter_app, length_app. cbn.
  destruct (key_eqb b k) eqn:Hbk; cbn; [|lia].
  pose proof (records_for_absent b k d Hb Hk Hl Hbk) as H0.
  unfold records_for in H0. lia.
Qed.

End KeyedMaps.

Section Feedback.

Variable E : environment.
Variable inp : inputs.

Lemma submit_feedback_session (rid : json) (positive : bool) (fm : string)
    (w : world) :
  ss (snd (submit_feedback E rid positive fm w)) = ss w.
Proof.
  unfold submit_feedback, getitem. run.
  destruct (status _ =? 200)%Z; run; [reflexivity|].
  destruct (json_loads E _) as [v|]; run; [|reflexivity].
  destruct (py_getitem v "request_id"); run; [reflexivity|].
  destruct (py_getitem v "error_code"); run; [reflexivity|].
  destruct (py_getitem v "message"); run; reflexivity.
Qed.

(** The icons of the script are refused, whatever the tables hold. *)
Lemma icons_refused :
  icon_accepted E toast_icon = false /\
  icon_accepted E warning_icon = false /\
  icon_accepted E success_icon = false.
Proof. repeat split. Qed.

Lemma form_drawn_one (key : string) (s : session_state) (lg : list request)
    (qc : list (json * query_result)) (u : list ui_event) (ev : ui_event) :
  form_drawn key (mk_world s lg qc (u ++ [ev]))
  = form_drawn key (mk_world s lg qc u) || is_form key ev.
Proof.
  unfold form_drawn. cbn [ui]. rewrite existsb_app. cbn [existsb].
  now rewrite orb_false_r.
Qed.

(** Once the record of a refused feedback exists, the section shows the
    error and does nothing else, whatever the widgets report. *)
Lemma feedback_refused (rid : json) (w : world)
    (fs : list (json * feedback_record)) (e : string) :
  form_submitted (ss w) = Some fs ->
  hashable rid = true ->
  key_lookup rid fs = Some (mk_feedback (Some e)) ->
  display_feedback_section E inp rid w
  = (Ok tt, drawn [(St_popover, [JStr feedback_popover_label]); (St_error, [JStr e])] w).
Proof.
  intros Hf Hh Hl. unfold display_feedback_section, key_in.
  repeat (progress (rewrite ?Hf, ?Hh, ?Hl; run)).
  unfold drawn. now rewrite <- app_assoc.
Qed.

(** Once the record of an accepted feedback exists, the section stops at
    the icon of its banner. *)
Lemma feedback_accepted (rid : json) (w : world)
    (fs : list (json * feedback_record)) :
  form_submitted (ss w) = Some fs ->
  hashable rid = true ->
  key_lookup rid fs = Some (mk_feedback None) ->
  display_feedback_section E inp rid w
  = (Raise StreamlitAPIException, drawn [(St_popover, [JStr feedback_popover_label])] w).
Proof.
  intros Hf Hh Hl. unfold display_feedback_section, key_in.
  repeat (progress (rewrite ?Hf, ?Hh, ?Hl; run)).
  reflexivity.
Qed.

(** While no record exists and the form is neither drawn already nor
    submitted, the section draws the form and changes nothing. *)
Lemma feedback_open_idle (rid : json) (w : world)
    (fs : list (json * feedback_record)) :
  form_submitted (ss w) = Some fs ->
  hashable rid = true ->
  key_lookup rid fs = None ->
  form_drawn ("feedback_form_" ^^ str E rid) w = false ->
  in_form_submit inp ("feedback_form_" ^^ str E rid) = false ->
  exists w', display_feedback_section E inp rid w = (Ok tt, w') /\ ss w' = ss w.
Proof.
  intros Hf Hh Hl Hd Hs. destruct w as [s lg qc u]. cbn [ss] in Hf.
  unfold display_feedback_section, key_in.
  repeat (progress (rewrite ?Hf, ?Hh, ?Hl; run)).
  unfold st_form. rewrite form_drawn_one, Hd. cbn [is_form orb].
  repeat (progress (rewrite ?Hf, ?Hh, ?Hl, ?Hs; run)). now eexists.
Qed.

(** A form that was drawn already is refused. *)
Lemma feedback_form_twice (rid : json) (w : world)
    (fs : list (json * feedback_record)) :
  form_submitted (ss w) = Some fs ->
  hashable rid = true ->
  key_lookup rid fs = None ->
  form_drawn ("feedback_form_" ^^ str E rid) w = true ->
  display_feedback_section E inp rid w
  = (Raise StreamlitAPIException, drawn [(St_popover, [JStr feedback_popover_label])] w).
Proof.
  intros Hf Hh Hl Hd. destruct w as [s lg qc u]. cbn [ss] in Hf.
  unfold display_feedback_section, key_in.
  repeat (progress (rewrite ?Hf, ?Hh, ?Hl; run)).
  unfold st_form. rewrite form_drawn_one, Hd. reflexivity.
Qed.

(** The section either leaves the feedback map alone or stores one record
    for an id that had none. *)
Lemma feedback_section_map (rid : json) (w : world) :
  form_submitted (ss (snd (display_feedback_section E inp rid w)))
  = form_submitted (ss w) \/
  exists fs r,
    form_submitted (ss w) = Some fs /\ hashable rid = true /\
    key_lookup rid fs = None /\
    form_submitted (ss (snd (display_feedback_section E inp rid w)))
    = Some (key_store rid r fs).
Proof.
  unfold display_feedback_section, key_in. run.
  destruct (form_submitted (ss w)) as [fs|] eqn:Hf; run; [|now left].
  destruct (hashable rid) eqn:Hh; run; [|now left].
  destruct (key_lookup rid fs) as [r|] eqn:Hl;
    repeat (progress (rewrite ?Hf, ?Hh, ?Hl; run)).
  - left. destruct r as [[e|]]; run; exact Hf.
  - unfold st_form.
    match goal with |- context [form_drawn ?k ?w0] => destruct (form_drawn k w0) end;
      run; [now left|].
    repeat (progress (rewrite ?Hf, ?Hh, ?Hl; run)).
    destruct (in_form_submit inp _); run; [|now left].
    pose proof (submit_feedback_session rid
                  match in_radio inp ("feedback_form_" ^^ str E rid) with
                  | Some choice => String.eqb choice thumbs_up
                  | None => false
                  end
                  (in_text inp ("feedback_form_" ^^ str E rid))) as Hs.
    match goal with
    | |- context [submit_feedback E rid ?p ?m ?w0] =>
        specialize (Hs w0); destruct (submit_feedback E rid p m w0) as [[err| |e] w1]
    end; cbn [snd] in Hs; run.
    + rewrite Hs. run. rewrite Hf. run. right. now exists fs, (mk_feedback err).
    + left. rewrite Hs. exact Hf.
    + left. rewrite Hs. exact Hf.
Qed.

End Feedback.

(** ** Sets and selections *)

Lemma place_perm (before : string -> string -> bool) (x : string)
    (l : list string) :
  Permutation (place before x l) (x :: l).
Proof.
  induction l as [|y l IH]; cbn [place]; [reflexivity|].
  destruct (before x y); [reflexivity|].
  rewrite IH. apply perm_swap.
Qed.

Lemma fold_place_perm (before : string -> string -> bool) (l : list string) :
  Permutation (fold_right (place before) [] l) l.
Proof.
  induction l as [|x l IH]; cbn [fold_right]; [reflexivity|].
  rewrite place_perm. now constructor.
Qed.

Lemma remove_perm (x : string) (l l' : list string) :
  Permutation l l' ->
  Permutation (remove string_dec x l) (remove string_dec x l').
Proof.
  induction 1 as [|a l l' _ IH|a b l|l l' l'' _ IH1 _ IH2]; cbn [remove].
  - constructor.
  - destruct (string_dec x a); [exact IH|now constructor].
  - destruct (string_dec x b), (string_dec x a); try reflexivity. apply perm_swap.
  - now transitivity (remove string_dec x l').
Qed.

Lemma remove_NoDup (x : string) (l : list string) :
  NoDup l -> NoDup (remove string_dec x l).
Proof.
  induction 1 as [|a l Ha _ IH]; cbn [remove]; [constructor|].
  destruct (string_dec x a); [exact IH|]. constructor; [|exact IH].
  intros Hin. apply in_remove in Hin as [Hin _]. contradiction.
Qed.

Section Selection.

Variable E : environment.
Variable inp : inputs.

Lemma set_iter_perm (l : list string) :
  Permutation (set_iter E l) (nodup string_dec l).
Proof. apply fold_place_perm. Qed.

Lemma set_iter_In (l : list string) (a : string) : In a (set_iter E l) <-> In a l.
Proof.
  split; intros H.
  - apply (nodup_In string_dec). now apply (Permutation_in _ (set_iter_perm l)).
  - apply (Permutation_in _ (Permutation_sym (set_iter_perm l))).
    now apply nodup_In.
Qed.

Lemma set_iter_NoDup (l : list string) : NoDup (set_iter E l).
Proof.
  apply (Permutation_NoDup (Permutation_sym (set_iter_perm l))).
  apply NoDup_nodup.
Qed.

Lemma set_iter_others (l : list string) (x : string) :
  Permutation (set_iter E (remove string_dec x (set_iter E l)))
    (remove string_dec x (nodup string_dec l)).
Proof.
  rewrite set_iter_perm.
  rewrite nodup_fixed_point by (apply remove_NoDup, set_iter_NoDup).
  apply remove_perm, set_iter_perm.
Qed.

Lemma chosen_In (key : string) (options : list string) (x : string) :
  chosen inp key options = Some x -> In x options.
Proof.
  unfold chosen. intros H.
  assert (Hhd : hd_error options = Some x -> In x options).
  { destruct options; cbn; [discriminate|]. intros [= ->]. now left. }
  destruct (in_select inp key options) as [x0|]; [|auto].
  destruct (existsb (String.eqb x0) options) eqn:Hx; [|auto].
  injection H as <-. apply existsb_exists in Hx as (y & Hy & He).
  apply String.eqb_eq in He. now subst.
Qed.

Lemma chosen_some (key : string) (options : list string) :
  options <> [] -> exists x, chosen inp key options = Some x.
Proof.
  unfold chosen. intros H. destruct options as [|o options]; [congruence|].
  destruct (in_select inp key (o :: options)) as [x0|]; [|now exists o].
  destruct (existsb _ _); [now exists x0|now exists o].
Qed.

Lemma chosen_chart_type (key : string) :
  chosen inp key [line_chart_label; bar_chart_label] = Some line_chart_label \/
  chosen inp key [line_chart_label; bar_chart_label] = Some bar_chart_label.
Proof.
  destruct (chosen_some key [line_chart_label; bar_chart_label]) as (x & Hx);
    [discriminate|].
  rewrite Hx. destruct (chosen_In _ _ _ Hx) as [<-|[<-|[]]]; auto.
Qed.

(** A name that occurs once among at least two columns leaves another. *)
Lemma another_column (cols : list string) (x : string) :
  (2 <= length cols)%nat ->
  count_occ string_dec cols x = 1%nat ->
  exists y, In y cols /\ y <> x.
Proof.
  intros Hlen Hc.
  destruct cols as [|a [|b cols]]; cbn [length] in Hlen; try lia.
  destruct (string_dec a x) as [->|Ha].
  - destruct (string_dec b x) as [->|Hb].
    + cbn in Hc. destruct (string_dec x x); [|congruence]. discriminate.
    + exists b. split; [right; now left|exact Hb].
  - exists a. split; [now left|exact Ha].
Qed.

(** The chart tab on a frame with at least two columns: the column chosen
    for X is one of the frame's; if its name is shared the index is refused,
    and if not, one chart of it against another column is drawn. *)
Lemma charts_tab_outcome (df : dataframe) (idx : Z) (w : world) :
  (2 <= length (df_columns df))%nat ->
  exists x,
    chosen inp ("x_col_select_" ^^ str_of_Z idx) (set_iter E (df_columns df)) = Some x /\
    In x (df_columns df) /\
    let xs := set_iter E (df_columns df) in
    let ys := set_iter E (remove string_dec x xs) in
    ((1 < count_occ string_dec (df_columns df) x)%nat ->
     display_charts_tab E inp df idx w
     = (Raise ValueError, drawn (chart_boxes idx xs ys) w)) /\
    (count_occ string_dec (df_columns df) x = 1%nat ->
     exists y kind,
       chosen inp ("y_col_select_" ^^ str_of_Z idx) ys = Some y /\
       In y (df_columns df) /\ y <> x /\
       (kind = St_line_chart \/ kind = St_bar_chart) /\
       display_charts_tab E inp df idx w
       = (Ok tt, drawn (chart_boxes idx xs ys ++ [(kind, [JStr x; JStr y])]) w)).
Proof.
  intros Hlen.
  assert (Hne : set_iter E (df_columns df) <> []).
  { intros Hnil. destruct (df_columns df) as [|a cols] eqn:Hcols;
      [cbn in Hlen; lia|].
    assert (Ha : In a (set_iter E (a :: cols))) by (apply set_iter_In; now left).
    rewrite Hnil in Ha. destruct Ha. }
  destruct (chosen_some ("x_col_select_" ^^ str_of_Z idx) _ Hne) as (x & Hx).
  assert (Hin : In x (df_columns df)).
  { apply set_iter_In. now apply chosen_In in Hx. }
  exists x. split; [exact Hx|]. split; [exact Hin|]. cbv zeta.
  assert (Hguard : (2 <=? Z.of_nat (length (df_columns df)))%Z = true)
    by (apply Z.leb_le; lia).
  split.
  - intros Hc. unfold display_charts_tab, selectbox. rewrite Hguard. run.
    rewrite Hx. cbv iota beta.
    unfold set_index_column.
    destruct (count_occ string_dec (df_columns df) x) as [|[|n]]; try lia.
    destruct (chosen_chart_type ("chart_type_" ^^ str_of_Z idx)) as [-> | ->];
      run; unfold drawn, chart_boxes; cbn [opt_json py_eq_str];
      rewrite ?String.eqb_refl; cbv iota; run; now rewrite <- !app_assoc.
  - intros Hc.
    destruct (another_column _ x Hlen Hc) as (y0 & Hy0 & Hy0x).
    assert (Hys : set_iter E (remove string_dec x (set_iter E (df_columns df))) <> []).
    { intros Hnil.
      assert (Hi : In y0 (set_iter E (remove string_dec x (set_iter E (df_columns df))))).
      { apply set_iter_In. apply in_in_remove; [exact Hy0x|]. now apply set_iter_In. }
      rewrite Hnil in Hi. destruct Hi. }
    destruct (chosen_some ("y_col_select_" ^^ str_of_Z idx) _ Hys) as (y & Hy).
    assert (Hyin : In y (df_columns df) /\ y <> x).
    { pose proof (chosen_In _ _ _ Hy) as Hy'.
      apply (proj1 (set_iter_In _ _)), in_remove in Hy' as [Hy1 Hy2].
      split; [exact (proj1 (set_iter_In _ _) Hy1)|exact Hy2]. }
    destruct Hyin as [Hyin Hyx].
    assert (Hex : existsb (String.eqb y) (df_columns df) = true).
    { apply existsb_exists. exists y. split; [exact Hyin|apply String.eqb_refl]. }
    assert (Hneq : String.eqb y x = false) by now apply String.eqb_neq.
    destruct (chosen_chart_type ("chart_type_" ^^ str_of_Z idx)) as [Ht|Ht].
    + exists y, St_line_chart. repeat (split; [auto; fail|]).
      unfold display_charts_tab, selectbox. rewrite Hguard. run.
      rewrite Hx. cbv iota beta. rewrite Hy, Ht.
      unfold set_index_column. rewrite Hc, Hneq, Hex.
      cbn [opt_json py_eq_str negb andb]. rewrite String.eqb_refl. run.
      unfold drawn, chart_boxes. now rewrite <- !app_assoc.
    + exists y, St_bar_chart. repeat (split; [auto; fail|]).
      unfold display_charts_tab, selectbox. rewrite Hguard. run.
      rewrite Hx. cbv iota beta. rewrite Hy, Ht.
      unfold set_index_column. rewrite Hc, Hneq, Hex.
      cbn [opt_json py_eq_str negb andb].
      change (String.eqb bar_chart_label line_chart_label) with false.
      rewrite String.eqb_refl. run.
      unfold drawn, chart_boxes. now rewrite <- !app_assoc.
Qed.

End Selection.

(** ** Rendering a [sql] block *)

Create HintDb quiet.

Lemma form_drawn_events (key : string) (w : world) (evs : list ui_event) :
  existsb (is_form key) evs = false ->
  form_drawn key (drawn evs w) = form_drawn key w.
Proof.
  intros H. unfold form_drawn, drawn. cbn [ui]. rewrite existsb_app, H.
  apply orb_false_r.
Qed.

Lemma quiet_ret {A} (a : A) : quiet (ret a).
Proof. intros w. now exists a, w. Qed.

Lemma quiet_emit (wd : widget) (args : list json) :
  wd <> St_form -> quiet (emit wd args).
Proof.
  intros H w. eexists _, _. repeat split. intros key.
  apply (form_drawn_events key w [(wd, args)]).
  cbn. now destruct wd.
Qed.

Lemma quiet_bind {A B} (m : M A) (f : A -> M B) :
  quiet m -> (forall a, quiet (f a)) -> quiet (bind m f).
Proof.
  intros Hm Hf w. destruct (Hm w) as (a & w1 & H1 & S1 & Q1 & F1).
  destruct (Hf a w1) as (b & w2 & H2 & S2 & Q2 & F2).
  exists b, w2. rewrite (bind_ok _ _ _ _ _ H1).
  split; [exact H2|]. split; [congruence|]. split; [congruence|].
  intros key. now rewrite F2.
Qed.

Lemma quiet_drawn {A} (m : M A) (a : A) (evs : list ui_event) :
  (forall key, existsb (is_form key) evs = false) ->
  (forall w, m w = (Ok a, drawn evs w)) -> quiet m.
Proof.
  intros Hf H w. exists a, (drawn evs w). repeat split; [apply H|].
  intros key. now apply form_drawn_events.
Qed.

#[export] Hint Resolve quiet_ret : quiet.
#[export] Hint Extern 1 (quiet (emit _ _)) =>
  apply quiet_emit; discriminate : quiet.

Ltac quiet :=
  repeat first
    [ solve [ auto with quiet ]
    | apply quiet_bind; [ | intro ]
    | match goal with
      | |- quiet (if ?c then _ else _) => destruct c
      | |- quiet (match ?x with _ => _ end) => destruct x
      end
    | progress cbv zeta ].

(** Run the first step of a script that is known to be quiet. *)
Ltac quiet_step :=
  match goal with
  | |- context [bind ?m ?f ?w] =>
      let H := fresh "Hq" in
      let a := fresh "a" in
      let w1 := fresh "w" in
      let Heq := fresh "Heq" in
      let Hss := fresh "Hss" in
      let Hqc := fresh "Hqc" in
      let Hfd := fresh "Hfd" in
      assert (H : quiet m) by quiet;
      destruct (H w) as (a & w1 & Heq & Hss & Hqc & Hfd);
      rewrite (bind_ok _ _ _ _ _ Heq); clear H Heq
  end.

Section Render.

Variable E : environment.
Variable inp : inputs.

(** On a frame whose columns have distinct names the chart tab draws its
    widgets and nothing fails. *)
Lemma quiet_display_charts_tab (df : dataframe) (idx : Z) :
  NoDup (df_columns df) -> quiet (display_charts_tab E inp df idx).
Proof.
  intros Hnd.
  destruct (le_lt_dec 2 (length (df_columns df))) as [Hlen|Hlen].
  - destruct (charts_tab_outcome E inp df idx (mk_world fresh_session [] [] []) Hlen)
      as (x & Hx & Hin & _ & _).
    assert (Hc : count_occ string_dec (df_columns df) x = 1%nat)
      by now apply NoDup_count_occ'.
    intros w.
    destruct (charts_tab_outcome E inp df idx w Hlen) as (x' & Hx' & _ & _ & Hone).
    assert (x' = x) by congruence. subst x'.
    destruct (Hone Hc) as (y & kind & _ & _ & _ & Hk & Heq).
    eexists _, _. split; [exact Heq|]. repeat split. intros key.
    apply form_drawn_events. unfold chart_boxes. cbn.
    now destruct Hk as [-> | ->].
  - unfold display_charts_tab.
    assert (Hguard : (2 <=? Z.of_nat (length (df_columns df)))%Z = false)
      by (apply Z.leb_gt; lia).
    rewrite Hguard. quiet.
Qed.

Lemma confidence_null (w : world) : display_sql_confidence E JNull w = (Ok tt, w).
Proof. reflexivity. Qed.

Lemma confidence_unverified (c : list (string * json)) (w : world) :
  dict_get "verified_query_used" c = Some JNull ->
  display_sql_confidence E (JObj c) w
  = (Ok tt,
     drawn [(St_popover, [JStr "Verified Query Used"]);
            (St_container, []);
            (St_text, [JStr "There is no query from the Verified Query Repository used to generate this SQL answer"])] w).
Proof.
  intros H. unfold display_sql_confidence. cbn [is_None].
  rewrite (bind_ok _ _ _ _ _ (getitem_found _ _ _ w H)).
  cbn [is_None]. run. unfold drawn. now rewrite <- !app_assoc.
Qed.

Lemma quiet_confidence_null : quiet (display_sql_confidence E JNull).
Proof. apply quiet_ret. Qed.

Lemma quiet_confidence_unverified (c : list (string * json)) :
  dict_get "verified_query_used" c = Some JNull ->
  quiet (display_sql_confidence E (JObj c)).
Proof.
  intros H.
  apply (quiet_drawn _ tt
           [(St_popover, [JStr "Verified Query Used"]);
            (St_container, []);
            (St_text, [JStr "There is no query from the Verified Query Repository used to generate this SQL answer"])]).
  - reflexivity.
  - intros w. now apply confidence_unverified.
Qed.

Lemma confidence_key_missing (c : list (string * json)) (w : world) :
  dict_get "verified_query_used" c = None ->
  display_sql_confidence E (JObj c) w = (Raise (KeyError "verified_query_used"), w).
Proof.
  intros H. unfold display_sql_confidence. cbn [is_None].
  now rewrite (bind_raise _ _ _ _ _ (getitem_missing _ _ w H)).
Qed.

(** Asking for the result of a query draws nothing and leaves the session
    alone. *)
Lemma query_exec_answer (q : json) (w : world) :
  exists w',
    get_query_exec_result E q w = (Ok (query_answer E q w), w') /\
    ss w' = ss w /\ forall key, form_drawn key w' = form_drawn key w.
Proof.
  unfold get_query_exec_result, query_answer.
  destruct (cache_lookup q (query_cache w)); eexists; repeat split.
Qed.

(** With nothing to refuse, the feedback section ends normally. *)
Lemma feedback_section_calm (rid : json) (w : world) :
  py_truthy rid = true ->
  feedback_at_rest E inp rid w ->
  fst (display_feedback_section E inp rid w) = Ok tt.
Proof.
  intros Ht [Hf|(Hh & fs & Hf & [(e & Hl)|(Hl & Hd & Hs)])]; [congruence| |].
  - now rewrite (feedback_refused E inp rid w fs e).
  - destruct (feedback_open_idle E inp rid w fs Hf Hh Hl Hd Hs) as (w' & -> & _).
    reflexivity.
Qed.

(** Showing a query whose confidence part is quiet, whose result has
    distinct column names, and whose feedback section has nothing to
    refuse. *)
Lemma display_sql_query_ends (sql : json) (idx : Z) (conf rid : json) (w : world) :
  quiet (display_sql_confidence E conf) ->
  distinct_columns (query_answer E sql w) ->
  feedback_at_rest E inp rid w ->
  fst (display_sql_query E inp sql idx conf rid w) = Ok tt.
Proof.
  intros Hc Hcols Hrest. unfold display_sql_query.
  do 5 quiet_step.
  destruct (query_exec_answer sql w4) as (w5 & Heq & Hss5 & Hfd5).
  rewrite (bind_ok _ _ _ _ _ Heq).
  assert (Ha : query_answer E sql w4 = query_answer E sql w).
  { assert (Hsame : query_cache w4 = query_cache w) by congruence.
    unfold query_answer. now rewrite Hsame. }
  rewrite Ha. unfold distinct_columns in Hcols.
  assert (Hq : quiet
                 match fst (query_answer E sql w) with
                 | Some df =>
                     if df_empty df
                     then emit St_write [JStr "Query returned no data"]
                     else
                       emit St_tabs [JStr data_tab_label; JStr chart_tab_label] ;;
                       emit St_dataframe [] ;;
                       display_charts_tab E inp df idx
                 | None =>
                     emit St_error
                       [JStr ("Could not execute generated SQL query. Error: "
                              ^^ opt_str (snd (query_answer E sql w)))]
                 end).
  { destruct (fst (query_answer E sql w)) as [df|]; [|quiet].
    destruct (df_empty df); [quiet|].
    apply quiet_bind; [quiet|intro]. apply quiet_bind; [quiet|intro].
    apply quiet_display_charts_tab. now apply Hcols. }
  destruct (Hq w5) as ([] & w6 & Heq6 & Hss6 & _ & Hfd6).
  rewrite (bind_ok _ _ _ _ _ Heq6).
  destruct (py_truthy rid) eqn:Ht; [|reflexivity].
  apply feedback_section_calm; [exact Ht|].
  assert (Hsession : ss w6 = ss w) by congruence.
  assert (Hforms : forall key, form_drawn key w6 = form_drawn key w).
  { intros key. rewrite Hfd6, Hfd5, Hfd3, Hfd2, Hfd1, Hfd0. apply Hfd. }
  destruct Hrest as [Hf|(Hh & fs & Hf & Hcase)]; [left; exact Hf|].
  right. split; [exact Hh|]. exists fs. rewrite Hsession. split; [exact Hf|].
  destruct Hcase as [Hl|(Hl & Hd & Hs)]; [now left|right].
  rewrite Hforms. auto.
Qed.

(** The loop of [display_message] over a single block. *)
Lemma display_single_item (item : json) (idx : Z) (rid : json) (w : world) :
  fst (display_message E inp (JArr [item]) idx rid w)
  = fst (display_item E inp idx rid item w).
Proof.
  unfold display_message. cbn [py_iter lift]. rewrite (bind_ok (ret [item]) _ w w [item] eq_refl).
  cbn [for_each]. unfold bind.
  destruct (display_item E inp idx rid item w) as [[[]| |e] w']; reflexivity.
Qed.

Lemma display_sql_block_ok (d : list (string * json)) (stmt conf : json)
    (idx : Z) (rid : json) (w : world) :
  dict_get "type" d = Some (JStr "sql") ->
  dict_get "statement" d = Some stmt ->
  dict_get "confidence" d = Some conf ->
  quiet (display_sql_confidence E conf) ->
  distinct_columns (query_answer E stmt w) ->
  feedback_at_rest E inp rid w ->
  fst (display_message E inp (JArr [JObj d]) idx rid w) = Ok tt.
Proof.
  intros Ht Hs Hc Hq Hcols Hrest. rewrite display_single_item. unfold display_item.
  rewrite (bind_ok _ _ _ _ _ (getitem_found _ _ _ w Ht)).
  change (py_eq_str (JStr "sql") "text") with false.
  change (py_eq_str (JStr "sql") "suggestions") with false.
  change (py_eq_str (JStr "sql") "sql") with true. cbv iota.
  rewrite (bind_ok _ _ _ _ _ (getitem_found _ _ _ w Hs)).
  rewrite (bind_ok _ _ _ _ _ (getitem_found _ _ _ w Hc)).
  now apply display_sql_query_ends.
Qed.

Lemma display_sql_block_bare (d : list (string * json)) (stmt : json)
    (idx : Z) (rid : json) (w : world) :
  dict_get "type" d = Some (JStr "sql") ->
  dict_get "statement" d = Some stmt ->
  dict_get "confidence" d = None ->
  fst (display_message E inp (JArr [JObj d]) idx rid w)
  = Raise (KeyError "confidence").
Proof.
  intros Ht Hs Hc. rewrite display_single_item. unfold display_item.
  rewrite (bind_ok _ _ _ _ _ (getitem_found _ _ _ w Ht)).
  change (py_eq_str (JStr "sql") "text") with false.
  change (py_eq_str (JStr "sql") "suggestions") with false.
  change (py_eq_str (JStr "sql") "sql") with true. cbv iota.
  rewrite (bind_ok _ _ _ _ _ (getitem_found _ _ _ w Hs)).
  now rewrite (bind_raise _ _ _ _ _ (getitem_missing _ _ w Hc)).
Qed.

Lemma display_sql_block_no_entry (d c : list (string * json)) (stmt : json)
    (idx : Z) (rid : json) (w : world) :
  dict_get "type" d = Some (JStr "sql") ->
  dict_get "statement" d = Some stmt ->
  dict_get "confidence" d = Some (JObj c) ->
  dict_get "verified_query_used" c = None ->
  fst (display_message E inp (JArr [JObj d]) idx rid w)
  = Raise (KeyError "verified_query_used").
Proof.
  intros Ht Hs Hc Hv. rewrite display_single_item. unfold display_item.
  rewrite (bind_ok _ _ _ _ _ (getitem_found _ _ _ w Ht)).
  change (py_eq_str (JStr "sql") "text") with false.
  change (py_eq_str (JStr "sql") "suggestions") with false.
  change (py_eq_str (JStr "sql") "sql") with true. cbv iota.
  rewrite (bind_ok _ _ _ _ _ (getitem_found _ _ _ w Hs)).
  rewrite (bind_ok _ _ _ _ _ (getitem_found _ _ _ w Hc)).
  unfold display_sql_query. do 2 quiet_step.
  now rewrite (bind_raise _ _ _ _ _ (confidence_key_missing c _ Hv)).
Qed.

Lemma merge_warnings_none (d : list (string * json)) (w : world) :
  dict_get "warnings" d = None -> merge_warnings (JObj d) w = (Ok tt, w).
Proof.
  intros H. unfold merge_warnings, py_contains, dict_has. rewrite H. reflexivity.
Qed.

End Render.

(** ** The properties of the specification *)

(** C9. Whatever the session held before, [reset_session_state] leaves an
    empty turn sequence, an empty warning list, an empty feedback-record map
    and no active suggestion. *)
Theorem C9_reset_clears_session :
  forall w : world,
    fst (reset_session_state w) = Ok tt /\
    messages (ss (snd (reset_session_state w))) = Some [] /\
    warnings (ss (snd (reset_session_state w))) = Some [] /\
    form_submitted (ss (snd (reset_session_state w))) = Some [] /\
    active_suggestion (ss (snd (reset_session_state w))) = Some JNull.
Proof. intros w. unfold reset_session_state. run. now repeat split. Qed.

(** C2. For a response whose body decodes to a dict holding [request_id],
    [error_code] and [message]: with a status of 400 or more,
    [create_relevant_graph_tables] and [get_analyst_response] return the
    decoded envelope together with an error string in which the status, the
    request id, the error code and the message all occur; with a status below
    400 they return the envelope and no error; in neither case do they
    raise. *)
Theorem C2_client_returns_envelope_and_error :
  forall (E : environment) (ms : list json) (w : world) (model_path : string)
         (d : list (string * json)) (rid ecode msg : json),
    (let resp := send_snow_api_request E (length (api_log w)) (graph_request ms) in
     error_envelope E resp d rid ecode msg ->
     (400 <= status resp ->
      exists err,
        create_relevant_graph_tables E ms w
        = (Ok (JObj d, Some err), sent (graph_request ms) w) /\
        err = format_error graph_error_part0 graph_error_part1 graph_error_part2
                graph_error_part3 graph_error_part4
                (str_of_Z (status resp)) (str E rid) (str E ecode) (str E msg) /\
        occurs_in (str_of_Z (status resp)) err /\ occurs_in (str E rid) err /\
        occurs_in (str E ecode) err /\ occurs_in (str E msg) err) /\
     (status resp < 400 ->
      create_relevant_graph_tables E ms w
      = (Ok (JObj d, None), sent (graph_request ms) w)) /\
     (forall e, fst (create_relevant_graph_tables E ms w) <> Raise e)) /\
    (let resp := send_snow_api_request E (length (api_log w))
                   (analyst_request ms model_path) in
     selected_semantic_model_path (ss w) = Some model_path ->
     error_envelope E resp d rid ecode msg ->
     (400 <= status resp ->
      exists err,
        get_analyst_response E ms w
        = (Ok (JObj d, Some err), sent (analyst_request ms model_path) w) /\
        err = format_error analyst_error_part0 analyst_error_part1
                analyst_error_part2 analyst_error_part3 analyst_error_part4
                (str_of_Z (status resp)) (str E rid) (str E ecode) (str E msg) /\
        occurs_in (str_of_Z (status resp)) err /\ occurs_in (str E rid) err /\
        occurs_in (str E ecode) err /\ occurs_in (str E msg) err) /\
     (status resp < 400 ->
      get_analyst_response E ms w
      = (Ok (JObj d, None), sent (analyst_request ms model_path) w)) /\
     (forall e, fst (get_analyst_response E ms w) <> Raise e)).
Proof.
  intros E ms w model_path d rid ecode msg. split.
  - intros resp Henv.
    assert (Hhi : 400 <= status resp ->
                  create_relevant_graph_tables E ms w
                  = (Ok (JObj d, Some (format_error graph_error_part0 graph_error_part1
                       graph_error_part2 graph_error_part3 graph_error_part4
                       (str_of_Z (status resp)) (str E rid) (str E ecode) (str E msg))),
                     sent (graph_request ms) w))
      by (intros; now apply graph_call_from_400).
    assert (Hlo : status resp < 400 ->
                  create_relevant_graph_tables E ms w
                  = (Ok (JObj d, None), sent (graph_request ms) w))
      by (intros; apply graph_call_below_400; [apply Henv | assumption]).
    repeat split.
    + intros Hs. eexists. split; [now apply Hhi|]. split; [reflexivity|].
      apply format_error_occurs.
    + exact Hlo.
    + intros e. destruct (Z_lt_ge_dec (status resp) 400) as [Hs|Hs].
      * rewrite (Hlo Hs). discriminate.
      * rewrite (Hhi ltac:(lia)). discriminate.
  - intros resp Hp Henv.
    assert (Hhi : 400 <= status resp ->
                  get_analyst_response E ms w
                  = (Ok (JObj d, Some (format_error analyst_error_part0
                       analyst_error_part1 analyst_error_part2 analyst_error_part3
                       analyst_error_part4
                       (str_of_Z (status resp)) (str E rid) (str E ecode) (str E msg))),
                     sent (analyst_request ms model_path) w))
      by (intros; now apply analyst_call_from_400).
    assert (Hlo : status resp < 400 ->
                  get_analyst_response E ms w
                  = (Ok (JObj d, None), sent (analyst_request ms model_path) w))
      by (intros; apply analyst_call_below_400; [assumption | apply Henv | assumption]).
    repeat split.
    + intros Hs. eexists. split; [now apply Hhi|]. split; [reflexivity|].
      apply format_error_occurs.
    + exact Hlo.
    + intros e. destruct (Z_lt_ge_dec (status resp) 400) as [Hs|Hs].
      * rewrite (Hlo Hs). discriminate.
      * rewrite (Hhi ltac:(lia)). discriminate.
Qed.

(** The sample of the specification: status 500 and the body
    [{"request_id":"r1","error_code":"E1","message":"bad"}]. *)
Lemma C2_witness :
  let E := sample_env (mk_response 500 body_error) in
  (exists err,
      fst (create_relevant_graph_tables E [] (session_with []))
      = Ok (parsed_error, Some err) /\
      occurs_in "500" err /\ occurs_in "r1" err /\
      occurs_in "E1" err /\ occurs_in "bad" err) /\
  (exists err,
      fst (get_analyst_response E [] (session_with []))
      = Ok (parsed_error, Some err) /\
      occurs_in "500" err /\ occurs_in "r1" err /\
      occurs_in "E1" err /\ occurs_in "bad" err).
Proof.
  intros E.
  destruct (C2_client_returns_envelope_and_error E [] (session_with [])
              (hd EmptyString AVAILABLE_SEMANTIC_MODELS_PATHS)
              [("request_id", JStr "r1"); ("error_code", JStr "E1"); ("message", JStr "bad")]
              (JStr "r1") (JStr "E1") (JStr "bad")) as [Hg Ha].
  split.
  - destruct Hg as [Hg _]; [repeat split|].
    destruct Hg as (err & H1 & _ & H2 & H3 & H4 & H5); [cbn; lia|].
    exists err. rewrite H1. repeat split; assumption.
  - destruct Ha as [Ha _]; [reflexivity|repeat split|].
    destruct Ha as (err & H1 & _ & H2 & H3 & H4 & H5); [cbn; lia|].
    exists err. rewrite H1. repeat split; assumption.
Defined.

(** C8. [submit_feedback] returns [None] exactly when the status is 200; for
    any other status, and an envelope holding [request_id], [error_code] and
    [message], it returns the error string formatted from the status and
    those three fields, in which all four occur. *)
Theorem C8_feedback_accepts_only_200 :
  forall (E : environment) (rid : json) (positive : bool) (fm : string) (w : world),
    let resp := send_snow_api_request E (length (api_log w))
                  (feedback_request rid positive fm) in
    (fst (submit_feedback E rid positive fm w) = Ok None <-> status resp = 200) /\
    (forall d r e m,
        status resp <> 200 ->
        error_envelope E resp d r e m ->
        exists err,
          fst (submit_feedback E rid positive fm w) = Ok (Some err) /\
          err = format_error feedback_error_part0 feedback_error_part1
                  feedback_error_part2 feedback_error_part3 feedback_error_part4
                  (str_of_Z (status resp)) (str E r) (str E e) (str E m) /\
          occurs_in (str_of_Z (status resp)) err /\ occurs_in (str E r) err /\
          occurs_in (str E e) err /\ occurs_in (str E m) err).
Proof.
  intros E rid positive fm w resp. split.
  - split.
    + intros H. destruct (Z.eq_dec (status resp) 200) as [Hs|Hs]; [exact Hs|].
      exfalso. now apply (feedback_call_not_accepted E rid positive fm w Hs).
    + intros Hs. now rewrite feedback_call_200.
  - intros d r e m Hs Henv. eexists.
    split; [now rewrite (feedback_call_other E _ _ _ _ d r e m Hs Henv)|].
    split; [reflexivity|]. apply format_error_occurs.
Qed.

(** A status between 200 and 400 is refused like any other. *)
Lemma C8_witness :
  let E := sample_env (mk_response 302 body_error) in
  exists err,
    fst (submit_feedback E (JStr "r1") true "fine" (session_with [])) = Ok (Some err) /\
    occurs_in "302" err /\ occurs_in "r1" err /\
    occurs_in "E1" err /\ occurs_in "bad" err.
Proof.
  intros E.
  destruct (C8_feedback_accepts_only_200 E (JStr "r1") true "fine" (session_with []))
    as [_ H].
  destruct (H [("request_id", JStr "r1"); ("error_code", JStr "E1"); ("message", JStr "bad")]
              (JStr "r1") (JStr "E1") (JStr "bad"))
    as (err & H1 & _ & H2 & H3 & H4 & H5).
  - cbn. lia.
  - repeat split.
  - exists err. repeat split; assumption.
Defined.



(** C5 as stated fails: on a failed call whose envelope has no [request_id]
    the cycle raises and no analyst turn is appended. *)
Lemma C5_counterexample :
  let after := process_user_input (sample_env (mk_response 500 body_error_no_id))
                 idle (JStr "q") (session_with []) in
  fst after = Raise (KeyError "request_id") /\
  messages (ss (snd after)) = Some [user_turn (JStr "q")].
Proof. vm_compute. split; reflexivity. Qed.

(** C5, amended.  On a failed call (status 400 or more) whose body decodes to
    a dict: if the dict has [request_id], [error_code] and [message] entries
    and its warnings, if any, can be iterated, the analyst turn is built from
    the error string, carries the [request_id] of the envelope, whatever its
    value, and is appended.  In every other case the cycle raises before the
    analyst turn is appended, and the transcript ends with the user's turn:
    [KeyError] for the first of [request_id], [error_code], [message] that is
    missing, [TypeError] for warnings that cannot be iterated. *)
Theorem C5_failed_call_request_id :
  forall (E : environment) (inp : inputs) (prompt : json) (w : world)
         (ms : list json) (d : list (string * json)),
    let resp := send_snow_api_request E (length (api_log w))
                  (graph_request (ms ++ [user_turn prompt])) in
    let after := process_user_input E inp prompt w in
    messages (ss w) = Some ms ->
    400 <= status resp ->
    json_loads E (content resp) = Some (JObj d) ->
    (forall rid ecode msg wl,
        dict_get "request_id" d = Some rid ->
        dict_get "error_code" d = Some ecode ->
        dict_get "message" d = Some msg ->
        carried_warnings d = Some wl ->
        fst after = Rerun /\
        exists err,
          messages (ss (snd after))
          = Some (ms ++ [user_turn prompt;
                         analyst_turn (JArr [text_block (JStr err)]) rid]) /\
          occurs_in (str E rid) err) /\
    (dict_get "request_id" d = None ->
     fst after = Raise (KeyError "request_id") /\
     messages (ss (snd after)) = Some (ms ++ [user_turn prompt])) /\
    (forall rid,
        dict_get "request_id" d = Some rid ->
        dict_get "error_code" d = None ->
        fst after = Raise (KeyError "error_code") /\
        messages (ss (snd after)) = Some (ms ++ [user_turn prompt])) /\
    (forall rid ecode,
        dict_get "request_id" d = Some rid ->
        dict_get "error_code" d = Some ecode ->
        dict_get "message" d = None ->
        fst after = Raise (KeyError "message") /\
        messages (ss (snd after)) = Some (ms ++ [user_turn prompt])) /\
    (forall rid ecode msg,
        dict_get "request_id" d = Some rid ->
        dict_get "error_code" d = Some ecode ->
        dict_get "message" d = Some msg ->
        carried_warnings d = None ->
        fst after = Raise TypeError /\
        messages (ss (snd after)) = Some (ms ++ [user_turn prompt])).
Proof.
  intros E inp prompt w ms d resp after Hm Hs Hl.
  split; [|split; [|split; [|split]]].
  - intros rid ecode msg wl Hr He Hg Hw. unfold after.
    rewrite (cycle_on_error E inp prompt w ms d rid ecode msg wl); auto.
    + split; [reflexivity|]. eexists. split; [reflexivity|].
      apply format_error_occurs.
    + repeat split; assumption.
  - intros Hr. now apply process_user_input_no_id with (d := d).
  - intros rid Hr He. apply cycle_stops_at_call; [exact Hm|].
    intros w1 Hlog.
    pose proof (graph_call_no_code E (ms ++ [user_turn prompt]) w1 d rid) as H.
    cbv zeta in H. rewrite Hlog in H. now apply H.
  - intros rid ecode Hr He Hg. apply cycle_stops_at_call; [exact Hm|].
    intros w1 Hlog.
    pose proof (graph_call_no_message E (ms ++ [user_turn prompt]) w1 d rid ecode) as H.
    cbv zeta in H. rewrite Hlog in H. now apply H.
  - intros rid ecode msg Hr He Hg Hw.
    apply (cycle_stops_at_warnings E inp prompt w ms d
             (Some (format_error graph_error_part0 graph_error_part1
                      graph_error_part2 graph_error_part3 graph_error_part4
                      (str_of_Z (status resp)) (str E rid) (str E ecode)
                      (str E msg))) rid); auto.
    + intros w1 Hlog. rewrite (graph_call_from_400 E _ w1 d rid ecode msg);
        rewrite Hlog; auto. repeat split; assumption.
    + discriminate.
Qed.

(** An error envelope with a request id yields a turn that carries it. *)
Lemma C5_witness :
  let E := sample_env (mk_response 500 body_error) in
  let after := process_user_input E idle (JStr "q") (session_with []) in
  fst after = Rerun /\
  exists err,
    messages (ss (snd after))
    = Some ([] ++ [user_turn (JStr "q");
                   analyst_turn (JArr [text_block (JStr err)]) (JStr "r1")]) /\
    occurs_in "r1" err.
Proof.
  intros E after.
  destruct (C5_failed_call_request_id E idle (JStr "q") (session_with []) []
              [("request_id", JStr "r1"); ("error_code", JStr "E1"); ("message", JStr "bad")]
              eq_refl ltac:(cbn; lia) eq_refl) as [H _].
  exact (H (JStr "r1") (JStr "E1") (JStr "bad") [] eq_refl eq_refl eq_refl eq_refl).
Defined.

(** C4. A cycle starts by replacing the warning list with the empty list, and
    the merge step extends the list with the warnings the envelope carries:
    after a completed cycle the list holds exactly those warnings, whatever it
    held before.  The merge step applied to two envelopes in a row, carrying
    [[{message: a}]] and [[{message: b}]], leaves [[{message: a}, {message:
    b}]]; the next cycle starts from the empty list again. *)
Theorem C4_warnings_cleared_then_extended :
  forall (E : environment) (inp : inputs) (prompt : json) (w : world)
         (ms : list json) (d : list (string * json)) (rid : json) (wl : list json),
    let resp := send_snow_api_request E (length (api_log w))
                  (graph_request (ms ++ [user_turn prompt])) in
    let after := process_user_input E inp prompt w in
    messages (ss w) = Some ms ->
    json_loads E (content resp) = Some (JObj d) ->
    dict_get "request_id" d = Some rid ->
    (status resp < 400 /\
     exists m c, dict_get "message" d = Some m /\ py_getitem m "content" = inr c) \/
    (400 <= status resp /\
     exists ecode msg, dict_get "error_code" d = Some ecode /\
                       dict_get "message" d = Some msg) ->
    carried_warnings d = Some wl ->
    warnings (ss (snd after)) = Some wl /\
    after = process_user_input E inp prompt (snd (modify_ss (set_warnings []) w)) /\
    (forall w0 ws d0 wl0,
        warnings (ss w0) = Some ws -> carried_warnings d0 = Some wl0 ->
        fst (merge_warnings (JObj d0) w0) = Ok tt /\
        warnings (ss (snd (merge_warnings (JObj d0) w0))) = Some (ws ++ wl0)) /\
    (forall w0 d1 d2,
        dict_get "warnings" d1 = Some (JArr [JObj [("message", JStr "a")]]) ->
        dict_get "warnings" d2 = Some (JArr [JObj [("message", JStr "b")]]) ->
        warnings (ss (snd ((modify_ss (set_warnings []) ;;
                            merge_warnings (JObj d1) ;;
                            merge_warnings (JObj d2))%script w0)))
        = Some [JObj [("message", JStr "a")]; JObj [("message", JStr "b")]]).
Proof.
  intros E inp prompt w ms d rid wl resp after Hm Hl Hr Hcase Hw.
  split; [|split; [|split]].
  - unfold after. destruct Hcase as [(Hs & m & c & Hd & Hc)|(Hs & ecode & msg & He & Hg)].
    + now rewrite (cycle_on_success E inp prompt w ms d m c rid wl).
    + rewrite (cycle_on_error E inp prompt w ms d rid ecode msg wl); auto.
      repeat split; assumption.
  - unfold after, process_user_input.
    rewrite !(bind_ok (modify_ss (set_warnings [])) _ _ _ tt eq_refl).
    now destruct w as [[m a wa f fi po sel] lg qc u].
  - intros w0 ws d0 wl0 H H0.
    now rewrite (merge_warnings_carried d0 wl0 ws w0).
  - intros w0 d1 d2 H1 H2.
    rewrite (bind_ok (modify_ss (set_warnings [])) _ _ _ tt eq_refl).
    erewrite (bind_ok (merge_warnings (JObj d1)));
      [|apply (merge_warnings_carried d1 [JObj [("message", JStr "a")]] []);
        [unfold carried_warnings; now rewrite H1 | reflexivity]].
    rewrite (merge_warnings_carried d2 [JObj [("message", JStr "b")]]
               [JObj [("message", JStr "a")]]);
      [reflexivity | unfold carried_warnings; now rewrite H2 | reflexivity].
Qed.

(** A cycle that starts with a stale warning and whose envelope carries
    [[{message: a}]]. *)
Lemma C4_witness :
  let w := mk_world
             (mk_session (Some []) (Some JNull)
                (Some [JObj [("message", JStr "stale")]]) (Some []) None None None)
             [] [] [] in
  warnings (ss (snd (process_user_input (sample_env (mk_response 200 body_warn_a))
                       idle (JStr "q") w)))
  = Some [JObj [("message", JStr "a")]].
Proof.
  intros w.
  refine (proj1 (C4_warnings_cleared_then_extended
                   (sample_env (mk_response 200 body_warn_a)) idle (JStr "q") w []
                   [("message", JObj [("content", JArr [])]);
                    ("request_id", JStr "r3");
                    ("warnings", JArr [JObj [("message", JStr "a")]])]
                   (JStr "r3") [JObj [("message", JStr "a")]]
                   eq_refl eq_refl eq_refl _ eq_refl)).
  left. split; [cbn; lia|]. now exists (JObj [("content", JArr [])]), (JArr []).
Defined.




(** C7.  Once a feedback record exists for a request id, the feedback section
    offers no form and no Submit button, sends no request and changes nothing
    in the session, whatever the widgets report.  For the record of a refused
    feedback it draws the error banner.  For the record of an accepted
    feedback it reaches the success banner, whose icon Streamlit refuses: the
    call raises and no banner is drawn.  The section never gives an id a
    second record, and never removes or changes a record that exists. *)
Theorem C7_feedback_closes_once :
  forall (E : environment) (inp : inputs) (rid : json) (w : world),
    let after := display_feedback_section E inp rid w in
    (forall fs r,
        form_submitted (ss w) = Some fs ->
        hashable rid = true ->
        key_lookup rid fs = Some r ->
        ss (snd after) = ss w /\
        api_log (snd after) = api_log w /\
        match fb_error r with
        | Some e =>
            fst after = Ok tt /\
            ui (snd after)
            = ui w ++ [(St_popover, [JStr feedback_popover_label]);
                       (St_error, [JStr e])]
        | None =>
            fst after = Raise StreamlitAPIException /\
            ui (snd after) = ui w ++ [(St_popover, [JStr feedback_popover_label])]
        end) /\
    (one_record_each w -> one_record_each (snd after)) /\
    (forall k r, feedback_of k w = Some r -> feedback_of k (snd after) = Some r).
Proof.
  intros E inp rid w after. split; [|split].
  - intros fs [[e|]] Hf Hh Hl; unfold after; cbn [fb_error].
    + rewrite (feedback_refused E inp rid w fs e) by assumption. now repeat split.
    + rewrite (feedback_accepted E inp rid w fs) by assumption. now repeat split.
  - intros Hone fs' Hfs' k Hk.
    destruct (feedback_section_map E inp rid w) as [Hsame|(fs & r & Hf & Hh & Hl & Hst)];
      fold after in Hsame || fold after in Hst.
    + apply (Hone fs'); [congruence|assumption].
    + rewrite Hst in Hfs'. injection Hfs' as <-.
      apply records_for_store; auto.
  - intros k r. unfold feedback_of.
    destruct (feedback_section_map E inp rid w) as [Hsame|(fs & r0 & Hf & Hh & Hl & Hst)];
      fold after in Hsame || fold after in Hst.
    + now rewrite Hsame.
    + rewrite Hst, Hf. intros Hk.
      rewrite (key_store_absent _ _ _ Hl). now apply key_lookup_app.
Qed.

(** A second attempt on [r2], whose feedback was accepted, with every widget
    reporting a click on Submit. *)
Lemma C7_witness :
  let after := display_feedback_section (sample_env (mk_response 200 body_hi))
                 submitting (JStr "r2") session_rated in
  ss (snd after) = ss session_rated /\
  api_log (snd after) = [] /\
  fst after = Raise StreamlitAPIException /\
  ui (snd after) = [(St_popover, [JStr feedback_popover_label])].
Proof.
  intros after.
  destruct (proj1 (C7_feedback_closes_once (sample_env (mk_response 200 body_hi))
                     submitting (JStr "r2") session_rated)
              [(JStr "r2", mk_feedback None)] (mk_feedback None)
              eq_refl eq_refl eq_refl) as (H1 & H2 & H3 & H4).
  repeat split; assumption.
Defined.

Lemma sample_succeeds : graph_calls_succeed (sample_env (mk_response 200 body_hi)).
Proof.
  intros n ms resp. split; [cbn; lia|].
  exists [("message", JObj [("content", JArr [JObj [("type", JStr "text"); ("text", JStr "hi")]])]);
          ("request_id", JStr "r2")],
         (JObj [("content", JArr [JObj [("type", JStr "text"); ("text", JStr "hi")]])]),
         (JArr [JObj [("type", JStr "text"); ("text", JStr "hi")]]),
         (JStr "r2"), [].
  repeat split.
Qed.

(** C3 as stated fails: in a new session whose user has one question accepted,
    with every remote call succeeding, the transcript holds five turns, not
    three. *)
Lemma C3_counterexample :
  ~ (forall (E : environment) (runs : list inputs),
        graph_calls_succeed E ->
        Forall no_reset runs ->
        forall ms,
          messages (ss (run_session E runs fresh_world)) = Some ms ->
          length ms = (1 + 2 * accepted_inputs E runs fresh_world)%nat).
Proof.
  intros H.
  assert (Hruns : Forall no_reset [idle; typing "q"]) by (repeat constructor).
  assert (Hm : messages (ss (run_session (sample_env (mk_response 200 body_hi))
                               [idle; typing "q"] fresh_world))
               = Some (match messages (ss (run_session
                                             (sample_env (mk_response 200 body_hi))
                                             [idle; typing "q"] fresh_world)) with
                       | Some l => l
                       | None => []
                       end))
    by (vm_compute; reflexivity).
  pose proof (H _ _ sample_succeeds Hruns _ Hm) as Hbad.
  vm_compute in Hbad. discriminate.
Qed.

(** C3, amended.  A session starts with the system turn and the pair that the
    opening question produces; from there, while the chat is neither cleared
    nor switched to another model and every remote call succeeds, each
    accepted input of the user adds one user/analyst pair: after N accepted
    inputs the transcript holds 1 + 2(N + 1) turns.  Whether or not the
    remote calls succeed, an execution without a reset only appends: every
    turn keeps its index. *)
Theorem C3_transcript_grows_by_pairs :
  forall E : environment,
    (graph_calls_succeed E ->
     forall runs,
       runs <> [] ->
       Forall no_reset runs ->
       exists rest,
         messages (ss (run_session E runs fresh_world)) = Some (system_turn :: rest) /\
         length (system_turn :: rest)
         = (1 + 2 * (accepted_inputs E runs fresh_world + 1))%nat) /\
    (forall inp w ms,
        no_reset inp ->
        messages (ss w) = Some ms ->
        exists ext,
          messages (ss (snd (script_run E inp w))) = Some (ms ++ ext) /\
          forall i turn,
            nth_error ms i = Some turn -> nth_error (ms ++ ext) i = Some turn).
Proof.
  intros E. split.
  - intros HE runs Hne Hf. destruct runs as [|i runs]; [congruence|].
    inversion Hf as [|? ? Hi Hf']; subst.
    destruct (script_run_seeds E i fresh_world (succeed_answer E HE))
      as (c & rid & w' & Hr & Hm & _ & Ha).
    { right; right; left. reflexivity. }
    cbn [run_session accepted_inputs]. rewrite Ha, Hr. cbn [snd].
    destruct (run_session_length E HE runs w' _ Hf' Hm) as (ext & He & Hl);
      [discriminate|].
    exists ([user_turn opening_question; analyst_turn c rid] ++ ext).
    split; [exact He|]. cbn [length app]. rewrite Hl. lia.
  - intros inp w ms Hn Hm.
    destruct (script_run_appends E inp (fun m => exists ext, m = Some (ms ++ ext)) w)
      as (ext & He); auto.
    + intros ms0 turn (ext & He). injection He as ->.
      exists (ext ++ [turn]). now rewrite <- app_assoc.
    + intros (ext & He). discriminate.
    + unfold on_messages. rewrite Hm. exists []. now rewrite app_nil_r.
    + exists ext. split; [exact He|].
      intros i turn Hi. rewrite nth_error_app1; [exact Hi|].
      apply nth_error_Some. congruence.
Qed.

(** A new session, then one typed question: five turns. *)
Lemma C3_witness :
  let E := sample_env (mk_response 200 body_hi) in
  exists rest,
    messages (ss (run_session E [idle; typing "q"] fresh_world))
    = Some (system_turn :: rest) /\
    length (system_turn :: rest) = 5%nat.
Proof.
  intros E.
  destruct (proj1 (C3_transcript_grows_by_pairs E) sample_succeeds [idle; typing "q"])
    as (rest & Hm & Hl).
  - discriminate.
  - repeat constructor.
  - exists rest. split; [exact Hm|]. rewrite Hl. vm_compute. reflexivity.
Defined.

(** C10 as stated fails: when the opening call is answered by an error
    envelope without a [request_id], the opening cycle raises after the
    user's turn; the next execution renders a transcript that holds the
    system turn and the opening question only, and accepts what the user
    typed. *)
Lemma C10_counterexample :
  let E := sample_env (mk_response 500 body_error_no_id) in
  let w1 := run_session E [idle] fresh_world in
  fst (script_run E idle fresh_world) = Raise (KeyError "request_id") /\
  messages (ss w1) = Some [system_turn; user_turn opening_question] /\
  accepts_input E (typing "q") w1 = true.
Proof. vm_compute. repeat split. Qed.

Lemma sample_answers_error : graph_calls_answer (sample_env (mk_response 500 body_error)).
Proof.
  intros n ms resp.
  exists [("request_id", JStr "r1"); ("error_code", JStr "E1"); ("message", JStr "bad")],
         (JStr "r1"), [].
  repeat (split; [reflexivity|]). right. split; [cbn; lia|].
  now exists (JStr "E1"), (JStr "bad").
Qed.

(** C10, amended.  The system turn holds the fixed prompt as its one text
    block.  Whatever the remote side answers, an execution that finds the
    transcript absent or empty, or in which the user cleared the chat or
    switched the model, appends the system turn and the opening question and
    ends in the opening cycle, before any input of the user is looked at; so
    whenever an execution gets as far as rendering, the transcript starts
    with the system turn followed by the opening question.  When every
    graph-plan call is answered with an envelope the cycle can use (an answer,
    or an error with [request_id], [error_code] and [message]), the opening
    cycle ends by a rerun with the analyst's turn appended, [main] does so on
    an absent or empty transcript, and the transcript that is rendered holds
    the opening question and its answer after the system turn. *)
Theorem C10_session_opens_with_question :
  forall E : environment,
    system_turn
    = JObj [("role", JStr "system");
            ("content", JArr [JObj [("type", JStr "text");
                                    ("text", JStr setup_message)]])] /\
    opening_question = JStr "What questions can I ask?" /\
    (forall inp w,
        starts_over inp w ->
        (forall a, fst (script_run E inp w) <> Ok a) /\
        accepts_input E inp w = false /\
        exists rest,
          messages (ss (snd (script_run E inp w)))
          = Some (system_turn :: user_turn opening_question :: rest)) /\
    (forall runs inp w1,
        (before_script inp ;; main_open E inp)%script (run_session E runs fresh_world)
        = (Ok tt, w1) ->
        exists rest,
          messages (ss w1)
          = Some (system_turn :: user_turn opening_question :: rest)) /\
    (graph_calls_answer E ->
     (forall inp w,
         starts_over inp w ->
         exists c rid,
           fst (script_run E inp w) = Rerun /\
           messages (ss (snd (script_run E inp w)))
           = Some [system_turn; user_turn opening_question; analyst_turn c rid] /\
           api_log (snd (script_run E inp w))
           = api_log w ++ [graph_request [system_turn; user_turn opening_question]] /\
           accepts_input E inp w = false) /\
     (forall inp w,
         messages (ss w) = None \/ messages (ss w) = Some [] ->
         exists c rid,
           fst (main E inp w) = Rerun /\
           messages (ss (snd (main E inp w)))
           = Some [system_turn; user_turn opening_question; analyst_turn c rid]) /\
     (forall runs inp w1,
         (before_script inp ;; main_open E inp)%script (run_session E runs fresh_world)
         = (Ok tt, w1) ->
         exists c rid rest,
           messages (ss w1)
           = Some (system_turn :: user_turn opening_question
                     :: analyst_turn c rid :: rest))).
Proof.
  intros E. split; [reflexivity|]. split; [reflexivity|]. split; [|split].
  - intros inp w Hs.
    destruct (script_run_begins E inp w Hs) as (Hnever & Hb & Ha).
    split; [exact Hnever|]. split; [exact Ha|exact Hb].
  - intros runs inp w1 Hrun.
    apply (render_sees_begun E inp (run_session E runs fresh_world) w1);
      [|exact Hrun].
    apply run_session_begun. now left.
  - intros HE. split; [|split].
    + intros inp w Hs.
      destruct (script_run_seeds E inp w HE Hs) as (c & rid & w' & Hr & Hm & Hl & Ha).
      exists c, rid. rewrite Hr. now repeat split.
    + intros inp w Hs.
      destruct (main_seeds E inp w HE Hs) as (c & rid & w' & Hr & Hm & _).
      exists c, rid. rewrite Hr. now split.
    + intros runs inp w1 Hrun.
      apply (render_sees_opened E inp (run_session E runs fresh_world) w1);
        [|exact Hrun].
      apply run_session_between_runs; [exact HE|]. now left.
Qed.

(** The first execution of a new session whose opening call fails with a
    well-formed error, and the rendering in the second. *)
Lemma C10_witness :
  let E := sample_env (mk_response 500 body_error) in
  (exists c rid,
      fst (script_run E idle fresh_world) = Rerun /\
      messages (ss (snd (script_run E idle fresh_world)))
      = Some [system_turn; user_turn opening_question; analyst_turn c rid]) /\
  (exists c rid rest,
      messages (ss (snd ((before_script idle ;; main_open E idle)%script
                           (run_session E [idle] fresh_world))))
      = Some (system_turn :: user_turn opening_question :: analyst_turn c rid :: rest)).
Proof.
  intros E.
  destruct (C10_session_opens_with_question E) as (_ & _ & _ & _ & H).
  destruct (H sample_answers_error) as (H1 & _ & H3).
  split.
  - destruct (H1 idle fresh_world) as (c & rid & Hr & Hm & _).
    + right; right; left. reflexivity.
    + exists c, rid. split; assumption.
  - assert (Hrun : (before_script idle ;; main_open E idle)%script
                     (run_session E [idle] fresh_world)
                   = (Ok tt, snd ((before_script idle ;; main_open E idle)%script
                                    (run_session E [idle] fresh_world))))
      by (vm_compute; reflexivity).
    exact (H3 [idle] idle _ Hrun).
Defined.

(** ** Further properties of the script *)

(** *** The error-notification flag *)

Create HintDb flag.

Lemma flag_bind {A B} (m : M A) (f : A -> M B) :
  keeps notified m -> (forall a, keeps notified (f a)) -> keeps notified (bind m f).
Proof.
  intros Hm Hf w Hw. unfold bind. specialize (Hm w Hw).
  destruct (m w) as [[a| |e] w']; cbn in *; auto. now apply Hf.
Qed.

Lemma flag_same {A} (m : M A) :
  (forall w, ss (snd (m w)) = ss w) -> keeps notified m.
Proof. intros H w Hw. unfold notified in *. now rewrite H. Qed.

Lemma flag_modify (f : session_state -> session_state) :
  (forall s, fire_API_error_notify (f s) = fire_API_error_notify s) ->
  keeps notified (modify_ss f).
Proof. intros H w Hw. unfold notified in *. cbn. now rewrite H. Qed.

Lemma flag_raised : keeps notified (modify_ss (set_fire_API_error_notify true)).
Proof. intros w _. reflexivity. Qed.

Lemma flag_for_each {A} (body : A -> M unit) (l : list A) :
  (forall x, keeps notified (body x)) -> keeps notified (for_each body l).
Proof.
  intros H. induction l as [|x l IH]; cbn [for_each].
  - now apply flag_same.
  - apply flag_bind; auto.
Qed.

Lemma flag_ret {A} (a : A) : keeps notified (ret a).
Proof. now apply flag_same. Qed.

Lemma flag_raise {A} (e : exn) : keeps notified (@raise A e).
Proof. now apply flag_same. Qed.

Lemma flag_rerun {A} : keeps notified (@rerun A).
Proof. now apply flag_same. Qed.

Lemma flag_lift {A} (r : exn + A) : keeps notified (lift r).
Proof. apply flag_same. now destruct r. Qed.

Lemma flag_get_ss : keeps notified get_ss.
Proof. now apply flag_same. Qed.

Lemma flag_emit (wd : widget) (args : list json) : keeps notified (emit wd args).
Proof. now apply flag_same. Qed.

Lemma flag_attr {A} (name : string) (proj : session_state -> option A) :
  keeps notified (attr name proj).
Proof.
  apply flag_same. intros w. unfold attr. run. now destruct (proj (ss w)).
Qed.

Lemma flag_key_in {V} (k : json) (d : list (json * V)) : keeps notified (key_in k d).
Proof. apply flag_same. intros w. unfold key_in. now destruct (hashable k). Qed.

Lemma flag_st_form (key : string) : keeps notified (st_form key).
Proof.
  apply flag_same. intros w. unfold st_form. now destruct (form_drawn key w).
Qed.

#[export] Hint Resolve flag_ret flag_raise flag_rerun flag_lift flag_get_ss
  flag_emit flag_attr flag_key_in flag_st_form flag_raised : flag.

(** Walk through a script, for the flag. *)
Ltac flag :=
  repeat first
    [ solve [ auto with flag ]
    | apply flag_bind; [ | intro ]
    | apply flag_for_each; intro
    | apply flag_modify; intros []; reflexivity
    | match goal with
      | |- keeps _ (if ?c then _ else _) => destruct c
      | |- keeps _ (match ?x with _ => _ end) => destruct x
      end
    | progress cbv zeta ].

Section Flag.

Variable E : environment.
Variable inp : inputs.

Lemma flag_api_call (r : request) : keeps notified (api_call E r).
Proof. now apply flag_same. Qed.

Lemma flag_loads (s : string) : keeps notified (loads E s).
Proof. unfold loads. flag. Qed.

Lemma flag_getitem (v : json) (k : string) : keeps notified (getitem v k).
Proof. unfold getitem. flag. Qed.

Lemma flag_check_icon (icon : string) : keeps notified (check_icon E icon).
Proof. unfold check_icon. flag. Qed.

Lemma flag_get_query_exec_result (q : json) :
  keeps notified (get_query_exec_result E q).
Proof.
  apply flag_same. intros w. unfold get_query_exec_result.
  now destruct (cache_lookup q (query_cache w)).
Qed.

Hint Resolve flag_api_call flag_loads flag_getitem flag_check_icon
  flag_get_query_exec_result : flag.

Lemma flag_reset_session_state : keeps notified reset_session_state.
Proof. unfold reset_session_state. flag. Qed.

Lemma flag_submit_feedback (rid : json) (positive : bool) (fm : string) :
  keeps notified (submit_feedback E rid positive fm).
Proof. unfold submit_feedback. flag. Qed.

Hint Resolve flag_reset_session_state flag_submit_feedback : flag.

Lemma flag_display_feedback_section (rid : json) :
  keeps notified (display_feedback_section E inp rid).
Proof. unfold display_feedback_section. flag. Qed.

Lemma flag_display_charts_tab (df : dataframe) (idx : Z) :
  keeps notified (display_charts_tab E inp df idx).
Proof. unfold display_charts_tab, selectbox, set_index_column. flag. Qed.

Lemma flag_display_sql_confidence (c : json) :
  keeps notified (display_sql_confidence E c).
Proof. unfold display_sql_confidence. flag. Qed.

Hint Resolve flag_display_feedback_section flag_display_charts_tab
  flag_display_sql_confidence : flag.

Lemma flag_display_sql_query (sql : json) (idx : Z) (c rid : json) :
  keeps notified (display_sql_query E inp sql idx c rid).
Proof. unfold display_sql_query. flag. Qed.

Hint Resolve flag_display_sql_query : flag.

Lemma flag_display_message (content : json) (idx : Z) (rid : json) :
  keeps notified (display_message E inp content idx rid).
Proof. unfold display_message, display_item. flag. Qed.

Hint Resolve flag_display_message : flag.

Lemma flag_process_user_input (prompt : json) :
  keeps notified (process_user_input E inp prompt).
Proof.
  unfold process_user_input, messages_append, create_relevant_graph_tables,
    merge_warnings.
  flag.
Qed.

Hint Resolve flag_process_user_input : flag.

(** The toast is refused before the flag is cleared. *)
Lemma notification_refused (w : world) :
  notified w -> handle_error_notifications E w = (Raise StreamlitAPIException, w).
Proof.
  unfold notified. intros H. unfold handle_error_notifications. run.
  now rewrite H.
Qed.

Lemma notification_skipped (w : world) :
  ~ notified w -> handle_error_notifications E w = (Ok tt, w).
Proof.
  unfold notified. intros H. unfold handle_error_notifications. run.
  destruct (fire_API_error_notify (ss w)) as [[|]|]; [congruence|reflexivity..].
Qed.

Lemma flag_handle_error_notifications :
  keeps notified (handle_error_notifications E).
Proof. intros w H. now rewrite notification_refused. Qed.

Hint Resolve flag_handle_error_notifications : flag.

Lemma flag_script_run : keeps notified (script_run E inp).
Proof.
  unfold script_run, before_script.
  apply flag_bind; [|intros _].
  { apply flag_bind; [now apply flag_same|intros _]. flag. }
  unfold main, main_open, show_header_and_sidebar, display_conversation,
    handle_user_inputs, display_warnings, messages_append.
  flag.
Qed.

End Flag.

Lemma flag_run_session (E : environment) (runs : list inputs) (w : world) :
  notified w -> notified (run_session E runs w).
Proof.
  revert w. induction runs as [|i runs IH]; intros w Hw; cbn [run_session]; auto.
  apply IH. now apply flag_script_run.
Qed.

(** X1. The toast of [handle_error_notifications] is never shown: with the
    flag set the call raises at the icon, before the flag is cleared, and
    with the flag not set it does nothing.  So the world is left as it was in
    both cases; with the flag set [main] never gets to [display_warnings];
    and once the flag is set it stays set, whatever the later executions
    do. *)
Theorem notification_is_never_cleared :
  forall E : environment,
    (forall w,
        snd (handle_error_notifications E w) = w /\
        (notified w ->
         fst (handle_error_notifications E w) = Raise StreamlitAPIException /\
         (handle_error_notifications E ;; display_warnings E)%script w
         = (Raise StreamlitAPIException, w)) /\
        (~ notified w -> fst (handle_error_notifications E w) = Ok tt)) /\
    (forall inp w, notified w -> notified (snd (script_run E inp w))) /\
    (forall runs w, notified w -> notified (run_session E runs w)).
Proof.
  intros E. split; [|split].
  - intros w. split; [|split].
    + assert (Hd : notified w \/ ~ notified w).
      { unfold notified. destruct (fire_API_error_notify (ss w)) as [[|]|];
          [now left|right; discriminate..]. }
      destruct Hd as [H|H];
        [now rewrite notification_refused|now rewrite notification_skipped].
    + intros H. rewrite (bind_raise _ _ _ _ _ (notification_refused E w H)).
      now rewrite notification_refused.
    + intros H. now rewrite notification_skipped.
  - intros inp w. apply flag_script_run.
  - intros runs w. apply flag_run_session.
Qed.

(** A session whose opening call failed: the flag is set by the first
    execution and is still set two executions later. *)
Lemma notification_is_never_cleared_witness :
  let E := sample_env (mk_response 500 body_error) in
  notified (run_session E [idle; typing "q"] (run_session E [idle] fresh_world)).
Proof.
  intros E.
  apply (proj2 (proj2 (notification_is_never_cleared E))).
  vm_compute. reflexivity.
Defined.

Lemma json_eqb_refl : forall a : json, json_eqb a a = true.
Proof.
  fix IH 1. intros [|b|n|s|l|d]; cbn.
  - reflexivity.
  - now destruct b.
  - apply Z.eqb_refl.
  - apply String.eqb_refl.
  - induction l as [|x l IHl]; [reflexivity|]. now rewrite (IH x), IHl.
  - induction d as [|[k x] d IHd]; [reflexivity|].
    now rewrite String.eqb_refl, (IH x), IHd.
Qed.

(** X2. [get_query_exec_result] is memoised: once a query has been asked, the
    same query is answered from the table, with the same result, without
    changing anything; and a query found in the table is answered from it
    whatever the warehouse would say. *)
Theorem query_is_executed_once :
  forall (E : environment) (q : json) (w : world),
    let first := get_query_exec_result E q w in
    (exists r, fst first = Ok r /\
               get_query_exec_result E q (snd first) = (Ok r, snd first)) /\
    (forall (E' : environment) r,
        cache_lookup q (query_cache w) = Some r ->
        get_query_exec_result E' q w = (Ok r, w)) /\
    (cache_lookup q (query_cache w) = None ->
     query_cache (snd first)
     = (q, match session_sql E q with
           | inl df => (Some df, None)
           | inr e => (None, Some e)
           end) :: query_cache w).
Proof.
  intros E q w first. unfold first, get_query_exec_result. split; [|split].
  - destruct (cache_lookup q (query_cache w)) as [r|] eqn:Hc; cbn.
    + exists r. now rewrite Hc.
    + eexists. split; [reflexivity|]. now rewrite json_eqb_refl.
  - intros E' r Hc. now rewrite Hc.
  - intros Hc. now rewrite Hc.
Qed.

Lemma query_is_executed_once_witness :
  let E := sample_env (mk_response 200 body_hi) in
  let w := snd (get_query_exec_result E (JStr "SELECT 1") (session_with [])) in
  get_query_exec_result
    (mk_environment sample_loads (fun _ _ => mk_response 200 body_hi)
       (fun _ => inl (mk_dataframe ["a"; "b"] false)) (fun _ => EmptyString)
       (fun _ => None) (fun _ => true) (fun _ _ _ => false))
    (JStr "SELECT 1") w
  = (Ok (None, Some "no warehouse"), w).
Proof.
  intros E w.
  exact (proj1 (proj2 (query_is_executed_once E (JStr "SELECT 1") w)) _ _ eq_refl).
Defined.

(** X3. The two planning calls decode the body before they look at the
    status: a body that is not JSON makes them raise, even with status 200,
    after the request went out.  [submit_feedback] looks at the status
    first: with status 200 it accepts without decoding the body. *)
Theorem undecodable_body :
  forall (E : environment) (ms : list json) (w : world) (model_path : string)
         (rid : json) (positive : bool) (fm : string),
    (json_loads E (content (send_snow_api_request E (length (api_log w))
                              (graph_request ms))) = None ->
     create_relevant_graph_tables E ms w
     = (Raise JSONDecodeError, sent (graph_request ms) w)) /\
    (selected_semantic_model_path (ss w) = Some model_path ->
     json_loads E (content (send_snow_api_request E (length (api_log w))
                              (analyst_request ms model_path))) = None ->
     get_analyst_response E ms w
     = (Raise JSONDecodeError, sent (analyst_request ms model_path) w)) /\
    (status (send_snow_api_request E (length (api_log w))
               (feedback_request rid positive fm)) = 200 ->
     json_loads E (content (send_snow_api_request E (length (api_log w))
                              (feedback_request rid positive fm))) = None ->
     submit_feedback E rid positive fm w
     = (Ok None, sent (feedback_request rid positive fm) w)) /\
    (status (send_snow_api_request E (length (api_log w))
               (feedback_request rid positive fm)) <> 200 ->
     json_loads E (content (send_snow_api_request E (length (api_log w))
                              (feedback_request rid positive fm))) = None ->
     submit_feedback E rid positive fm w
     = (Raise JSONDecodeError, sent (feedback_request rid positive fm) w)).
Proof.
  intros E ms w model_path rid positive fm. repeat split.
  - intros Hl. unfold create_relevant_graph_tables. run. now rewrite Hl.
  - intros Hp Hl. unfold get_analyst_response. run. rewrite Hp. run. now rewrite Hl.
  - intros Hs _. now apply feedback_call_200.
  - intros Hs Hl. unfold submit_feedback. run.
    apply Z.eqb_neq in Hs. now rewrite Hs, Hl.
Qed.

Lemma undecodable_body_witness :
  let E := sample_env (mk_response 200 "<html>") in
  fst (create_relevant_graph_tables E [] (session_with [])) = Raise JSONDecodeError /\
  fst (submit_feedback E (JStr "r1") true "ok" (session_with [])) = Ok None.
Proof.
  intros E.
  destruct (undecodable_body E [] (session_with []) EmptyString (JStr "r1") true "ok")
    as (H1 & _ & H3 & _).
  split.
  - now rewrite (H1 eq_refl).
  - now rewrite (H3 eq_refl eq_refl).
Defined.

(** X4. A query the warehouse refuses does not stop the rendering: the error
    text is shown inside the results panel, and the refusal is memoised like
    a result.  A query without rows shows the notice that no data came
    back. *)
Theorem sql_failure_is_shown_inline :
  forall (E : environment) (inp : inputs) (sql : json) (idx : Z) (w : world),
    cache_lookup sql (query_cache w) = None ->
    (forall e,
        session_sql E sql = inr e ->
        display_sql_query E inp sql idx JNull JNull w
        = (Ok tt,
           mk_world (ss w) (api_log w) ((sql, (None, Some e)) :: query_cache w)
             (ui w ++ [(St_expander, [JStr "SQL Query"]);
                       (St_code, [sql]);
                       (St_expander, [JStr "Results"]);
                       (St_spinner, [JStr "Running SQL..."]);
                       (St_error,
                        [JStr ("Could not execute generated SQL query. Error: "
                               ^^ e)])]))) /\
    (forall df,
        session_sql E sql = inl df -> df_empty df = true ->
        display_sql_query E inp sql idx JNull JNull w
        = (Ok tt,
           mk_world (ss w) (api_log w) ((sql, (Some df, None)) :: query_cache w)
             (ui w ++ [(St_expander, [JStr "SQL Query"]);
                       (St_code, [sql]);
                       (St_expander, [JStr "Results"]);
                       (St_spinner, [JStr "Running SQL..."]);
                       (St_write, [JStr "Query returned no data"])]))).
Proof.
  intros E inp sql idx [s lg qc u] Hc. cbn [query_cache] in Hc. split.
  - intros e He. unfold display_sql_query.
    change (display_sql_confidence E JNull) with (ret tt). run.
    unfold get_query_exec_result. run. rewrite Hc, He. run.
    now rewrite <- !app_assoc.
  - intros df He Hd. unfold display_sql_query.
    change (display_sql_confidence E JNull) with (ret tt). run.
    unfold get_query_exec_result. run. rewrite Hc, He. run. rewrite Hd. run.
    now rewrite <- !app_assoc.
Qed.

Lemma sql_failure_is_shown_inline_witness :
  fst (display_sql_query (sample_env (mk_response 200 body_hi)) idle
         (JStr "SELECT 1") 1 JNull JNull (session_with []))
  = Ok tt /\
  ui (snd (display_sql_query (sample_env (mk_response 200 body_hi)) idle
             (JStr "SELECT 1") 1 JNull JNull (session_with [])))
  = [(St_expander, [JStr "SQL Query"]);
     (St_code, [JStr "SELECT 1"]);
     (St_expander, [JStr "Results"]);
     (St_spinner, [JStr "Running SQL..."]);
     (St_error,
      [JStr "Could not execute generated SQL query. Error: no warehouse"])].
Proof.
  rewrite (proj1 (sql_failure_is_shown_inline (sample_env (mk_response 200 body_hi))
                    idle (JStr "SELECT 1") 1 (session_with []) eq_refl)
             "no warehouse" eq_refl).
  split; reflexivity.
Defined.



Lemma last_segment_split (acc s : string) :
  slash_free acc ->
  slash_free (last_segment acc s) /\
  exists pre,
    acc ^^ s = pre ^^ last_segment acc s /\
    (pre = EmptyString \/ exists p, pre = p ^^ "/").
Proof.
  revert acc. induction s as [|c s IH]; intros acc Hacc; cbn [last_segment].
  - split; [exact Hacc|]. exists EmptyString. split; [|now left].
    clear. induction acc as [|x acc IHa]; cbn; [reflexivity|now rewrite IHa].
  - destruct (Ascii.eqb c "/") eqn:Hc.
    + apply Ascii.eqb_eq in Hc. subst c.
      destruct (IH EmptyString) as (Hfree & pre & Hp & Hpre); [intros c []|].
      split; [exact Hfree|]. cbn in Hp.
      destruct Hpre as [->|(p & ->)].
      * exists (acc ^^ "/"). split; [|right; now exists acc].
        cbn in Hp. rewrite Hp at 1. now rewrite string_app_assoc.
      * exists ((acc ^^ "/" ^^ p) ^^ "/"). split; [|right; eexists; reflexivity].
        rewrite Hp at 1. now rewrite !string_app_assoc.
    + destruct (IH (acc ^^ String c EmptyString)) as (Hfree & pre & Hp & Hpre).
      { intros x Hx. unfold slash_free in Hacc.
        assert (Hin : In x (list_ascii_of_string acc) \/ x = c).
        { clear -Hx. induction acc as [|y acc IHa]; cbn in *.
          - destruct Hx as [<-|[]]. now right.
          - destruct Hx as [<-|Hx]; [left; now left|].
            destruct (IHa Hx); [left; now right|now right]. }
        destruct Hin as [Hin| ->]; [now apply Hacc|].
        intros ->. now rewrite Ascii.eqb_refl in Hc. }
      split; [exact Hfree|]. exists pre. split; [|exact Hpre].
      rewrite <- Hp. now rewrite string_app_assoc.
Qed.

(** X6. The label the sidebar shows for a model path, [s.split("/")[-1]], is
    what follows the last [/] of the path: it contains no [/], and the path is
    the label itself or something ending in [/] followed by the label. *)
Theorem model_label_is_last_segment :
  forall s : string,
    slash_free (last_segment EmptyString s) /\
    exists pre,
      s = pre ^^ last_segment EmptyString s /\
      (pre = EmptyString \/ exists p, pre = p ^^ "/").
Proof.
  intros s. apply (last_segment_split EmptyString s). intros c [].
Qed.

(** X7. [display_warnings] never shows a warning.  On an empty list it
    returns at once; otherwise it stops at the first warning: if the
    [message] of that warning cannot be read, with the error of that read,
    and if it can, at the icon, which Streamlit refuses.  Nothing is drawn or
    changed, and the later warnings are not looked at. *)
Theorem warnings_are_never_shown :
  forall (E : environment) (w : world),
    let after := display_warnings E w in
    snd after = w /\
    (warnings (ss w) = Some [] -> fst after = Ok tt) /\
    (forall x rest,
        warnings (ss w) = Some (x :: rest) ->
        fst after
        = Raise match py_getitem x "message" with
                | inl e => e
                | inr _ => StreamlitAPIException
                end) /\
    (warnings (ss w) = None -> fst after = Raise (AttributeError "warnings")).
Proof.
  intros E w after. unfold after, display_warnings, getitem. run.
  destruct (warnings (ss w)) as [[|x rest]|]; run; cbn [for_each].
  - split; [reflexivity|]. split; [reflexivity|]. split; [|discriminate].
    intros x0 rest0 H. discriminate.
  - run.
    destruct (py_getitem x "message") as [e|m] eqn:Hx; run;
      (split; [reflexivity|]); (split; [discriminate|]);
      (split; [|discriminate]); intros x0 rest0 H; injection H as <- <-;
      now rewrite Hx.
  - split; [reflexivity|]. split; [discriminate|]. split; [|reflexivity].
    intros x0 rest0 H. discriminate.
Qed.

(** A list of three warnings of which the first is well formed. *)
Lemma warnings_are_never_shown_witness :
  let E := sample_env (mk_response 200 body_hi) in
  let w := mk_world
             (mk_session (Some []) (Some JNull)
                (Some [JObj [("message", JStr "a")]; JObj [("text", JStr "b")];
                       JObj [("message", JStr "c")]])
                (Some []) None None None) [] [] [] in
  fst (display_warnings E w) = Raise StreamlitAPIException.
Proof.
  intros E w.
  exact (proj1 (proj2 (proj2 (warnings_are_never_shown E w))) _ _ eq_refl).
Defined.

(** X8. [display_message] skips a block of a type it does not know, drawing
    nothing and changing nothing; a block without a [type] entry raises
    [KeyError], and a content that cannot be iterated raises [TypeError];
    a text block is drawn as one markdown widget. *)
Theorem unknown_block_is_skipped :
  forall (E : environment) (inp : inputs) (idx : Z) (rid : json) (w : world),
    (forall d ty,
        dict_get "type" d = Some ty ->
        py_eq_str ty "text" = false ->
        py_eq_str ty "suggestions" = false ->
        py_eq_str ty "sql" = false ->
        display_message E inp (JArr [JObj d]) idx rid w = (Ok tt, w)) /\
    (forall d,
        dict_get "type" d = None ->
        display_message E inp (JArr [JObj d]) idx rid w = (Raise (KeyError "type"), w)) /\
    (forall d text,
        dict_get "type" d = Some (JStr "text") ->
        dict_get "text" d = Some text ->
        display_message E inp (JArr [JObj d]) idx rid w
        = (Ok tt, drawn [(St_markdown, [text])] w)) /\
    display_message E inp JNull idx rid w = (Raise TypeError, w) /\
    display_message E inp (JArr []) idx rid w = (Ok tt, w).
Proof.
  intros E inp idx rid w.
  assert (Hone : forall item,
             display_message E inp (JArr [item]) idx rid w
             = bind (display_item E inp idx rid item) (fun _ => ret tt) w)
    by reflexivity.
  repeat split.
  - intros d ty Ht H1 H2 H3. rewrite Hone.
    unfold display_item, getitem, py_getitem. run. rewrite Ht. run.
    rewrite H1, H2, H3. reflexivity.
  - intros d Ht. rewrite Hone.
    unfold display_item, getitem, py_getitem. run. now rewrite Ht.
  - intros d text Ht Hx. rewrite Hone.
    unfold display_item, getitem, py_getitem. run. rewrite Ht. run.
    change (py_eq_str (JStr "text") "text") with true. cbv iota. rewrite Hx.
    reflexivity.
Qed.

Lemma unknown_block_is_skipped_witness :
  let w := session_with [] in
  display_message (sample_env (mk_response 200 body_hi)) idle
    (JArr [JObj [("type", JStr "image"); ("url", JStr "x")]]) 2 JNull w
  = (Ok tt, w).
Proof.
  intros w.
  exact (proj1 (unknown_block_is_skipped (sample_env (mk_response 200 body_hi)) idle
                  2 JNull w)
           [("type", JStr "image"); ("url", JStr "x")] (JStr "image")
           eq_refl eq_refl eq_refl eq_refl).
Defined.

Section Suggestions.

Variable inp : inputs.
Variable idx : Z.

Lemma suggestion_loop_quiet (l : list json) (i : Z) (w : world) :
  (forall m, (m < length l)%nat ->
             in_button inp (suggestion_key idx (i + Z.of_nat m)) = false) ->
  for_each (suggestion_step inp idx) (enumerate_from i l) w
  = (Ok tt, drawn (suggestion_buttons idx i l) w).
Proof.
  revert i w. induction l as [|y l IH]; intros i w Hno.
  - cbn. unfold drawn. rewrite app_nil_r. now destruct w.
  - cbn [enumerate_from for_each]. unfold suggestion_step at 1. run.
    pose proof (Hno 0%nat ltac:(cbn; lia)) as H0.
    replace (i + Z.of_nat 0) with i in H0 by lia. rewrite H0. run.
    rewrite IH.
    + unfold drawn, suggestion_buttons. cbn [enumerate_from map]. run.
      now rewrite <- app_assoc.
    + intros m Hm. specialize (Hno (S m) ltac:(cbn; lia)).
      now replace (i + 1 + Z.of_nat m) with (i + Z.of_nat (S m)) by lia.
Qed.

Lemma suggestion_loop_click (l : list json) (i : Z) (w : world) (n : nat) (x : json) :
  nth_error l n = Some x ->
  in_button inp (suggestion_key idx (i + Z.of_nat n)) = true ->
  (forall m, m <> n -> (m < length l)%nat ->
             in_button inp (suggestion_key idx (i + Z.of_nat m)) = false) ->
  for_each (suggestion_step inp idx) (enumerate_from i l) w
  = (Ok tt, drawn (suggestion_buttons idx i l) (with_suggestion x w)).
Proof.
  revert i w n. induction l as [|y l IH]; intros i w n Hn Hyes Hno.
  - now destruct n.
  - cbn [enumerate_from for_each]. unfold suggestion_step at 1. run.
    destruct n as [|n].
    + injection Hn as ->. replace (i + Z.of_nat 0) with i in Hyes by lia.
      rewrite Hyes. run. rewrite suggestion_loop_quiet.
      * unfold drawn, with_suggestion, suggestion_buttons.
        cbn [enumerate_from map]. run. now rewrite <- app_assoc.
      * intros m Hm. specialize (Hno (S m) ltac:(lia) ltac:(cbn; lia)).
        now replace (i + 1 + Z.of_nat m) with (i + Z.of_nat (S m)) by lia.
    + pose proof (Hno 0%nat ltac:(lia) ltac:(cbn; lia)) as H0.
      replace (i + Z.of_nat 0) with i in H0 by lia. rewrite H0. run.
      rewrite (IH (i + 1) _ n Hn).
      * unfold drawn, with_suggestion, suggestion_buttons.
        cbn [enumerate_from map]. run. now rewrite <- app_assoc.
      * now replace (i + 1 + Z.of_nat n) with (i + Z.of_nat (S n)) by lia.
      * intros m Hm Hlt. specialize (Hno (S m) ltac:(lia) ltac:(cbn; lia)).
        now replace (i + 1 + Z.of_nat m) with (i + Z.of_nat (S m)) by lia.
Qed.

End Suggestions.



Lemma conversation_of_plain_turns (E : environment) (inp : inputs)
    (l : list (string * json)) (i : Z) (w : world) :
  Forall (fun entry => String.eqb (fst entry) "analyst" = false) l ->
  for_each (conversation_step E inp)
    (enumerate_from i (map (fun entry => plain_turn (fst entry) (snd entry)) l)) w
  = (Ok tt, drawn (flat_map plain_turn_ui l) w).
Proof.
  intros H. revert i w. induction H as [|[r t] l Hr _ IH]; intros i w.
  - cbn. unfold drawn. rewrite app_nil_r. now destruct w.
  - cbn [map enumerate_from for_each fst snd]. unfold conversation_step at 1.
    cbn [fst snd] in *.
    change (getitem (plain_turn r t) "role") with (@ret json (JStr r)).
    change (getitem (plain_turn r t) "content")
      with (@ret json (JArr [text_block t])).
    run. cbn [py_eq_str]. rewrite Hr.
    rewrite display_user_content. unfold drawn at 1. run.
    rewrite IH. unfold drawn. cbn [flat_map plain_turn_ui fst snd app]. run.
    now rewrite <- !app_assoc.
Qed.

(** X10. [display_conversation] walks the transcript in order: for turns that
    are not the analyst's and hold one text block it draws the turn header
    and the text, nothing for an empty transcript, and it needs no request
    id; an analyst turn without a [request_id] entry raises [KeyError] once
    its header is drawn. *)
Theorem conversation_is_drawn_in_order :
  forall (E : environment) (inp : inputs) (w : world),
    (forall l,
        Forall (fun entry => String.eqb (fst entry) "analyst" = false) l ->
        messages (ss w) = Some (map (fun entry => plain_turn (fst entry) (snd entry)) l) ->
        display_conversation E inp w = (Ok tt, drawn (flat_map plain_turn_ui l) w)) /\
    (forall content rest,
        messages (ss w)
        = Some (JObj [("role", JStr "analyst"); ("content", content)] :: rest) ->
        display_conversation E inp w
        = (Raise (KeyError "request_id"),
           drawn [(St_chat_message, [JStr "analyst"])] w)).
Proof.
  intros E inp w. split.
  - intros l Hl Hm. unfold display_conversation. run. rewrite Hm.
    now apply (conversation_of_plain_turns E inp l 0 w).
  - intros content rest Hm. unfold display_conversation. run. rewrite Hm.
    reflexivity.
Qed.

Lemma conversation_is_drawn_in_order_witness :
  let w := session_with [user_turn (JStr "q1"); user_turn (JStr "q2")] in
  display_conversation (sample_env (mk_response 200 body_hi)) idle w
  = (Ok tt,
     drawn [(St_chat_message, [JStr "user"]); (St_markdown, [JStr "q1"]);
            (St_chat_message, [JStr "user"]); (St_markdown, [JStr "q2"])] w).
Proof.
  intros w.
  refine (proj1 (conversation_is_drawn_in_order (sample_env (mk_response 200 body_hi))
                   idle w)
            [("user", JStr "q1"); ("user", JStr "q2")] _ eq_refl).
  repeat constructor.
Defined.

(** X11. [handle_user_inputs] prefers what was typed: a typed question is
    processed and a pending suggestion stays pending for a later execution;
    without a typed question a pending suggestion is cleared and processed
    in its place; with neither, only the input box is drawn.  (Stated for a
    remote side that succeeds.) *)
Theorem typed_input_comes_first :
  forall (E : environment) (inp : inputs) (w : world) (ms : list json),
    graph_calls_succeed E ->
    messages (ss w) = Some ms ->
    let after := handle_user_inputs E inp w in
    (forall s,
        in_chat inp = Some s -> s <> EmptyString ->
        exists c rid,
          fst after = Rerun /\
          messages (ss (snd after))
          = Some (ms ++ [user_turn (JStr s); analyst_turn c rid]) /\
          active_suggestion (ss (snd after)) = active_suggestion (ss w)) /\
    (forall pending,
        py_truthy (opt_json (in_chat inp)) = false ->
        active_suggestion (ss w) = Some pending -> pending <> JNull ->
        exists c rid,
          fst after = Rerun /\
          messages (ss (snd after))
          = Some (ms ++ [user_turn pending; analyst_turn c rid]) /\
          active_suggestion (ss (snd after)) = Some JNull) /\
    (py_truthy (opt_json (in_chat inp)) = false ->
     active_suggestion (ss w) = Some JNull ->
     after = (Ok tt, drawn [(St_chat_input, [JStr "What is your question?"])] w)).
Proof.
  intros E inp w ms HE Hm after. unfold after, handle_user_inputs. split; [|split].
  - intros s Hs Hne. run. rewrite Hs. cbn [opt_json py_truthy].
    apply String.eqb_neq in Hne. rewrite Hne. run.
    edestruct (cycle_succeeds E inp (JStr s)) as (c & rid & wl & Hp);
      [exact HE | | rewrite Hp; exists c, rid; repeat split]. exact Hm.
  - intros pending Hc Ha Hp. repeat (progress (rewrite ?Hc, ?Ha; run)).
    destruct pending; try congruence; cbn [is_None negb]; run;
      (edestruct (cycle_succeeds E inp) as (c & rid & wl & Hq);
       [exact HE | | rewrite Hq; exists c, rid; repeat split]; exact Hm).
  - intros Hc Ha. repeat (progress (rewrite ?Hc, ?Ha; run)). reflexivity.
Qed.

(** A typed question while the suggestion "more" is pending. *)
Lemma typed_input_comes_first_witness :
  let E := sample_env (mk_response 200 body_hi) in
  let w := mk_world (mk_session (Some [system_turn]) (Some (JStr "more")) (Some [])
                       (Some []) None None None) [] [] [] in
  exists c rid,
    messages (ss (snd (handle_user_inputs E (typing "q") w)))
    = Some ([system_turn] ++ [user_turn (JStr "q"); analyst_turn c rid]) /\
    active_suggestion (ss (snd (handle_user_inputs E (typing "q") w)))
    = Some (JStr "more").
Proof.
  intros E w.
  destruct (proj1 (typed_input_comes_first E (typing "q") w [system_turn]
                     sample_succeeds eq_refl) "q" eq_refl ltac:(discriminate))
    as (c & rid & _ & Hm & Ha).
  now exists c, rid.
Defined.

Ltac cycle_done :=
  split; [intros ? ?; discriminate|];
  split; [reflexivity|];
  split;
    [first [ left; split; [reflexivity|]; do 2 eexists;
             rewrite <- app_assoc; reflexivity
           | right; split; [eexists; reflexivity|reflexivity] ]
    |split; reflexivity].

(** X12. Whatever the remote side answers, a cycle of [process_user_input]
    appends the user's turn first and sends exactly one request, which
    carries the transcript with that turn; it never returns normally: either
    it appends the analyst's turn and ends the execution by a rerun, or it
    raises and leaves the user's turn as the last one.  It touches neither the
    feedback records nor the pending suggestion. *)
Theorem cycle_sends_one_request :
  forall (E : environment) (inp : inputs) (prompt : json) (w : world)
         (ms : list json),
    messages (ss w) = Some ms ->
    let after := process_user_input E inp prompt w in
    (forall a, fst after <> Ok a) /\
    api_log (snd after) = api_log w ++ [graph_request (ms ++ [user_turn prompt])] /\
    ((fst after = Rerun /\
      exists c rid,
        messages (ss (snd after))
        = Some (ms ++ [user_turn prompt; analyst_turn c rid])) \/
     ((exists e, fst after = Raise e) /\
      messages (ss (snd after)) = Some (ms ++ [user_turn prompt]))) /\
    form_submitted (ss (snd after)) = form_submitted (ss w) /\
    active_suggestion (ss (snd after)) = active_suggestion (ss w).
Proof.
  intros E inp prompt [[m a wa f fi po sel] lg qc u] ms Hm after.
  cbn [ss messages] in Hm. subst m. unfold after, process_user_input. run.
  rewrite user_turn_content. run. rewrite display_user_content. unfold drawn. run.
  unfold create_relevant_graph_tables, merge_warnings, getitem. run.
  unfold sent. run.
  destruct (json_loads E _) as [v|]; run; [|cycle_done].
  destruct (status _ <? 400)%Z; run.
  - destruct (py_getitem v "message") as [e|msg]; run; [cycle_done|].
    destruct (py_getitem msg "content") as [e|c]; run; [cycle_done|].
    destruct (py_getitem v "request_id") as [e|rid]; run; [cycle_done|].
    destruct (py_contains "warnings" v) as [e|[|]]; run; [cycle_done| |cycle_done].
    destruct (py_getitem v "warnings") as [e|ws]; run; [cycle_done|].
    destruct (py_iter ws) as [e|l]; run; cycle_done.
  - destruct (py_getitem v "request_id") as [e|rid] eqn:Hrid; run; [cycle_done|].
    destruct (py_getitem v "error_code") as [e|ec]; run; [cycle_done|].
    destruct (py_getitem v "message") as [e|msg]; run; [cycle_done|].
    rewrite ?Hrid. run.
    destruct (py_contains "warnings" v) as [e|[|]]; run; [cycle_done| |cycle_done].
    destruct (py_getitem v "warnings") as [e|ws]; run; [cycle_done|].
    destruct (py_iter ws) as [e|l]; run; cycle_done.
Qed.

(** A success status with an envelope that has no [message]. *)
Lemma cycle_sends_one_request_witness :
  let after := process_user_input (sample_env (mk_response 200 body_error)) idle
                 (JStr "q") (session_with [system_turn]) in
  api_log (snd after) = [graph_request [system_turn; user_turn (JStr "q")]] /\
  form_submitted (ss (snd after)) = Some [].
Proof.
  intros after.
  destruct (cycle_sends_one_request (sample_env (mk_response 200 body_error)) idle
              (JStr "q") (session_with [system_turn]) [system_turn] eq_refl)
    as (_ & Hl & _ & Hf & _).
  split; [exact Hl|exact Hf].
Defined.

Lemma key_lookup_store {V} (k : json) (v : V) (d : list (json * V)) :
  hashable k = true -> key_lookup k (key_store k v d) = Some v.
Proof.
  intros Hk. induction d as [|[k' v'] d IH]; cbn.
  - now rewrite scalar_eqb_refl.
  - destruct (key_eqb k' k) eqn:He; cbn; now rewrite He.
Qed.

(** X13. Submitting the feedback form of an id that has no record, the form
    not being drawn already in this execution, sends one request carrying the
    id, the rating and the message, stores the outcome as the record of that
    id and reruns: [None] for status 200, the formatted error otherwise.
    Either way the id then has a record, so a refused feedback cannot be sent
    again.  Only a refusal whose body cannot be decoded raises and leaves the
    form open.  A form that was drawn already in this execution is refused
    before anything is sent. *)
Theorem feedback_submission_closes :
  forall (E : environment) (inp : inputs) (rid : json) (w : world)
         (fs : list (json * feedback_record)),
    form_submitted (ss w) = Some fs ->
    hashable rid = true ->
    key_lookup rid fs = None ->
    in_form_submit inp (form_key E rid) = true ->
    let resp := send_snow_api_request E (length (api_log w)) (form_request E inp rid) in
    let after := display_feedback_section E inp rid w in
    (form_drawn (form_key E rid) w = false ->
     (status resp = 200 ->
      fst after = Rerun /\
      api_log (snd after) = api_log w ++ [form_request E inp rid] /\
      form_submitted (ss (snd after)) = Some (fs ++ [(rid, mk_feedback None)]) /\
      popover_open (ss (snd after)) = Some false /\
      feedback_of rid (snd after) = Some (mk_feedback None)) /\
     (forall d r e m,
         status resp <> 200 ->
         error_envelope E resp d r e m ->
         fst after = Rerun /\
         api_log (snd after) = api_log w ++ [form_request E inp rid] /\
         feedback_of rid (snd after)
         = Some (mk_feedback
                   (Some (format_error feedback_error_part0 feedback_error_part1
                            feedback_error_part2 feedback_error_part3
                            feedback_error_part4
                            (str_of_Z (status resp)) (str E r) (str E e) (str E m))))) /\
     (status resp <> 200 ->
      json_loads E (content resp) = None ->
      fst after = Raise JSONDecodeError /\
      form_submitted (ss (snd after)) = Some fs)) /\
    (form_drawn (form_key E rid) w = true ->
     after
     = (Raise StreamlitAPIException,
        drawn [(St_popover, [JStr feedback_popover_label])] w)).
Proof.
  intros E inp rid [s lg qc u] fs Hf Hh Hl Hs resp after. split.
  2:{ intros Hd. now apply (feedback_form_twice E inp rid _ fs). }
  intros Hd.
  cbn [ss api_log] in *. unfold form_key in Hs, Hd.
  unfold after, display_feedback_section, key_in.
  repeat (progress (rewrite ?Hf, ?Hh, ?Hl; run)).
  unfold st_form. rewrite form_drawn_one, Hd. cbn [is_form orb].
  repeat (progress (rewrite ?Hf, ?Hh, ?Hl, ?Hs; run)).
  fold (form_key E rid). fold (form_positive E inp rid).
  split; [|split].
  - intros H200.
    match goal with
    | |- context [submit_feedback E rid ?p ?m ?w0] =>
        rewrite (feedback_call_200 E rid p m w0 H200)
    end.
    unfold sent. repeat (progress (rewrite ?Hf; run)).
    unfold feedback_of. cbn [ss form_submitted].
    rewrite (key_store_absent _ _ _ Hl). repeat split.
    rewrite <- (key_store_absent _ _ _ Hl). now apply key_lookup_store.
  - intros d r e m Hne Henv.
    match goal with
    | |- context [submit_feedback E rid ?p ?m ?w0] =>
        rewrite (feedback_call_other E rid p m w0 d r e _ Hne Henv)
    end.
    unfold sent. repeat (progress (rewrite ?Hf; run)).
    unfold feedback_of. cbn [ss form_submitted]. repeat split.
    now apply key_lookup_store.
  - intros Hne Hbad.
    match goal with
    | |- context [submit_feedback E rid ?p ?m ?w0] =>
        rewrite (feedback_call_undecodable E rid p m w0 Hne Hbad)
    end.
    unfold sent. run. now split.
Qed.

(** A refusal with status 500 closes the form like an acceptance. *)
Lemma feedback_submission_closes_witness :
  let E := sample_env (mk_response 500 body_error) in
  let after := display_feedback_section E submitting (JStr "r1") (session_with []) in
  fst after = Rerun /\
  api_log (snd after) = [feedback_request (JStr "r1") true EmptyString] /\
  feedback_of (JStr "r1") (snd after)
  = Some (mk_feedback
            (Some (format_error feedback_error_part0 feedback_error_part1
                     feedback_error_part2 feedback_error_part3 feedback_error_part4
                     "500" "r1" "E1" "bad"))).
Proof.
  intros E after.
  refine (proj1 (proj2 (proj1 (feedback_submission_closes E submitting (JStr "r1")
                                 (session_with []) [] eq_refl eq_refl eq_refl eq_refl)
                          eq_refl))
            [("request_id", JStr "r1"); ("error_code", JStr "E1"); ("message", JStr "bad")]
            (JStr "r1") (JStr "E1") (JStr "bad") _ _).
  - cbn. lia.
  - repeat split.
Defined.

Lemma script_turn_renderable (t : json) : script_turn t -> renderable_turn t.
Proof.
  intros [->|[(p & ->)|(c & rid & ->)]].
  - exists (JStr "system"), (JArr [text_block (JStr setup_message)]).
    repeat split. discriminate.
  - exists (JStr "user"), (JArr [text_block p]). repeat split. discriminate.
  - exists (JStr "analyst"), c. repeat split. now exists rid.
Qed.

(** One step of the walk through a script. *)
Ltac frame_step :=
  first
    [ solve [ auto with frame ]
    | apply keeps_bind; [ | intro ]
    | apply keeps_for_each; intro
    | apply keeps_modify; intros []; reflexivity
    | match goal with
      | |- keeps _ (if ?c then _ else _) => destruct c
      | |- keeps _ (match ?x with _ => _ end) => destruct x
      end
    | progress cbv zeta ].

Section Shape.

Variable E : environment.
Variable inp : inputs.

Lemma keeps_append_script_turn (t : json) :
  script_turn t -> keeps (on_messages script_built) (messages_append t).
Proof.
  intros Ht w Hw. unfold on_messages, messages_append in *. run.
  destruct (messages (ss w)) as [ms|] eqn:Hm; run; rewrite ?Hm; [|exact Hw].
  cbn in *. apply Forall_app. split; [exact Hw|]. now constructor.
Qed.

Lemma keeps_reset_script_built :
  keeps (on_messages script_built) reset_session_state.
Proof. intros w _. unfold on_messages. cbn. constructor. Qed.

Lemma keeps_process_script_built (prompt : json) :
  keeps (on_messages script_built) (process_user_input E inp prompt).
Proof.
  unfold process_user_input.
  repeat first
    [ match goal with
      | |- keeps _ (messages_append (user_turn _)) =>
          apply keeps_append_script_turn; right; left; eexists; reflexivity
      | |- keeps _ (messages_append (analyst_turn _ _)) =>
          apply keeps_append_script_turn; right; right; do 2 eexists; reflexivity
      | |- keeps _ (display_message _ _ _ _ _) => apply keeps_display_message
      | |- keeps _ (create_relevant_graph_tables _ _) =>
          apply keeps_create_relevant_graph_tables
      | |- keeps _ (merge_warnings _) => apply keeps_merge_warnings
      | |- keeps _ (getitem _ _) => apply keeps_getitem
      end
    | frame_step ].
Qed.

Lemma keeps_script_run_script_built :
  keeps (on_messages script_built) (script_run E inp).
Proof.
  unfold script_run, before_script.
  apply keeps_bind; [|intros _].
  { apply keeps_bind; [now apply keeps_same_session|intros _].
    destruct (in_model_change inp); [|apply keeps_ret].
    apply keeps_bind; [apply keeps_modify; now intros []|intros _].
    apply keeps_reset_script_built. }
  unfold main, main_open, show_header_and_sidebar, handle_user_inputs.
  repeat first
    [ match goal with
      | |- keeps _ reset_session_state => apply keeps_reset_script_built
      | |- keeps _ (process_user_input _ _ _) => apply keeps_process_script_built
      | |- keeps _ (messages_append system_turn) =>
          apply keeps_append_script_turn; left; reflexivity
      | |- keeps _ (display_conversation _ _) => apply keeps_display_conversation
      | |- keeps _ (handle_error_notifications E) =>
          apply keeps_handle_error_notifications
      | |- keeps _ (display_warnings E) => apply keeps_display_warnings
      end
    | frame_step ].
Qed.

End Shape.

(** X14. Whatever the remote side answers and whatever the user does, the
    transcript only ever holds turns the script built: the system turn, user
    turns, and analyst turns with a [request_id] entry.  So every turn of a
    transcript that [display_conversation] meets has the [role] and [content]
    it reads, and every analyst turn the [request_id]. *)
Theorem transcript_is_always_renderable :
  forall (E : environment) (runs : list inputs) (ms : list json),
    messages (ss (run_session E runs fresh_world)) = Some ms ->
    Forall script_turn ms /\ Forall renderable_turn ms.
Proof.
  intros E runs ms Hm.
  assert (H : on_messages script_built (run_session E runs fresh_world)).
  { assert (H0 : on_messages script_built fresh_world) by exact I.
    revert H0. generalize fresh_world. clear Hm.
    induction runs as [|i runs IH]; intros w Hw; cbn [run_session]; [exact Hw|].
    apply IH. now apply keeps_script_run_script_built. }
  unfold on_messages in H. rewrite Hm in H. cbn in H. split; [exact H|].
  eapply Forall_impl; [|exact H]. apply script_turn_renderable.
Qed.

(** After a failed call and a cleared chat. *)
Lemma transcript_is_always_renderable_witness :
  Forall renderable_turn
    (match messages (ss (run_session (sample_env (mk_response 500 body_error))
                           [idle; typing "q"; idle] fresh_world)) with
     | Some ms => ms
     | None => []
     end).
Proof.
  assert (Hm : messages (ss (run_session (sample_env (mk_response 500 body_error))
                               [idle; typing "q"; idle] fresh_world))
               = Some (match messages (ss (run_session
                                             (sample_env (mk_response 500 body_error))
                                             [idle; typing "q"; idle] fresh_world)) with
                       | Some ms => ms
                       | None => []
                       end))
    by (vm_compute; reflexivity).
  apply transcript_is_always_renderable in Hm. exact (proj2 Hm).
Defined.

(** X15. An execution in which the user cleared the chat or switched the
    model starts the session over: at its end no feedback record is left and
    no suggestion is pending, and the sidebar holds the model switched to.
    The error-notification flag is not part of what a reset clears.  (Stated
    for a remote side that succeeds.) *)
Theorem reset_discards_feedback :
  forall (E : environment) (inp : inputs) (w : world),
    graph_calls_succeed E ->
    in_clear inp = true \/ in_model_change inp <> None ->
    let after := script_run E inp w in
    form_submitted (ss (snd after)) = Some [] /\
    active_suggestion (ss (snd after)) = Some JNull /\
    fire_API_error_notify (ss (snd after)) = fire_API_error_notify (ss w) /\
    (forall p, in_model_change inp = Some p ->
               selected_semantic_model_path (ss (snd after)) = Some p).
Proof.
  intros E inp [[m a wa f fi po sel] lg qc u] HE Hreset after.
  unfold after, script_run, before_script, main, main_open,
    show_header_and_sidebar, reset_session_state.
  run.
  destruct (in_model_change inp) as [p|] eqn:Hp; run.
  - destruct (in_clear inp); run; cbn [length Z.of_nat Z.eqb]; run;
      match goal with
      | |- context [process_user_input E inp ?q ?W] =>
          destruct (cycle_succeeds E inp q W [system_turn] HE eq_refl)
            as (c & rid & wl & Hq); rewrite Hq
      end; run; unfold cycle_state; cbn; repeat split; congruence.
  - destruct Hreset as [Hc|Hc]; [|congruence]. rewrite Hc.
    destruct m as [ms|]; destruct sel; run; cbn [length Z.of_nat Z.eqb]; run;
      match goal with
      | |- context [process_user_input E inp ?q ?W] =>
          destruct (cycle_succeeds E inp q W [system_turn] HE eq_refl)
            as (c & rid & wl & Hq); rewrite Hq
      end; run; unfold cycle_state; cbn; repeat split; congruence.
Qed.

(** Clearing the chat of a session that holds a feedback record. *)
Lemma reset_discards_feedback_witness :
  let inp := mk_inputs None true None (fun _ => false) (fun _ _ => None)
               (fun _ => None) (fun _ => EmptyString) (fun _ => false) in
  form_submitted (ss (snd (script_run (sample_env (mk_response 200 body_hi)) inp
                             session_rated)))
  = Some [].
Proof.
  intros inp.
  refine (proj1 (reset_discards_feedback (sample_env (mk_response 200 body_hi)) inp
                   session_rated sample_succeeds _)).
  left. reflexivity.
Defined.

(** X16. For a verified query [display_sql_confidence] draws its five fields
    in order: name, question, verified by, verified at, and the query
    itself.  The fields are read one at a time, each just before it is
    drawn: a verified query without a [verified_by] entry raises [KeyError]
    once its name and question are drawn. *)
Theorem verified_query_panel :
  forall (E : environment) (c vq : list (string * json))
         (name question : json) (w : world),
    dict_get "verified_query_used" c = Some (JObj vq) ->
    dict_get "name" vq = Some name ->
    dict_get "question" vq = Some question ->
    (forall verified_by verified_at stamp sql,
        dict_get "verified_by" vq = Some verified_by ->
        dict_get "verified_at" vq = Some verified_at ->
        datetime_fromtimestamp E verified_at = Some stamp ->
        dict_get "sql" vq = Some sql ->
        display_sql_confidence E (JObj c) w
        = (Ok tt,
           drawn [(St_popover, [JStr "Verified Query Used"]);
                  (St_container, []);
                  (St_text, [JStr ("Name: " ^^ str E name)]);
                  (St_text, [JStr ("Question: " ^^ str E question)]);
                  (St_text, [JStr ("Verified by: " ^^ str E verified_by)]);
                  (St_text, [JStr ("Verified at: " ^^ stamp)]);
                  (St_text, [JStr "SQL query:"]);
                  (St_code, [sql])] w)) /\
    (dict_get "verified_by" vq = None ->
     display_sql_confidence E (JObj c) w
     = (Raise (KeyError "verified_by"),
        drawn [(St_popover, [JStr "Verified Query Used"]);
               (St_container, []);
               (St_text, [JStr ("Name: " ^^ str E name)]);
               (St_text, [JStr ("Question: " ^^ str E question)])] w)).
Proof.
  intros E c vq name question [s lg qc u] Hv Hn Hq. split.
  - intros verified_by verified_at stamp sql Hb Ha Hs Hsql.
    unfold display_sql_confidence, getitem, py_getitem. cbn [is_None]. run.
    rewrite Hv. run. cbn [is_None]. rewrite Hn. run. rewrite Hq. run.
    rewrite Hb. run. rewrite Ha. run. rewrite Hs. run. rewrite Hsql. run.
    unfold drawn. run. now rewrite <- !app_assoc.
  - intros Hb.
    unfold display_sql_confidence, getitem, py_getitem. cbn [is_None]. run.
    rewrite Hv. run. cbn [is_None]. rewrite Hn. run. rewrite Hq. run.
    rewrite Hb. run. unfold drawn. run. now rewrite <- !app_assoc.
Qed.

Lemma verified_query_panel_witness :
  let w := session_with [] in
  display_sql_confidence (sample_env (mk_response 200 body_hi))
    (JObj [("verified_query_used",
            JObj [("name", JStr "top"); ("question", JStr "who?")])]) w
  = (Raise (KeyError "verified_by"),
     drawn [(St_popover, [JStr "Verified Query Used"]);
            (St_container, []);
            (St_text, [JStr "Name: top"]);
            (St_text, [JStr "Question: who?"])] w).
Proof.
  intros w.
  exact (proj2 (verified_query_panel (sample_env (mk_response 200 body_hi))
                  [("verified_query_used",
                    JObj [("name", JStr "top"); ("question", JStr "who?")])]
                  [("name", JStr "top"); ("question", JStr "who?")]
                  (JStr "top") (JStr "who?") w eq_refl eq_refl eq_refl) eq_refl).
Defined.
